(** * on-off-hours: the vibration segmentation and cycle-counting engine

    A shallow embedding of [integrated_main.py] and [integrated_runonce.py]:
    the extraction of a channel value from a raw reading payload, the
    cleaning and ON/OFF classification of a batch, the windowed ON-time
    aggregation and the cycle counter, followed by the properties the
    specification states about them.

    Conventions of the embedding.
    - Sensor values are IEEE binary64 numbers, as Python's [float] and the
      [float64] columns of pandas: Rocq's primitive floats, whose [<?] and
      [<=?] are the comparisons of the code (false on NaN).
    - A timestamp is the integer number of nanoseconds since the epoch, as
      pandas stores [datetime64[ns]]; a [Timedelta] is a number of nanoseconds.
    - [total_seconds()] and the sums of seconds are computed exactly, in [Q]
      (the rounding of the float additions is not modelled).
    - A channel column is a [float64] column, in which pandas keeps a
      [None] returned by the extraction as NaN (what it infers as soon as
      one reading of the batch has a value for the channel).
    - A Python exception is a value [Raise e] of the [result] type; a
      [while] loop is iterated with fuel, [None] standing for a loop that
      does not end.
    - [process_vibration_data] is split at the end of the extraction:
      [extract_channels] builds the frame of channel columns from the
      payloads, [process_frame] is the rest of the function. *)

From Stdlib Require Import ZArith QArith Qround Qminmax List Sorted Permutation String Ascii
  Bool Lia Lqa.
From Stdlib Require Import Floats.
Import ListNotations.

Local Open Scope Z_scope.
#[local] Set Warnings "-inexact-float".

(* ===================================================================== *)
(** ** Python floats *)
(* ===================================================================== *)

Module PyFloat.

Local Open Scope float_scope.

(** [pd.isna] / [math.isnan] on a float. *)
Definition isnan (x : float) : bool := PrimFloat.is_nan x.

(** [float(n)] for a Python [int]: the nearest binary64 (ties to even),
    [None] standing for [OverflowError] when [n] is out of range. *)
Definition of_int (n : Z) : option float :=
  match binary_normalize prec emax n 0%Z false with
  | S754_infinity _ => None
  | sf => Some (SF2Prim sf)
  end.

End PyFloat.

(* ===================================================================== *)
(** ** Python values, exceptions *)
(* ===================================================================== *)

(** The exceptions the two files name, and the ones their code can meet. *)
Inductive exn : Type :=
| JSONDecodeError
| AttributeError
| KeyError
| ValueError
| TypeError
| OverflowError
| RecursionError.

Definition exn_eqb (a b : exn) : bool :=
  match a, b with
  | JSONDecodeError, JSONDecodeError | AttributeError, AttributeError
  | KeyError, KeyError | ValueError, ValueError
  | TypeError, TypeError | OverflowError, OverflowError
  | RecursionError, RecursionError => true
  | _, _ => false
  end.

(** The outcome of a Python expression: a value, or a raised exception. *)
Inductive result (A : Type) : Type :=
| Ok (a : A)
| Raise (e : exn).
Arguments Ok {A} a.
Arguments Raise {A} e.

Definition bind {A B} (r : result A) (k : A -> result B) : result B :=
  match r with
  | Ok a => k a
  | Raise e => Raise e
  end.

Notation "x <- r ;; k" := (bind r (fun x => k))
  (at level 61, r at next level, right associativity).

(** [try: body except (e1, ..., en): return handler]. *)
Definition try_except {A} (body : result A) (caught : list exn) (handler : A) : result A :=
  match body with
  | Ok a => Ok a
  | Raise e => if existsb (exn_eqb e) caught then Ok handler else Raise e
  end.

(** The Python objects a reading payload is made of: what [json.loads]
    returns, and what the database driver hands over for a JSON column.
    A [dict] is its items in insertion order (keys are distinct). *)
#[warnings="-register-all"]
Inductive pyval : Type :=
| PyNone
| PyBool (b : bool)
| PyInt (n : Z)
| PyFloat (x : float)
| PyStr (s : string)
| PyList (items : list pyval)
| PyDict (items : list (string * pyval)).

(** [obj[key]] for a [str] key: only a [dict] can be subscripted by a
    string; a missing key is a [KeyError], anything else a [TypeError]. *)
Definition getitem (obj : pyval) (key : string) : result pyval :=
  match obj with
  | PyDict items =>
      match find (fun kv => String.eqb (fst kv) key) items with
      | Some kv => Ok (snd kv)
      | None => Raise KeyError
      end
  | _ => Raise TypeError
  end.

(** [for x in obj]: the elements of a list, the keys of a dict, the
    characters of a str; the other objects are not iterable. *)
Definition py_iter (obj : pyval) : result (list pyval) :=
  match obj with
  | PyList items => Ok items
  | PyDict items => Ok (map (fun kv => PyStr (fst kv)) items)
  | PyStr s => Ok (map (fun c => PyStr (String c EmptyString)) (list_ascii_of_string s))
  | _ => Raise TypeError
  end.

(** [obj == s] for a [str] s. *)
Definition py_eq_str (obj : pyval) (s : string) : bool :=
  match obj with
  | PyStr t => String.eqb t s
  | _ => false
  end.

Section ValueExtractor.

(** The two library functions on text, not modelled further:
    [json.loads], which returns the decoded object or raises (a
    [JSONDecodeError] for a text that is not JSON, but also a plain
    [ValueError] for an integer literal of too many digits and a
    [RecursionError] for a text nested too deeply), and [float] on a
    [str] ([None] for [ValueError]). *)
Variable json_loads : string -> result pyval.
Variable float_of_str : string -> option float.

(** [float(value)]. *)
Definition py_float (value : pyval) : result float :=
  match value with
  | PyFloat x => Ok x
  | PyInt n =>
      match PyFloat.of_int n with
      | Some x => Ok x
      | None => Raise OverflowError
      end
  | PyBool b => Ok (if b then 1%float else 0%float)
  | PyStr s =>
      match float_of_str s with
      | Some x => Ok x
      | None => Raise ValueError
      end
  | PyNone | PyList _ | PyDict _ => Raise TypeError
  end.

(** The [for reading in readings] loop of [extract_sensor_value], with
    its [return None] after the loop. *)
Fixpoint scan_readings (readings : list pyval) (sensor_type : string)
  : result (option float) :=
  match readings with
  | [] => Ok None
  | reading :: rest =>
      ty <- getitem reading "sensor_type" ;;
      if py_eq_str ty sensor_type then
        value <- getitem reading "value" ;;
        try_except (x <- py_float value ;; Ok (Some x)) [ValueError; TypeError] None
      else scan_readings rest sensor_type
  end.

(** [extract_sensor_value] (the same text in both files). *)
Definition extract_sensor_value (sensor_readings : pyval) (sensor_type : string)
  : result (option float) :=
  try_except
    (readings <- match sensor_readings with
                 | PyStr s => json_loads s
                 | _ => Ok sensor_readings
                 end ;;
     items <- py_iter readings ;;
     scan_readings items sensor_type)
    [JSONDecodeError; AttributeError; KeyError] None.

End ValueExtractor.

(* ===================================================================== *)
(** ** The data frame *)
(* ===================================================================== *)

(** The seven channels [process_vibration_data] extracts into columns. *)
Inductive channel : Type := SX | SY | SZ | T1 | T2 | IRT | S_.

Definition channel_name (c : channel) : string :=
  match c with
  | SX => "sX" | SY => "sY" | SZ => "sZ"
  | T1 => "t1" | T2 => "t2" | IRT => "IRT" | S_ => "s"
  end.

Definition channel_eqb (a b : channel) : bool :=
  match a, b with
  | SX, SX | SY, SY | SZ, SZ | T1, T1 | T2, T2 | IRT, IRT | S_, S_ => true
  | _, _ => false
  end.

(** A row as fetched: the payload and the timestamp (nanoseconds). *)
Record raw_row : Type := { sensor_readings : pyval; raw_time : Z }.

(** A row once the channel columns exist. A column is a [float64] one:
    an absent value ([None]) is stored as NaN. *)
Record row : Type := { row_time : Z; col : channel -> float }.

(** What the day loops read of a row: its ['time'], its value in the
    column [sensor_column] and its ['ON'] flag. *)
Record classified : Type := { time : Z; value : float; ON : bool }.

Definition nan : float := PrimFloat.nan.

Definition to_cell (v : option float) : float :=
  match v with
  | Some x => x
  | None => nan
  end.

Definition set_col (c : channel) (f : float -> float) (r : row) : row :=
  {| row_time := row_time r;
     col := fun c' => if channel_eqb c' c then f (col r c') else col r c' |}.

(** [data[col].fillna(0)]. *)
Definition fillna0 (v : float) : float :=
  if PyFloat.isnan v then 0%float else v.

(** [data.loc[(data[col] > 7) | (data[col] < -7), col] = 0]. *)
Definition clean (v : float) : float :=
  if (7 <? v)%float || (v <? -7)%float then 0%float else v.

(** [(data[c] > positive_threshold) | (data[c] < negative_threshold)]. *)
Definition is_on (positive_threshold negative_threshold v : float) : bool :=
  (positive_threshold <? v)%float || (v <? negative_threshold)%float.

Definition ns_per_second : Z := 1000000000.
Definition ns_per_day : Z := 86400 * ns_per_second.

(** [.dt.date]: the calendar day, as a day number. *)
Definition date_of (t : Z) : Z := t / ns_per_day.

(** [Timedelta.total_seconds()]. *)
Definition total_seconds (td : Z) : Q := td # 1000000000.

(** [pd.Timedelta(minutes=window_size)]. *)
Definition Timedelta_minutes (window_size : Z) : Z := window_size * 60 * ns_per_second.

(** [sort_values('time')]: ascending; rows of equal time keep their order. *)
Fixpoint insert_by_time (r : classified) (l : list classified) : list classified :=
  match l with
  | [] => [r]
  | x :: l' => if time r <=? time x then r :: l else x :: insert_by_time r l'
  end.

Definition sort_values_time (l : list classified) : list classified :=
  fold_right insert_by_time [] l.

(** The keys of [groupby('date')]: the distinct dates, ascending. *)
Fixpoint insert_date (d : Z) (l : list Z) : list Z :=
  match l with
  | [] => [d]
  | x :: l' =>
      if d <? x then d :: l
      else if d =? x then l
      else x :: insert_date d l'
  end.

Definition group_keys (data : list classified) : list Z :=
  fold_right insert_date [] (map (fun r => date_of (time r)) data).

Definition get_group (data : list classified) (d : Z) : list classified :=
  filter (fun r => date_of (time r) =? d) data.

(* ===================================================================== *)
(** ** Loops *)
(* ===================================================================== *)

(** What one execution of a loop body asks for. *)
Inductive ctl (St : Type) : Type :=
| Continue (s : St)
| Break (s : St).
Arguments Continue {St} s.
Arguments Break {St} s.

Definition ctl_state {St} (c : ctl St) : St :=
  match c with Continue s | Break s => s end.

(** [while cond: body], with [break]. [fuel] bounds the number of times
    the condition is tested; [None] is a loop still running when it is
    used up. A body that is itself [None] contains such a loop. *)
Fixpoint while_loop {St : Type} (fuel : nat) (cond : St -> bool)
  (body : St -> option (ctl St)) (s : St) : option St :=
  match fuel with
  | O => None
  | S fuel' =>
      if cond s then
        match body s with
        | Some (Continue s') => while_loop fuel' cond body s'
        | Some (Break s') => Some s'
        | None => None
        end
      else Some s
  end.

(* ===================================================================== *)
(** ** One day of readings *)
(* ===================================================================== *)

(** The rows of the result list. *)
Record day_result : Type := {
  date : Z;
  on_hours : Z;
  on_minutes : Z;
  off_hours : Z;
  off_minutes : Z;
  total_on_seconds : Q;
  cycle_count : Z
}.

(** [divmod(a, 60)]. *)
Definition divmod60 (a : Z) : Z * Z := (a / 60, a mod 60).

(** [int(x // 60)]. *)
Definition whole_minutes (x : Q) : Z := Qfloor (x / 60)%Q.

(** [total_seconds_in_day - total_on_seconds], the local
    [total_off_seconds] of the day loop. *)
Definition total_seconds_in_day : Q := (24 * 3600)%Q.
Definition total_off_seconds (total_on : Q) : Q := (total_seconds_in_day - total_on)%Q.

(** [Series.max()] and [Series.min()] of a non-empty column of times. *)
Definition time_max (l : list classified) : Z :=
  match l with
  | [] => 0
  | x :: l' => fold_left (fun m r => Z.max m (time r)) l' (time x)
  end.

Definition time_min (l : list classified) : Z :=
  match l with
  | [] => 0
  | x :: l' => fold_left (fun m r => Z.min m (time r)) l' (time x)
  end.

Section Day.

Variables positive_threshold max_vibration : float.
Variable consecutive_off_count : Z.
Variable window_delta : Z.
(** The day's rows, after [sort_values('time').reset_index(drop=True)]. *)
Variable group : list classified.

Definition len_group : nat := List.length group.

(** [group.iloc[i]]; every use is guarded by [i < len(group)]. *)
Definition iloc (i : nat) : classified :=
  nth i group {| time := 0; value := nan; ON := false |}.

(** [group.loc[j, sensor_column]]. *)
Definition loc (j : nat) : float := value (iloc j).

(** *** Part 1: total ON time *)

(** [group[(group['time'] >= current_time) & (group['time'] < window_end_time)]]. *)
Definition window_rows (current_time window_end_time : Z) : list classified :=
  filter (fun r => (current_time <=? time r) && (time r <? window_end_time)) group.

(** The body of [while i < len(group)], on the state [(i, total_on_seconds)]. *)
Definition on_time_body (st : nat * Q) : nat * Q :=
  let '(i, total) := st in
  if ON (iloc i) then
    let current_time := time (iloc i) in
    let window_end_time := current_time + window_delta in
    let window_data := window_rows current_time window_end_time in
    let total :=
      if (1 <? List.length window_data)%nat then
        let time_diff := total_seconds (time_max window_data - time_min window_data) in
        (total + Qmin time_diff (total_seconds window_delta))%Q
      else total in
    ((i + List.length window_data)%nat, total)
  else ((i + 1)%nat, total).

Definition on_time_loop (fuel : nat) (st : nat * Q) : option (nat * Q) :=
  while_loop fuel (fun st => (fst st <? len_group)%nat)
    (fun st => Some (Continue (on_time_body st))) st.

(** The value of [total_on_seconds] after the loop ([None]: the loop
    does not end). *)
Definition sum_on_seconds : option Q :=
  option_map snd (on_time_loop (S len_group) (0%nat, 0%Q)).

(** *** Part 2: ON/OFF cycles *)

(** The test of the search and of the slide:
    [v is not None and v > positive_threshold and v <= max_vibration]
    (a cell of a float column is never [None]). *)
Definition valid_on (v : float) : bool :=
  (positive_threshold <? v)%float && (v <=? max_vibration)%float.

(** The test of the confirmation loop:
    [v is None or v <= positive_threshold or v > max_vibration]. *)
Definition off_reading (v : float) : bool :=
  (v <=? positive_threshold)%float || (max_vibration <? v)%float.

(** "Slide forward until an OFF reading or value > max_vibration". *)
Definition slide_body (j : nat) : ctl nat :=
  let j := (j + 1)%nat in
  if (len_group <=? j)%nat then Break j else Continue j.

Definition slide (j : nat) : option nat :=
  while_loop (S len_group)
    (fun j => (j <? len_group)%nat && valid_on (loc j))
    (fun j => Some (slide_body j)) j.

(** "Check for OFF confirmation", on the state [(j, off_counter)]. *)
Definition confirm_body (st : nat * Z) : ctl (nat * Z) :=
  let '(j, off_counter) := st in
  let off_counter := if off_reading (loc j) then off_counter + 1 else 0 in
  if consecutive_off_count <=? off_counter then Break (j, off_counter)
  else
    let j := (j + 1)%nat in
    if (len_group <=? j)%nat then Break (j, off_counter) else Continue (j, off_counter).

Definition confirm_off (j : nat) : option (nat * Z) :=
  while_loop (S len_group) (fun st => (fst st <? len_group)%nat)
    (fun st => Some (confirm_body st)) (j, 0).

(** The body of [while j < len(group)], on the state [(j, cycle_count)]. *)
Definition search_body (st : nat * Z) : option (ctl (nat * Z)) :=
  let '(j, count) := st in
  if valid_on (loc j) then
    let count := count + 1 in
    match slide j with
    | Some j =>
        match confirm_off j with
        | Some (j, _) => Some (Continue (j, count))
        | None => None
        end
    | None => None
    end
  else Some (Continue ((j + 1)%nat, count)).

Definition count_cycles : option Z :=
  option_map snd
    (while_loop (S len_group) (fun st => (fst st <? len_group)%nat) search_body (0%nat, 0)).

(** *** The day's record *)

Definition process_day (d : Z) : option day_result :=
  match sum_on_seconds, count_cycles with
  | Some total_on, Some cycles =>
      let '(on_h, on_m) := divmod60 (whole_minutes total_on) in
      let '(off_h, off_m) := divmod60 (whole_minutes (total_off_seconds total_on)) in
      Some {| date := d;
              on_hours := on_h; on_minutes := on_m;
              off_hours := off_h; off_minutes := off_m;
              total_on_seconds := total_on;
              cycle_count := cycles |}
  | _, _ => None
  end.

End Day.

(* ===================================================================== *)
(** ** The batch *)
(* ===================================================================== *)

Definition vibration_columns : list channel := [SX; SY; SZ].

(** The frame whose channel columns are [cols], row by row. *)
Definition frame_of_columns (times : list Z) (cols : channel -> list float) : list row :=
  map (fun kt => {| row_time := snd kt; col := fun c => nth (fst kt) (cols c) nan |})
      (combine (seq 0 (List.length times)) times).

(** "Clean vibration values": the three vibration columns, one after the other. *)
Definition clean_vibration (data : list row) : list row :=
  fold_left (fun data c => map (set_col c clean) data) vibration_columns data.

(** The ['ON'] column. *)
Definition classify (sensor_column : channel) (positive_threshold negative_threshold : float)
  (data : list row) : list classified :=
  map (fun r => {| time := row_time r;
                   value := col r sensor_column;
                   ON := is_on positive_threshold negative_threshold (col r sensor_column) |})
      data.

(** [for date, group in data.groupby('date')]: the day records, in date
    order; [None] when the loop of some day does not end. *)
Fixpoint for_each_day (f : Z -> option day_result) (keys : list Z) : option (list day_result) :=
  match keys with
  | [] => Some []
  | d :: keys' =>
      match f d with
      | Some r => option_map (cons r) (for_each_day f keys')
      | None => None
      end
  end.

Definition days (positive_threshold max_vibration : float)
  (consecutive_off_count window_size : Z) (data : list classified) : option (list day_result) :=
  let window_delta := Timedelta_minutes window_size in
  for_each_day
    (fun d =>
       let group := sort_values_time (get_group data d) in
       process_day positive_threshold max_vibration
         consecutive_off_count window_delta group d)
    (group_keys data).

Section Extraction.

Variable json_loads : string -> result pyval.
Variable float_of_str : string -> option float.

(** [data["sensor_readings"].apply(lambda x: extract_sensor_value(x, sensor))],
    stored as a float column. *)
Fixpoint apply_extract (payloads : list pyval) (sensor : string) : result (list float) :=
  match payloads with
  | [] => Ok []
  | x :: rest =>
      v <- extract_sensor_value json_loads float_of_str x sensor ;;
      vs <- apply_extract rest sensor ;;
      Ok (to_cell v :: vs)
  end.

(** "Extract sensor values": one column per sensor, in the order of the
    list; the first exception ends the call. *)
Definition extract_channels (data : list raw_row) : result (list row) :=
  let payloads := map sensor_readings data in
  c_sX <- apply_extract payloads (channel_name SX) ;;
  c_sY <- apply_extract payloads (channel_name SY) ;;
  c_sZ <- apply_extract payloads (channel_name SZ) ;;
  c_t1 <- apply_extract payloads (channel_name T1) ;;
  c_t2 <- apply_extract payloads (channel_name T2) ;;
  c_IRT <- apply_extract payloads (channel_name IRT) ;;
  c_s <- apply_extract payloads (channel_name S_) ;;
  Ok (frame_of_columns (map raw_time data)
        (fun c => match c with
                  | SX => c_sX | SY => c_sY | SZ => c_sZ
                  | T1 => c_t1 | T2 => c_t2 | IRT => c_IRT | S_ => c_s
                  end)).

(** The column of a channel for which no reading of a batch (not empty)
    has a value: every extraction returned [None], and pandas keeps the
    column as a column of [None] objects, not of floats. *)
Definition object_column (data : list raw_row) (c : channel) : bool :=
  match data with
  | [] => false
  | _ =>
      forallb (fun x =>
                 match extract_sensor_value json_loads float_of_str
                         (sensor_readings x) (channel_name c) with
                 | Ok None => true
                 | _ => false
                 end) data
  end.

End Extraction.

(** *** integrated_main.py *)

Module integrated_main.

(** "Fill NaN/None values with 0 to prevent comparison errors". *)
Definition fill_columns (data : list row) : list row :=
  map (fun r => {| row_time := row_time r; col := fun c => fillna0 (col r c) |}) data.

(** [process_vibration_data] from the filling of the columns on: the
    result list (the frame returned with it is left out). *)
Definition process_frame (data : list row) (sensor_column : channel)
  (positive_threshold negative_threshold : float) (window_size : Z)
  (max_vibration : float) (consecutive_off_count : Z)
  : option (list day_result) :=
  let data := fill_columns data in
  let data := clean_vibration data in
  let data := classify sensor_column positive_threshold negative_threshold data in
  days positive_threshold max_vibration consecutive_off_count window_size data.

Definition process_vibration_data
  (json_loads : string -> result pyval) (float_of_str : string -> option float)
  (data : list raw_row) (sensor_column : channel)
  (positive_threshold negative_threshold : float) (window_size : Z)
  (max_vibration : float) (consecutive_off_count : Z)
  : result (option (list day_result)) :=
  frame <- extract_channels json_loads float_of_str data ;;
  Ok (process_frame frame sensor_column positive_threshold negative_threshold
        window_size max_vibration consecutive_off_count).

End integrated_main.

(** *** integrated_runonce.py *)

Module integrated_runonce.

(** The same function without the [sensor_column] parameter (the column
    is ['sZ']) and without the filling of the columns: an absent value
    stays NaN. [process_frame] is the function on a frame whose ['sZ']
    column is a float column. *)
Definition process_frame (data : list row)
  (positive_threshold negative_threshold : float) (window_size : Z)
  (max_vibration : float) (consecutive_off_count : Z)
  : option (list day_result) :=
  let data := clean_vibration data in
  let data := classify SZ positive_threshold negative_threshold data in
  days positive_threshold max_vibration consecutive_off_count window_size data.

(** When no reading of the batch has an ['sZ'] value the column holds
    [None] objects: the comparisons on the whole column give [False] (no
    row is ON, the ON-time loop of the first day ends), and the first
    test of the cycle loop, [group.loc[j, 'sZ'] > positive_threshold],
    compares [None] with a float and raises [TypeError]. *)
Definition process_vibration_data
  (json_loads : string -> result pyval) (float_of_str : string -> option float)
  (data : list raw_row)
  (positive_threshold negative_threshold : float) (window_size : Z)
  (max_vibration : float) (consecutive_off_count : Z)
  : result (option (list day_result)) :=
  frame <- extract_channels json_loads float_of_str data ;;
  if object_column json_loads float_of_str data SZ
  then Raise TypeError
  else Ok (process_frame frame positive_threshold negative_threshold
             window_size max_vibration consecutive_off_count).

End integrated_runonce.

(** [insert_metrics_to_db]: the value stored as ['op_hours']. *)
Definition on_hours_decimal (r : day_result) : Q :=
  (inject_Z (on_hours r) + inject_Z (on_minutes r) / 60)%Q.

(** The two rows upserted for a day, keyed by [(device_id, metric_type, metric_date)]. *)
Inductive metric_data : Type :=
| OpHours (hours : Q)
| OpCycles (cycles : Z).

Definition insert_metrics_to_db (results : list day_result) (device_id : string)
  : list (string * string * Z * metric_data) :=
  flat_map (fun r =>
              [ (device_id, "op_hours"%string, date r, OpHours (on_hours_decimal r));
                (device_id, "op_cycles"%string, date r, OpCycles (cycle_count r)) ])
           results.

(* ===================================================================== *)
(** ** Sample batches *)
(* ===================================================================== *)

(** A row read [seconds] after the epoch whose payload names the channel
    ['sZ'] alone ([None]: not even that one). *)
Definition sZ_row (seconds : Z) (v : option float) : row :=
  {| row_time := seconds * ns_per_second;
     col := fun c => match c with SZ => to_cell v | _ => nan end |}.

(** The scenario of the specification: 0.1 at 0 min, 0.5 at 5 min, 0.6 at
    8 min of one day. *)
Definition scenario : list row :=
  [sZ_row 0 (Some 0.1%float); sZ_row 300 (Some 0.5%float); sZ_row 480 (Some 0.6%float)].

(** The record the engine computes for it. *)
Definition scenario_day : day_result :=
  {| date := 0;
     on_hours := 0; on_minutes := 3;
     off_hours := 23; off_minutes := 57;
     total_on_seconds := 180000000000 # 1000000000;
     cycle_count := 1 |}.

(** One reading per second: an ON reading, fifty readings at 0.1, a
    reading without an ['sZ'] value, forty-nine more at 0.1 (which makes a
    hundred readings that are not ON), and an ON reading again. *)
Definition quiet (first count : nat) : list row :=
  map (fun k => sZ_row (Z.of_nat k) (Some 0.1%float)) (seq first count).

Definition dropout_batch : list row :=
  [sZ_row 0 (Some 0.5%float)] ++ quiet 1 50 ++ [sZ_row 51 None] ++ quiet 52 49
  ++ [sZ_row 101 (Some 0.5%float)].

(** The day's rows of [dropout_batch] as [integrated_runonce] sees them. *)
Definition dropout_group : list classified :=
  sort_values_time
    (get_group (classify SZ 0.41%float (-0.41)%float (clean_vibration dropout_batch)) 0).

(** The day's rows of [scenario], classified and sorted. *)
Definition scenario_group : list classified :=
  sort_values_time
    (get_group (classify SZ 0.41%float (-0.41)%float (clean_vibration scenario)) 0).

(** Payloads: a well-formed list of entries, and a single entry that is
    not wrapped in a list. *)
Definition entry (sensor_type : string) (v : pyval) : pyval :=
  PyDict [("sensor_type"%string, PyStr sensor_type); ("value"%string, v)].

Definition bare_entry : pyval := entry "sZ" (PyFloat 1%float).

(** The scenario as fetched: each payload a list with one ['sZ'] entry. *)
Definition scenario_raw : list raw_row :=
  [ {| sensor_readings := PyList [entry "sZ" (PyFloat 0.1%float)]; raw_time := 0 |};
    {| sensor_readings := PyList [entry "sZ" (PyFloat 0.5%float)];
       raw_time := 300 * ns_per_second |};
    {| sensor_readings := PyList [entry "sZ" (PyFloat 0.6%float)];
       raw_time := 480 * ns_per_second |} ].

(** A day of two rows: an ON reading, then a spike above the 3.0 ceiling. *)
Definition spike_group : list classified :=
  [ {| time := 0; value := 0.5%float; ON := true |};
    {| time := ns_per_second; value := 3.5%float; ON := true |} ].

(** A reading at the positive threshold, one at the negative threshold
    and one above the positive threshold, a second apart. *)
Definition boundary_batch : list row :=
  [sZ_row 0 (Some 0.41%float); sZ_row 1 (Some (-0.41)%float); sZ_row 2 (Some 0.5%float)].

(** Two ON readings 59 seconds apart. *)
Definition short_run : list row :=
  [sZ_row 0 (Some 0.5%float); sZ_row 59 (Some 0.5%float)].

(* ===================================================================== *)
(** ** Vocabulary of the properties *)
(* ===================================================================== *)

Definition time_le (a b : classified) : Prop := time a <= time b.

(** A day's rows in ascending order of time. *)
Definition time_sorted (l : list classified) : Prop := StronglySorted time_le l.

(** [m] is the latest (earliest) time among the rows [l]. *)
Definition is_max_time (l : list classified) (m : Z) : Prop :=
  (exists r, In r l /\ time r = m) /\ forall r, In r l -> time r <= m.

Definition is_min_time (l : list classified) (m : Z) : Prop :=
  (exists r, In r l /\ time r = m) /\ forall r, In r l -> m <= time r.

(** The time [t'] lies in the half-open window [[t, t + w)]. *)
Definition in_window (t w t' : Z) : Prop := t <= t' < t + w.

(** The rows [window_data] of the window opened at row [i]. *)
Definition window_at (window_delta : Z) (group : list classified) (i : nat)
  : list classified :=
  window_rows group (time (iloc group i)) (time (iloc group i) + window_delta).

(** The invariant of the ON-time loop: what has been credited so far is
    covered by the time elapsed from the first row to the pointer (to the
    last row, once the pointer is past it). *)
Definition on_time_inv (group : list classified) (st : nat * Q) : Prop :=
  (0 <= snd st)%Q /\
  (snd st <= total_seconds
               (time (iloc group (Nat.min (fst st) (List.length group - 1)))
                - time (iloc group 0)))%Q.

(** The results of either call site. *)
Definition engine_results (data : list row) (sensor_column : channel)
  (positive_threshold negative_threshold : float) (window_size : Z)
  (max_vibration : float) (consecutive_off_count : Z) (results : list day_result) : Prop :=
  integrated_main.process_frame data sensor_column positive_threshold negative_threshold
    window_size max_vibration consecutive_off_count = Some results \/
  (sensor_column = SZ /\
   integrated_runonce.process_frame data positive_threshold negative_threshold
     window_size max_vibration consecutive_off_count = Some results).

(* ===================================================================== *)
(** ** Vocabulary of the payloads *)
(* ===================================================================== *)

(** An entry the scan passes over: it has a ['sensor_type'] and it is not
    the channel asked for. *)
Definition passes_over (sensor_type : string) (e : pyval) : Prop :=
  exists ty, getitem e "sensor_type" = Ok ty /\ py_eq_str ty sensor_type = false.

(** An entry at which the scan stops with an absent value: a dict without
    ['sensor_type'], or an entry of the channel without ['value'] or with
    a value that [float] refuses. *)
Definition stops_absent (float_of_str : string -> option float) (sensor_type : string)
  (e : pyval) : Prop :=
  getitem e "sensor_type" = Raise KeyError \/
  (getitem e "sensor_type" = Ok (PyStr sensor_type) /\
   (getitem e "value" = Raise KeyError \/
    exists v, getitem e "value" = Ok v /\
              (py_float float_of_str v = Raise ValueError \/
               py_float float_of_str v = Raise TypeError))).

(** An entry that cannot make the scan raise: a dict whose ['value'], if
    it is an [int], fits a float. *)
Definition harmless (e : pyval) : Prop :=
  (exists items, e = PyDict items) /\
  forall n, getitem e "value" = Ok (PyInt n) -> PyFloat.of_int n <> None.

(** Library functions that refuse every text, for the examples. *)
Definition no_json : string -> result pyval := fun _ => Raise JSONDecodeError.
Definition no_float : string -> option float := fun _ => None.

(** A [json.loads] that meets an integer literal of too many digits: it
    raises a plain [ValueError]. *)
Definition long_int_json : string -> result pyval := fun _ => Raise ValueError.

(** A payload with a ['t1'] entry, then two ['sZ'] entries, then something
    that is not an entry. *)
Definition mixed_payload : pyval :=
  PyList [entry "t1" (PyFloat 21.5%float); entry "sZ" (PyFloat 0.5%float);
          entry "sZ" (PyFloat 0.25%float); PyInt 7].

(** A payload whose second entry has no ['sensor_type']. *)
Definition broken_payload : pyval :=
  PyList [entry "t1" (PyFloat 21.5%float); PyDict [("value"%string, PyFloat 1%float)];
          entry "sZ" (PyFloat 0.5%float)].

(* ===================================================================== *)
(** ** More sample batches *)
(* ===================================================================== *)



(** The scenario as fetched, followed on the next day by a reading that
    has a temperature and no ['sZ'] value. *)
Definition silent_day_raw : list raw_row :=
  scenario_raw ++
  [ {| sensor_readings := PyList [entry "t1" (PyFloat 21.5%float)];
       raw_time := 86400 * ns_per_second |} ].

Definition silent_day : day_result :=
  {| date := 1;
     on_hours := 0; on_minutes := 0;
     off_hours := 24; off_minutes := 0;
     total_on_seconds := 0;
     cycle_count := 0 |}.

(** The rows of a batch read on day [d]. *)
Definition raw_rows_of_day (d : Z) (data : list raw_row) : list raw_row :=
  filter (fun x => date_of (raw_time x) =? d) data.

(** Readings at least [w] apart, in ascending order. *)
Definition spaced (w : Z) (group : list classified) : Prop :=
  StronglySorted (fun a b => time a + w <= time b) group.

(** Three ON readings a quarter of an hour apart. *)
Definition sparse_group : list classified :=
  [ {| time := 0; value := 0.5%float; ON := true |};
    {| time := 900 * ns_per_second; value := 0.5%float; ON := true |};
    {| time := 1800 * ns_per_second; value := 0.5%float; ON := true |} ].

(** A day of two rows: an ON reading, then one below the negative threshold. *)
Definition dip_group : list classified :=
  [ {| time := 0; value := 0.5%float; ON := true |};
    {| time := ns_per_second; value := (-0.6)%float; ON := true |} ].

(* ===================================================================== *)
(** ** The metrics table *)
(* ===================================================================== *)

(** A row of [machine_metrics]: device, metric type, metric date, data.
    The first three are the key the statements name in [ON CONFLICT]. *)
Definition metric_row : Type := string * string * Z * metric_data.

Definition metric_key (x : metric_row) : string * string * Z := fst x.

Definition key_eqb (a b : string * string * Z) : bool :=
  String.eqb (fst (fst a)) (fst (fst b)) && String.eqb (snd (fst a)) (snd (fst b))
  && (snd a =? snd b).

(** [INSERT ... VALUES x ON CONFLICT (device_id, metric_type, metric_date)
    DO UPDATE SET metric_data = EXCLUDED.metric_data]: the row of the same
    key takes the new data; without one, the row is added. *)
Fixpoint upsert (table : list metric_row) (x : metric_row) : list metric_row :=
  match table with
  | [] => [x]
  | y :: table' =>
      if key_eqb (metric_key y) (metric_key x) then x :: table'
      else y :: upsert table' x
  end.

(** The statements of a call, executed in order, then committed. *)
Definition execute (table : list metric_row) (statements : list metric_row)
  : list metric_row :=
  fold_left upsert statements table.

(** A table with a row of another device and a stale row of the scenario's day. *)
Definition old_table : list metric_row :=
  [ ("HFLT001"%string, "op_hours"%string, 0, OpHours 5);
    ("JKFL003"%string, "op_hours"%string, 0, OpHours 1) ].

(* ===================================================================== *)
(** ** One device ([integrated_main.py]) *)
(* ===================================================================== *)

(** [SENSOR_MAP]. *)
Definition SENSOR_MAP : list (Z * string) :=
  [ (1, "sX"%string); (2, "sY"%string); (3, "sZ"%string);
    (4, "t1"%string); (5, "t2"%string); (6, "sZ"%string) ].

(** [d.get(key)] on the items of a dict ([None]: the key is missing). *)
Definition dict_get (items : list (string * pyval)) (key : string) : option pyval :=
  option_map snd (find (fun kv => String.eqb (fst kv) key) items).

Definition or_default (default : pyval) (v : option pyval) : pyval :=
  match v with Some x => x | None => default end.

(** Whether a Python object equals the [int] key [k], as a dict lookup
    sees it ([True == 1], [1.0 == 1]). *)
Definition py_eq_int (v : pyval) (k : Z) : bool :=
  match v with
  | PyInt n => n =? k
  | PyBool b => (if b then 1 else 0) =? k
  | PyFloat x =>
      match PyFloat.of_int k with
      | Some y => (x =? y)%float
      | None => false
      end
  | _ => false
  end.

(** [SENSOR_MAP.get(sensor_num, "sZ")]; a list or a dict is unhashable. *)
Definition sensor_map_get (sensor_num : pyval) : result string :=
  match sensor_num with
  | PyList _ | PyDict _ => Raise TypeError
  | _ =>
      Ok match find (fun kv => py_eq_int sensor_num (fst kv)) SENSOR_MAP with
         | Some kv => snd kv
         | None => "sZ"%string
         end
  end.

(** [data[name]]: the column of that name ([None]: [KeyError]). *)
Definition column_of_name (name : string) : option channel :=
  find (fun c => String.eqb (channel_name c) name) [SX; SY; SZ; T1; T2; IRT; S_].

(** How [process_device] ends. *)
Inductive device_outcome : Type :=
| Offline
| InvalidThreshold
| NoData
| NoResults
| Stored (statements : list metric_row)
| Failed
| Hangs.

(** [process_device], given what [fetch_device_data] returns for the
    device ([None]: it raised). [Failed] is the [except Exception] branch;
    [Raise] is an exception that leaves the function. *)
Definition process_device
  (json_loads : string -> result pyval) (float_of_str : string -> option float)
  (fetched : option (list raw_row)) (device_id : string)
  (device_config : list (string * pyval)) : result device_outcome :=
  if match dict_get device_config "threshold" with
     | Some v => py_eq_str v "OFFLINE"
     | None => false
     end
  then Ok Offline
  else
    match py_float float_of_str
            (or_default (PyFloat 0.41%float) (dict_get device_config "threshold")) with
    | Raise ValueError | Raise TypeError => Ok InvalidThreshold
    | Raise e => Raise e
    | Ok threshold =>
        sensor_column <- sensor_map_get
                           (or_default (PyInt 6) (dict_get device_config "sensor")) ;;
        Ok match fetched with
           | None => Failed
           | Some [] => NoData
           | Some data =>
               match column_of_name sensor_column with
               | None => Failed
               | Some c =>
                   match integrated_main.process_vibration_data json_loads float_of_str
                           data c threshold (- threshold)%float 15 3%float 100 with
                   | Raise _ => Failed
                   | Ok None => Hangs
                   | Ok (Some []) => NoResults
                   | Ok (Some results) => Stored (insert_metrics_to_db results device_id)
                   end
               end
           end
    end.

(** The configuration of device HFLT001, and a batch whose second
    payload is an entry that is not wrapped in a list. *)
Definition HFLT001_config : list (string * pyval) :=
  [ ("deployed_at"%string, PyStr "2025-2-8"); ("threshold"%string, PyFloat 0.41%float);
    ("sensor"%string, PyInt 6) ].

Definition spoiled_batch : list raw_row :=
  scenario_raw ++ [ {| sensor_readings := bare_entry; raw_time := 600 * ns_per_second |} ].

(* ===================================================================== *)
(** ** Vocabulary of the rows *)
(* ===================================================================== *)


(** What the loops of [integrated_main] read in a cell of column [c]: the
    cell filled, and cleaned when [c] is a vibration column. *)
Definition loop_value_main (c : channel) (v : float) : float :=
  if existsb (channel_eqb c) vibration_columns then clean (fillna0 v) else fillna0 v.

(** The row the day loops read for a reading at time [t] of value [v]. *)
Definition loop_row (positive_threshold negative_threshold : float) (t : Z) (v : float)
  : classified :=
  {| time := t; value := v; ON := is_on positive_threshold negative_threshold v |}.

(* ===================================================================== *)
(** ** The range of the times *)
(* ===================================================================== *)

(** pandas holds a [Timestamp] and a [Timedelta] as a 64-bit number of
    nanoseconds: [pd.Timedelta(minutes=window_size)] and
    [current_time + window_delta] raise beyond this value. *)
Definition Timestamp_max : Z := 2 ^ 63 - 1.

(** A window that pandas can build and add to each of the times. *)
Definition window_fits (window_delta : Z) (times : list Z) : Prop :=
  0 < window_delta <= Timestamp_max /\
  Forall (fun t => t + window_delta <= Timestamp_max) times.

(* ===================================================================== *)
(** ** Floats: the order and NaN *)
(* ===================================================================== *)

Section FloatFacts.

Local Open Scope float_scope.

Lemma SFcompare_refl s : SFcompare s s = Some Eq \/ SFcompare s s = None.
Proof.
  destruct s as [b | b | | b m e]; simpl; auto.
  - destruct b; auto.
  - left. rewrite Z.compare_refl, Pos.compare_cont_refl. destruct b; reflexivity.
Qed.

(** Swapping the operands of a comparison reverses its outcome. *)
Lemma SFcompare_swap s1 s2 :
  SFcompare s2 s1 = option_map CompOpp (SFcompare s1 s2).
Proof.
  destruct s1 as [b1 | b1 | | b1 m1 e1], s2 as [b2 | b2 | | b2 m2 e2];
    simpl; try reflexivity;
    try (repeat match goal with b : bool |- _ => destruct b end; reflexivity).
  assert (Hm : Pos.compare_cont Eq m2 m1 = CompOpp (Pos.compare_cont Eq m1 m2))
    by (symmetry; apply (Pos.compare_cont_antisym m1 m2 Eq)).
  rewrite (Z.compare_antisym e1 e2), Hm.
  destruct b1, b2; try reflexivity;
    destruct (e1 ?= e2)%Z; simpl; try reflexivity;
    destruct (Pos.compare_cont Eq m1 m2); reflexivity.
Qed.

Lemma SFcompare_Lt_Gt s1 s2 :
  SFcompare s1 s2 = Some Lt -> SFcompare s2 s1 = Some Gt.
Proof. intros H. rewrite SFcompare_swap, H. reflexivity. Qed.

(** [<] is irreflexive, also at NaN. *)
Lemma float_ltb_irrefl x : (x <? x) = false.
Proof.
  rewrite ltb_spec. unfold SFltb.
  destruct (SFcompare_refl (Prim2SF x)) as [-> | ->]; reflexivity.
Qed.

(** [x < y] excludes [y <= x]. *)
Lemma float_ltb_not_leb x y : (x <? y) = true -> (y <=? x) = false.
Proof.
  rewrite ltb_spec, leb_spec. unfold SFltb, SFleb.
  destruct (SFcompare (Prim2SF x) (Prim2SF y)) as [[ | | ] | ] eqn:E; try discriminate.
  intros _. now rewrite (SFcompare_Lt_Gt _ _ E).
Qed.

Lemma float_isnan_Prim2SF x : PyFloat.isnan x = true -> Prim2SF x = S754_nan.
Proof.
  unfold PyFloat.isnan, PrimFloat.is_nan. rewrite eqb_spec. unfold SFeqb.
  destruct (Prim2SF x) as [b | b | | b m e]; simpl; try discriminate; auto.
  - destruct b; discriminate.
  - rewrite Z.compare_refl, Pos.compare_cont_refl. destruct b; discriminate.
Qed.

(** Every ordered comparison with a NaN is false. *)
Lemma float_nan_ltb_l x y : PyFloat.isnan x = true -> (x <? y) = false.
Proof.
  intros H. rewrite ltb_spec, (float_isnan_Prim2SF _ H). reflexivity.
Qed.

Lemma float_nan_ltb_r x y : PyFloat.isnan y = true -> (x <? y) = false.
Proof.
  intros H. rewrite ltb_spec, (float_isnan_Prim2SF _ H). unfold SFltb.
  destruct (Prim2SF x); reflexivity.
Qed.

Lemma float_nan_leb_l x y : PyFloat.isnan x = true -> (x <=? y) = false.
Proof.
  intros H. rewrite leb_spec, (float_isnan_Prim2SF _ H). reflexivity.
Qed.

(** [x <= y] excludes [y < x]. *)
Lemma float_leb_not_ltb x y : (x <=? y) = true -> (y <? x) = false.
Proof.
  rewrite ltb_spec, leb_spec. unfold SFltb, SFleb. rewrite (SFcompare_swap (Prim2SF x)).
  destruct (SFcompare (Prim2SF x) (Prim2SF y)) as [[ | | ] | ]; try discriminate;
    reflexivity.
Qed.

(** A positive number is not below a negative one. *)
Lemma float_signs_ordered x y :
  (0 <? x) = true -> (y <? 0) = true -> (x <? y) = false.
Proof.
  rewrite !ltb_spec. change (Prim2SF 0) with (S754_zero false). unfold SFltb.
  destruct (Prim2SF x) as [bx | bx | | bx mx ex], (Prim2SF y) as [b | b | | b m e];
    simpl; try discriminate;
    repeat match goal with b : bool |- _ => destruct b end;
    simpl; try discriminate; reflexivity.
Qed.

End FloatFacts.

(* ===================================================================== *)
(** ** Reasoning about the loops *)
(* ===================================================================== *)

Section WhileRules.

Context {St : Type}.
Variable cond : St -> bool.
Variable body : St -> option (ctl St).

(** An invariant of the body holds of the state the loop ends in. *)
Lemma while_loop_invariant (Inv : St -> Prop) :
  (forall s c, Inv s -> cond s = true -> body s = Some c -> Inv (ctl_state c)) ->
  forall fuel s s', Inv s -> while_loop fuel cond body s = Some s' -> Inv s'.
Proof.
  intros Hbody fuel. induction fuel as [ | fuel IH]; intros s s' Hs Hrun.
  - discriminate.
  - simpl in Hrun. destruct (cond s) eqn:Hc.
    + destruct (body s) as [[s1 | s1] | ] eqn:Hb; try discriminate.
      * apply (IH s1 s'); [ | exact Hrun]. exact (Hbody s _ Hs Hc Hb).
      * inversion Hrun; subst. exact (Hbody s _ Hs Hc Hb).
    + inversion Hrun; subst. exact Hs.
Qed.

(** A loop whose body always returns and lowers a measure whenever it
    asks to continue ends, given fuel above the measure. *)
Lemma while_loop_terminates (Inv : St -> Prop) (measure : St -> nat) :
  (forall s, Inv s -> cond s = true ->
     exists c, body s = Some c /\ Inv (ctl_state c) /\
               (forall s', c = Continue s' -> (measure s' < measure s)%nat)) ->
  forall fuel s, Inv s -> (measure s < fuel)%nat ->
    exists s', while_loop fuel cond body s = Some s'.
Proof.
  intros Hbody fuel. induction fuel as [ | fuel IH]; intros s Hs Hm.
  - lia.
  - simpl. destruct (cond s) eqn:Hc.
    + destruct (Hbody s Hs Hc) as (c & Hb & Hi & Hdec). rewrite Hb.
      destruct c as [s1 | s1].
      * apply IH; [exact Hi | ]. specialize (Hdec s1 eq_refl). lia.
      * eexists; reflexivity.
    + eexists; reflexivity.
Qed.

End WhileRules.

(* ===================================================================== *)
(** ** Sorting and grouping *)
(* ===================================================================== *)


Lemma insert_by_time_In r l x : In x (insert_by_time r l) <-> x = r \/ In x l.
Proof.
  induction l as [ | y l IH]; simpl.
  - intuition.
  - destruct (time r <=? time y); simpl; [intuition | ].
    rewrite IH. intuition.
Qed.

Lemma insert_by_time_sorted r l : time_sorted l -> time_sorted (insert_by_time r l).
Proof.
  unfold time_sorted. induction l as [ | y l IH]; simpl; intros Hs.
  - constructor; constructor.
  - destruct (time r <=? time y) eqn:E.
    + apply Z.leb_le in E. constructor; [exact Hs | ].
      constructor; [exact E | ].
      inversion Hs as [ | ? ? _ Hall]; subst.
      rewrite Forall_forall in *. intros x Hx. specialize (Hall x Hx).
      unfold time_le in *. lia.
    + apply Z.leb_gt in E. inversion Hs as [ | ? ? Hs' Hall]; subst.
      constructor; [auto | ].
      rewrite Forall_forall in *. intros x Hx.
      apply insert_by_time_In in Hx. destruct Hx as [-> | Hx]; [ | auto].
      unfold time_le. lia.
Qed.

Lemma sort_values_time_sorted l : time_sorted (sort_values_time l).
Proof.
  induction l as [ | r l IH]; simpl.
  - constructor.
  - now apply insert_by_time_sorted.
Qed.

Lemma sort_values_time_In l x : In x (sort_values_time l) <-> In x l.
Proof.
  induction l as [ | r l IH]; simpl; [tauto | ].
  rewrite insert_by_time_In, IH. intuition.
Qed.

(** In a sorted day, the times grow with the index. *)
Lemma time_sorted_nth l d a b :
  time_sorted l -> (a <= b)%nat -> (b < List.length l)%nat ->
  time (nth a l d) <= time (nth b l d).
Proof.
  unfold time_sorted. intros Hs. revert a b.
  induction Hs as [ | x l Hs IH Hall]; intros a b Hab Hb; simpl in Hb; [lia | ].
  destruct a as [ | a], b as [ | b]; simpl; try lia.
  - rewrite Forall_forall in Hall. apply Hall. apply nth_In. lia.
  - apply IH; lia.
Qed.

(** Every row of the group of day [d] is in the batch and on day [d]. *)
Lemma get_group_In data d x :
  In x (get_group data d) <-> In x data /\ date_of (time x) = d.
Proof.
  unfold get_group. rewrite filter_In, Z.eqb_eq. tauto.
Qed.

(* ===================================================================== *)
(** ** Part 1: the coalescing window *)
(* ===================================================================== *)


Lemma total_seconds_le a b : a <= b -> (total_seconds a <= total_seconds b)%Q.
Proof. intros H. unfold total_seconds, Qle. simpl. lia. Qed.

Lemma total_seconds_add a b :
  (total_seconds a + total_seconds b == total_seconds (a + b))%Q.
Proof. unfold total_seconds, Qeq, Qplus. simpl. lia. Qed.

Lemma total_seconds_nonneg a : 0 <= a -> (0 <= total_seconds a)%Q.
Proof. intros H. unfold total_seconds, Qle. simpl. lia. Qed.

Lemma fold_max_spec l m0 :
  let m := fold_left (fun m r => Z.max m (time r)) l m0 in
  m0 <= m /\ (forall r, In r l -> time r <= m) /\
  (m = m0 \/ exists r, In r l /\ time r = m).
Proof.
  revert m0. induction l as [ | x l IH]; intros m0; simpl.
  - repeat split; [lia | tauto | auto].
  - destruct (IH (Z.max m0 (time x))) as (H1 & H2 & H3).
    repeat split.
    + lia.
    + intros r [-> | Hr]; [lia | auto].
    + destruct H3 as [H3 | (r & Hr & E)].
      * destruct (Z.max_spec m0 (time x)) as [[_ E] | [_ E]].
        -- right. exists x. split; [now left | now rewrite H3].
        -- left. now rewrite H3.
      * right. exists r. auto.
Qed.

Lemma fold_min_spec l m0 :
  let m := fold_left (fun m r => Z.min m (time r)) l m0 in
  m <= m0 /\ (forall r, In r l -> m <= time r) /\
  (m = m0 \/ exists r, In r l /\ time r = m).
Proof.
  revert m0. induction l as [ | x l IH]; intros m0; simpl.
  - repeat split; [lia | tauto | auto].
  - destruct (IH (Z.min m0 (time x))) as (H1 & H2 & H3).
    repeat split.
    + lia.
    + intros r [-> | Hr]; [lia | auto].
    + destruct H3 as [H3 | (r & Hr & E)].
      * destruct (Z.min_spec m0 (time x)) as [[_ E] | [_ E]].
        -- left. now rewrite H3.
        -- right. exists x. split; [now left | now rewrite H3].
      * right. exists r. auto.
Qed.

Lemma time_max_spec l : l <> [] -> is_max_time l (time_max l).
Proof.
  destruct l as [ | x l]; [congruence | intros _].
  unfold is_max_time, time_max.
  destruct (fold_max_spec l (time x)) as (H1 & H2 & H3). split.
  - destruct H3 as [E | (r & Hr & E)].
    + exists x. split; [left; reflexivity | now rewrite E].
    + exists r. split; [right; exact Hr | exact E].
  - intros r [<- | Hr]; auto.
Qed.

Lemma time_min_spec l : l <> [] -> is_min_time l (time_min l).
Proof.
  destruct l as [ | x l]; [congruence | intros _].
  unfold is_min_time, time_min.
  destruct (fold_min_spec l (time x)) as (H1 & H2 & H3). split.
  - destruct H3 as [E | (r & Hr & E)].
    + exists x. split; [left; reflexivity | now rewrite E].
    + exists r. split; [right; exact Hr | exact E].
  - intros r [<- | Hr]; auto.
Qed.

(** A filter keeps at least the rows of a stretch it accepts whole. *)
Lemma filter_length_stretch {A} (p : A -> bool) (d : A) (l : list A) :
  forall a b, (a <= b)%nat -> (b < List.length l)%nat ->
    (forall k, (a <= k <= b)%nat -> p (nth k l d) = true) ->
    (b + 1 - a <= List.length (filter p l))%nat.
Proof.
  induction l as [ | x l IH]; intros a b Hab Hb Hp; simpl in Hb; [lia | ].
  simpl. destruct a as [ | a].
  - assert (Hx : p x = true) by (apply (Hp 0%nat); lia). rewrite Hx. simpl.
    destruct b as [ | b]; [lia | ].
    assert (b + 1 - 0 <= List.length (filter p l))%nat; [ | lia].
    apply IH; [lia | lia | ]. intros k Hk. apply (Hp (S k)). lia.
  - destruct b as [ | b]; [lia | ].
    assert (b + 1 - a <= List.length (filter p l))%nat.
    { apply IH; [lia | lia | ]. intros k Hk. apply (Hp (S k)). lia. }
    destruct (p x); simpl; lia.
Qed.

Section Window.

Variable window_delta : Z.
Variable group : list classified.
Hypothesis group_sorted : time_sorted group.

Let tm (k : nat) : Z := time (iloc group k).


Lemma window_at_In i x :
  In x (window_at window_delta group i) <-> In x group /\ in_window (tm i) window_delta (time x).
Proof.
  unfold window_at, window_rows, in_window. rewrite filter_In, andb_true_iff.
  rewrite Z.leb_le, Z.ltb_lt. tauto.
Qed.

(** The pointer [i + len(window_data)] is past every row of the window. *)
Lemma window_at_covers i k :
  (i < List.length group)%nat -> (k < List.length group)%nat ->
  in_window (tm i) window_delta (tm k) ->
  (k < i + List.length (window_at window_delta group i))%nat.
Proof.
  intros Hi Hk [Hlo Hhi].
  destruct (Nat.lt_ge_cases k i) as [Hlt | Hge]; [lia | ].
  assert (k + 1 - i <= List.length (window_at window_delta group i))%nat; [ | lia].
  unfold window_at, window_rows.
  apply filter_length_stretch with
    (d := {| time := 0; value := nan; ON := false |});
    [lia | exact Hk | ].
  intros m Hm. apply andb_true_iff. rewrite Z.leb_le, Z.ltb_lt.
  assert (tm i <= tm m) by (apply time_sorted_nth; [exact group_sorted | lia | lia]).
  assert (tm m <= tm k) by (apply time_sorted_nth; [exact group_sorted | lia | lia]).
  unfold tm, iloc in *. lia.
Qed.

(** With a positive window the row that opens it is in it. *)
Lemma window_at_seed i :
  (i < List.length group)%nat -> 0 < window_delta ->
  (1 <= List.length (window_at window_delta group i))%nat.
Proof.
  intros Hi Hw.
  assert (In (iloc group i) (window_at window_delta group i)).
  { apply window_at_In. split; [apply nth_In; exact Hi | ].
    unfold in_window, tm. lia. }
  destruct (window_at window_delta group i); [contradiction | simpl; lia].
Qed.

End Window.

Section OnTime.

Variable window_delta : Z.
Variable group : list classified.
Hypothesis group_sorted : time_sorted group.

Let tm (k : nat) : Z := time (iloc group k).
Let len : nat := List.length group.

(** The time at index [k], or at the last index when [k] is past it. *)
Let tmc (k : nat) : Z := tm (Nat.min k (len - 1)).

Let inv (st : nat * Q) : Prop :=
  (0 <= snd st)%Q /\ (snd st <= total_seconds (tmc (fst st) - tm 0))%Q.

Lemma tmc_mono a b : (a <= b)%nat -> (1 <= len)%nat -> tmc a <= tmc b.
Proof.
  intros Hab Hlen. unfold tmc, tm, iloc.
  apply time_sorted_nth; [exact group_sorted | lia | fold len; lia].
Qed.


Lemma on_time_body_eq i total :
  on_time_body window_delta group (i, total) =
  if ON (iloc group i) then
    let w := window_at window_delta group i in
    ((i + List.length w)%nat,
     if (1 <? List.length w)%nat then
       (total + Qmin (total_seconds (time_max w - time_min w))
                     (total_seconds window_delta))%Q
     else total)
  else ((i + 1)%nat, total).
Proof. reflexivity. Qed.

Lemma on_time_body_inv st :
  on_time_inv group st -> (fst st < len)%nat ->
  on_time_inv group (on_time_body window_delta group st).
Proof.
  change (inv st -> (fst st < len)%nat -> inv (on_time_body window_delta group st)).
  destruct st as [i total]. rewrite on_time_body_eq.
  unfold inv. simpl. intros [H0 Hle] Hi.
  assert (Hlen : (1 <= len)%nat) by lia.
  destruct (ON (iloc group i)) eqn:Hon.
  2:{ simpl. split; [exact H0 | ].
      eapply Qle_trans; [exact Hle | ].
      apply total_seconds_le. pose proof (tmc_mono i (i + 1) ltac:(lia) Hlen). lia. }
  set (w := window_at window_delta group i).
  destruct (1 <? List.length w)%nat eqn:Hn; simpl.
  2:{ split; [exact H0 | ].
      eapply Qle_trans; [exact Hle | ].
      apply total_seconds_le.
      pose proof (tmc_mono i (i + List.length w) ltac:(lia) Hlen). lia. }
  apply Nat.ltb_lt in Hn.
  assert (Hne : w <> []) by (intros E; rewrite E in Hn; simpl in Hn; lia).
  destruct (time_max_spec w Hne) as [(rmax & Hrmax & Emax) Hmax].
  destruct (time_min_spec w Hne) as [(rmin & Hrmin & Emin) Hmin].
  assert (Hspan : time_min w <= time_max w) by (rewrite <- Emin; apply Hmax, Hrmin).
  (* the latest row of the window lies before the new pointer *)
  apply window_at_In in Hrmax. destruct Hrmax as (Hing & Hwin).
  destruct (In_nth _ _ {| time := 0; value := nan; ON := false |} Hing)
    as (k & Hk & Ek).
  assert (Hcov : (k < i + List.length w)%nat).
  { apply window_at_covers; [exact group_sorted | exact Hi | exact Hk | ].
    unfold iloc. rewrite Ek. exact Hwin. }
  assert (Hkmax : time_max w <= tmc (i + List.length w)).
  { rewrite <- Emax, <- Ek. unfold tmc, tm, iloc.
    apply time_sorted_nth; [exact group_sorted | fold len; lia | fold len; lia]. }
  (* the earliest one is not before the row that opens the window *)
  apply window_at_In in Hrmin. destruct Hrmin as (_ & Hwmin).
  assert (Hkmin : tm i <= time_min w) by (rewrite <- Emin; apply Hwmin).
  assert (Hw : 0 < window_delta) by (destruct Hwin; lia).
  assert (Hti : tmc i = tm i) by (unfold tmc; f_equal; lia).
  rewrite Hti in Hle.
  split.
  - apply Qle_trans with (y := (total + 0)%Q); [rewrite Qplus_0_r; exact H0 | ].
    apply Qplus_le_r. apply Q.min_glb; apply total_seconds_nonneg; lia.
  - apply Qle_trans with
      (y := (total_seconds (tm i - tm 0) + total_seconds (time_max w - time_min w))%Q).
    + apply Qplus_le_compat; [exact Hle | apply Q.le_min_l].
    + rewrite total_seconds_add. apply total_seconds_le. lia.
Qed.

End OnTime.

(** The day [d] as an interval of timestamps. *)
Lemma date_of_bounds t d : date_of t = d -> d * ns_per_day <= t < (d + 1) * ns_per_day.
Proof.
  unfold date_of. intros <-.
  assert (H : 0 < ns_per_day) by reflexivity.
  pose proof (Z.mul_div_le t ns_per_day H).
  pose proof (Z.mul_succ_div_gt t ns_per_day H). lia.
Qed.

(** The ON seconds of a day are covered by the span of its readings:
    non-negative and below the length of a day. *)
Lemma sum_on_seconds_bounds window_delta group d total :
  time_sorted group ->
  (forall r, In r group -> date_of (time r) = d) ->
  sum_on_seconds window_delta group = Some total ->
  (0 <= total)%Q /\ (total < 86400)%Q.
Proof.
  intros Hs Hday. unfold sum_on_seconds, on_time_loop.
  destruct (while_loop _ _ _ _) as [[i tot] | ] eqn:Hrun; [ | discriminate].
  simpl. intros E. inversion E; subst tot. clear E.
  assert (Hinv : on_time_inv group (i, total)).
  { apply (while_loop_invariant _ _ (on_time_inv group)) in Hrun; [exact Hrun | | ].
    - intros s c Hi Hc Hb. inversion Hb; subst c. simpl.
      apply on_time_body_inv; [exact Hs | exact Hi | ].
      apply Nat.ltb_lt in Hc. exact Hc.
    - unfold on_time_inv. simpl. split; [apply Qle_refl | ].
      apply total_seconds_nonneg. lia. }
  destruct Hinv as [H0 Hle]. simpl in H0, Hle. split; [exact H0 | ].
  eapply Qle_lt_trans; [exact Hle | ].
  destruct group as [ | x g] eqn:Eg.
  - unfold iloc. destruct (Nat.min _ _); reflexivity.
  - rewrite <- Eg in *.
    assert (Hlen : (0 < List.length group)%nat) by (rewrite Eg; simpl; lia).
    set (k := Nat.min i (List.length group - 1)) in *.
    assert (H1 : In (iloc group k) group) by (apply nth_In; lia).
    assert (H2 : In (iloc group 0) group) by (apply nth_In; lia).
    apply Hday, date_of_bounds in H1. apply Hday, date_of_bounds in H2.
    unfold total_seconds, Qlt. simpl. unfold ns_per_day, ns_per_second in *. lia.
Qed.

(** With a positive window the ON-time loop ends. *)
Lemma sum_on_seconds_returns window_delta group :
  0 < window_delta -> exists total, sum_on_seconds window_delta group = Some total.
Proof.
  intros Hw. unfold sum_on_seconds, on_time_loop.
  destruct (while_loop_terminates
              (fun st : nat * Q => (fst st <? len_group group)%nat)
              (fun st => Some (Continue (on_time_body window_delta group st)))
              (fun _ => True)
              (fun st => (len_group group - fst st)%nat)) with
    (fuel := S (len_group group)) (s := (0%nat, 0%Q)) as [[i tot] Hrun].
  - intros [i tot] _ Hc. simpl in Hc. apply Nat.ltb_lt in Hc.
    eexists. split; [reflexivity | ]. split; [exact I | ].
    intros s' E. injection E as <-.
    pose proof (window_at_seed window_delta group i Hc Hw) as Hseed.
    cbv beta zeta delta [window_at] in Hseed.
    destruct (ON (iloc group i)); simpl; unfold len_group in *; lia.
  - exact I.
  - simpl. lia.
  - rewrite Hrun. simpl. eauto.
Qed.

(* ===================================================================== *)
(** ** Part 2: the cycle counter *)
(* ===================================================================== *)

Lemma filter_firstn_mono {A} (p : A -> bool) (l : list A) a b :
  (a <= b)%nat ->
  (List.length (filter p (firstn a l)) <= List.length (filter p (firstn b l)))%nat.
Proof.
  revert a b. induction l as [ | x l IH]; intros a b Hab.
  - rewrite !firstn_nil. lia.
  - destruct a as [ | a]; [simpl; lia | ].
    destruct b as [ | b]; [lia | ].
    simpl. specialize (IH a b ltac:(lia)). destruct (p x); simpl; lia.
Qed.

Lemma filter_firstn_S {A} (p : A -> bool) (d : A) (l : list A) a :
  (a < List.length l)%nat -> p (nth a l d) = true ->
  List.length (filter p (firstn (S a) l)) = S (List.length (filter p (firstn a l))).
Proof.
  revert a. induction l as [ | x l IH]; intros a Ha Hp; simpl in Ha; [lia | ].
  destruct a as [ | a].
  - simpl in *. rewrite Hp. reflexivity.
  - change (firstn (S (S a)) (x :: l)) with (x :: firstn (S a) l).
    change (firstn (S a) (x :: l)) with (x :: firstn a l).
    change (nth (S a) (x :: l) d) with (nth a l d) in Hp.
    assert (Ha' : (a < List.length l)%nat) by lia.
    specialize (IH a Ha' Hp).
    cbn [filter]. destruct (p x); cbn [List.length]; rewrite IH; reflexivity.
Qed.

Section Cycles.

Variables positive_threshold max_vibration : float.
Variable consecutive_off_count : Z.
Variable group : list classified.

Let len : nat := List.length group.
Let valid (j : nat) : bool := valid_on positive_threshold max_vibration (loc group j).

(** The slide ends, never behind where it starts, and past a row that
    passes its test. *)
Lemma slide_loop_returns fuel j :
  (len - j < fuel)%nat ->
  exists j',
    while_loop fuel
      (fun j => (j <? len_group group)%nat &&
                valid_on positive_threshold max_vibration (loc group j))
      (fun j => Some (slide_body group j)) j = Some j' /\
    (j <= j')%nat /\ ((j < len)%nat -> valid j = true -> (j < j')%nat).
Proof.
  revert j. induction fuel as [ | fuel IH]; intros j Hf; [lia | ].
  simpl. destruct ((j <? len_group group)%nat && _) eqn:Hc.
  - apply andb_true_iff in Hc. destruct Hc as [Hlt _]. apply Nat.ltb_lt in Hlt.
    unfold slide_body. fold len in Hlt |- *. unfold len_group. fold len.
    destruct (len <=? j + 1)%nat eqn:Hend.
    + exists (j + 1)%nat. repeat split; lia.
    + apply Nat.leb_gt in Hend.
      destruct (IH (j + 1)%nat ltac:(lia)) as (j' & Hrun & Hle & _).
      unfold len_group in Hrun. fold len in Hrun.
      exists j'. repeat split; [exact Hrun | lia | lia].
  - exists j. repeat split; [lia | ].
    intros Hlt Hv. apply andb_false_iff in Hc. destruct Hc as [Hc | Hc].
    + apply Nat.ltb_ge in Hc. fold len in Hc. unfold len_group in Hc. fold len in Hc. lia.
    + unfold valid in Hv. congruence.
Qed.

Lemma slide_returns j :
  exists j', slide positive_threshold max_vibration group j = Some j' /\
             (j <= j')%nat /\ ((j < len)%nat -> valid j = true -> (j < j')%nat).
Proof. apply slide_loop_returns. unfold len_group. fold len. lia. Qed.

(** The confirmation loop ends, never behind where it starts. *)
Lemma confirm_loop_returns fuel j c :
  (len - j < fuel)%nat ->
  exists j' c',
    while_loop fuel (fun st : nat * Z => (fst st <? len_group group)%nat)
      (fun st => Some (confirm_body positive_threshold max_vibration
                         consecutive_off_count group st)) (j, c) = Some (j', c') /\
    (j <= j')%nat.
Proof.
  revert j c. induction fuel as [ | fuel IH]; intros j c Hf; [lia | ].
  simpl. destruct (j <? len_group group)%nat eqn:Hc.
  - apply Nat.ltb_lt in Hc. unfold len_group in Hc |- *. fold len in Hc |- *.
    set (c1 := if off_reading positive_threshold max_vibration (loc group j)
               then c + 1 else 0).
    destruct (consecutive_off_count <=? c1).
    + exists j, c1. split; [reflexivity | lia].
    + destruct (len <=? j + 1)%nat eqn:Hend.
      * exists (j + 1)%nat, c1. split; [reflexivity | lia].
      * apply Nat.leb_gt in Hend.
        destruct (IH (j + 1)%nat c1 ltac:(lia)) as (j' & c' & Hrun & Hle).
        unfold len_group in Hrun. fold len in Hrun.
        exists j', c'. split; [exact Hrun | lia].
  - exists j, c. split; [reflexivity | lia].
Qed.

Lemma confirm_off_returns j :
  exists j' c', confirm_off positive_threshold max_vibration
                  consecutive_off_count group j = Some (j', c') /\ (j <= j')%nat.
Proof. apply confirm_loop_returns. unfold len_group. fold len. lia. Qed.

(** One turn of the search loop returns, moves the pointer forward, and
    adds a cycle only at a row that passes the test. *)
Lemma search_body_returns j count :
  (j < len)%nat ->
  exists j' count',
    search_body positive_threshold max_vibration consecutive_off_count group (j, count)
      = Some (Continue (j', count')) /\
    (j < j')%nat /\
    (count' = count \/ (count' = count + 1 /\ valid j = true)).
Proof.
  intros Hj. unfold search_body.
  destruct (valid_on positive_threshold max_vibration (loc group j)) eqn:Hv.
  - destruct (slide_returns j) as (j1 & -> & _ & Hlt).
    destruct (confirm_off_returns j1) as (j2 & c & -> & Hle).
    exists j2, (count + 1). split; [reflexivity | ].
    specialize (Hlt Hj Hv). split; [lia | right; auto].
  - exists (j + 1)%nat, count. split; [reflexivity | ]. split; [lia | left; reflexivity].
Qed.

(** The cycle counter always returns. *)
Lemma count_cycles_returns :
  exists n, count_cycles positive_threshold max_vibration
              consecutive_off_count group = Some n.
Proof.
  unfold count_cycles.
  destruct (while_loop_terminates
              (fun st : nat * Z => (fst st <? len_group group)%nat)
              (search_body positive_threshold max_vibration consecutive_off_count group)
              (fun _ => True)
              (fun st => (len - fst st)%nat)) with
    (fuel := S (len_group group)) (s := (0%nat, 0)) as [[j n] Hrun].
  - intros [j count] _ Hc. simpl in Hc. apply Nat.ltb_lt in Hc.
    destruct (search_body_returns j count Hc) as (j' & count' & Hb & Hlt & _).
    eexists. split; [exact Hb | ]. split; [exact I | ].
    intros s' E. injection E as <-. simpl. unfold len_group in Hc. fold len in Hc. lia.
  - exact I.
  - simpl. unfold len_group. fold len. lia.
  - rewrite Hrun. simpl. eauto.
Qed.

(** A day has no more cycles than rows that pass the test
    [positive_threshold < v <= max_vibration]. *)
Lemma count_cycles_bound n :
  count_cycles positive_threshold max_vibration consecutive_off_count group = Some n ->
  0 <= n <= Z.of_nat (List.length
                        (filter (fun r => valid_on positive_threshold max_vibration (value r))
                                group)).
Proof.
  unfold count_cycles.
  destruct (while_loop _ _ _ _) as [[j n'] | ] eqn:Hrun; [ | discriminate].
  simpl. intros E. injection E as ->.
  set (p := fun r => valid_on positive_threshold max_vibration (value r)).
  assert (Hinv : 0 <= n <= Z.of_nat (List.length (filter p (firstn j group)))).
  { apply (while_loop_invariant _ _
             (fun st : nat * Z =>
                0 <= snd st <= Z.of_nat (List.length (filter p (firstn (fst st) group)))))
      in Hrun; [exact Hrun | | simpl; lia].
    intros [j0 c0] c Hi Hc Hb. simpl in Hi, Hc. apply Nat.ltb_lt in Hc.
    destruct (search_body_returns j0 c0 Hc) as (j' & c' & Hb' & Hlt & Hcount).
    rewrite Hb' in Hb. injection Hb as <-. simpl.
    pose proof (filter_firstn_mono p group (S j0) j' ltac:(lia)) as Hmono.
    destruct Hcount as [-> | [-> Hv]].
    - pose proof (filter_firstn_mono p group j0 (S j0) ltac:(lia)). lia.
    - rewrite (filter_firstn_S p {| time := 0; value := nan; ON := false |}) in Hmono;
        [lia | exact Hc | exact Hv]. }
  pose proof (filter_firstn_mono p group j (Nat.max j len) ltac:(lia)) as Hmono.
  rewrite (firstn_all2 (n := Nat.max j len)) in Hmono by (fold len; lia).
  lia.
Qed.

End Cycles.

(* ===================================================================== *)
(** ** Days and batches *)
(* ===================================================================== *)

(** What a day's record is made of. *)
Lemma process_day_inv positive_threshold max_vibration consecutive_off_count
  window_delta group d r :
  process_day positive_threshold max_vibration consecutive_off_count window_delta group d
    = Some r ->
  exists total n,
    sum_on_seconds window_delta group = Some total /\
    count_cycles positive_threshold max_vibration consecutive_off_count group = Some n /\
    date r = d /\ total_on_seconds r = total /\ cycle_count r = n /\
    (on_hours r, on_minutes r) = divmod60 (whole_minutes total) /\
    (off_hours r, off_minutes r) = divmod60 (whole_minutes (total_off_seconds total)).
Proof.
  unfold process_day.
  destruct (sum_on_seconds window_delta group) as [total | ]; [ | discriminate].
  destruct (count_cycles _ _ _ group) as [n | ]; [ | discriminate].
  intros E. injection E as <-. exists total, n. simpl. repeat split; reflexivity.
Qed.

(** With a positive window a day always gets its record. *)
Lemma process_day_returns positive_threshold max_vibration consecutive_off_count
  window_delta group d :
  0 < window_delta ->
  exists r, process_day positive_threshold max_vibration consecutive_off_count
              window_delta group d = Some r.
Proof.
  intros Hw. unfold process_day.
  destruct (sum_on_seconds_returns window_delta group Hw) as (total & ->).
  destruct (count_cycles_returns positive_threshold max_vibration
              consecutive_off_count group) as (n & ->).
  eexists. reflexivity.
Qed.

Lemma for_each_day_Forall (P : day_result -> Prop) f keys :
  (forall d r, In d keys -> f d = Some r -> P r) ->
  forall results, for_each_day f keys = Some results -> Forall P results.
Proof.
  induction keys as [ | d keys IH]; simpl; intros Hf results Hrun.
  - injection Hrun as <-. constructor.
  - destruct (f d) as [r | ] eqn:Hd; [ | discriminate].
    destruct (for_each_day f keys) as [rs | ] eqn:Hrs; [ | discriminate].
    injection Hrun as <-. constructor; [eauto | ].
    apply IH; [ | reflexivity]. intros; eauto.
Qed.

Lemma for_each_day_returns f keys :
  (forall d, exists r, f d = Some r) -> exists results, for_each_day f keys = Some results.
Proof.
  intros Hf. induction keys as [ | d keys (rs & IH)]; simpl; [eauto | ].
  destruct (Hf d) as (r & ->). rewrite IH. simpl. eauto.
Qed.

(** The group of a day, sorted: ascending, and all of that day. *)
Lemma day_group_facts data d :
  let group := sort_values_time (get_group data d) in
  time_sorted group /\ forall r, In r group -> date_of (time r) = d.
Proof.
  split; [apply sort_values_time_sorted | ].
  intros r Hr. apply sort_values_time_In, get_group_In in Hr. tauto.
Qed.

(** A property of the record of every day is a property of the results. *)
Lemma days_Forall (P : day_result -> Prop) positive_threshold max_vibration
  consecutive_off_count window_size data :
  (forall d r,
     process_day positive_threshold max_vibration consecutive_off_count
       (Timedelta_minutes window_size) (sort_values_time (get_group data d)) d = Some r ->
     P r) ->
  forall results,
    days positive_threshold max_vibration consecutive_off_count window_size data
      = Some results ->
    Forall P results.
Proof.
  intros HP results Hrun. unfold days in Hrun.
  eapply for_each_day_Forall; [ | exact Hrun].
  intros d r _ Hd. exact (HP d r Hd).
Qed.

(** With a positive window the batch always gets its results. *)
Lemma days_returns positive_threshold max_vibration consecutive_off_count window_size data :
  0 < window_size ->
  exists results,
    days positive_threshold max_vibration consecutive_off_count window_size data
      = Some results.
Proof.
  intros Hw. unfold days. apply for_each_day_returns. intros d.
  apply process_day_returns. unfold Timedelta_minutes, ns_per_second. lia.
Qed.


Lemma engine_results_Forall (P : day_result -> Prop) :
  (forall positive_threshold max_vibration consecutive_off_count window_delta group d r,
     time_sorted group -> (forall x, In x group -> date_of (time x) = d) ->
     process_day positive_threshold max_vibration consecutive_off_count
       window_delta group d = Some r -> P r) ->
  forall data sensor_column positive_threshold negative_threshold window_size
         max_vibration consecutive_off_count results,
    engine_results data sensor_column positive_threshold negative_threshold window_size
      max_vibration consecutive_off_count results ->
    Forall P results.
Proof.
  intros HP data c pos neg ws mx N results [Hrun | [_ Hrun]];
    [unfold integrated_main.process_frame in Hrun
    | unfold integrated_runonce.process_frame in Hrun];
    (eapply days_Forall; [ | exact Hrun]);
    intros d r Hd;
    (eapply HP; [ | | exact Hd]; apply day_group_facts).
Qed.

(** The cleaning of the three vibration columns, row by row, and the rows
    the day loops read. *)
Lemma clean_vibration_rows data :
  clean_vibration data
  = map (fun r => set_col SZ clean (set_col SY clean (set_col SX clean r))) data.
Proof. unfold clean_vibration. simpl. rewrite !map_map. reflexivity. Qed.

Lemma classify_main_rows sensor_column positive_threshold negative_threshold data :
  classify sensor_column positive_threshold negative_threshold
    (clean_vibration (integrated_main.fill_columns data))
  = map (fun r => loop_row positive_threshold negative_threshold (row_time r)
                    (loop_value_main sensor_column (col r sensor_column))) data.
Proof.
  rewrite clean_vibration_rows. unfold classify, integrated_main.fill_columns.
  rewrite !map_map. apply map_ext. intros r. destruct sensor_column; reflexivity.
Qed.

Lemma classify_runonce_rows positive_threshold negative_threshold data :
  classify SZ positive_threshold negative_threshold (clean_vibration data)
  = map (fun r => loop_row positive_threshold negative_threshold (row_time r)
                    (clean (col r SZ))) data.
Proof.
  rewrite clean_vibration_rows. unfold classify.
  rewrite !map_map. apply map_ext. intros r. reflexivity.
Qed.

Lemma insert_date_In d l x : In x (insert_date d l) <-> x = d \/ In x l.
Proof.
  induction l as [ | y l IH]; simpl; [intuition | ].
  destruct (d <? y) eqn:Hlt; [simpl; intuition | ].
  destruct (d =? y) eqn:Heq.
  - apply Z.eqb_eq in Heq. subst y. simpl. intuition.
  - simpl. rewrite IH. intuition.
Qed.

Lemma insert_date_sorted d l :
  StronglySorted Z.lt l -> StronglySorted Z.lt (insert_date d l).
Proof.
  induction l as [ | y l IH]; simpl; intros Hs.
  - constructor; constructor.
  - inversion Hs as [ | ? ? Hs' Hall]; subst.
    destruct (d <? y) eqn:Hlt.
    + apply Z.ltb_lt in Hlt. constructor; [exact Hs | ].
      constructor; [exact Hlt | ].
      rewrite Forall_forall in *. intros x Hx. specialize (Hall x Hx). lia.
    + apply Z.ltb_ge in Hlt. destruct (d =? y) eqn:Heq; [exact Hs | ].
      apply Z.eqb_neq in Heq. constructor; [auto | ].
      rewrite Forall_forall in *. intros x Hx.
      apply insert_date_In in Hx. destruct Hx as [-> | Hx]; [lia | auto].
Qed.

Lemma group_keys_sorted data : StronglySorted Z.lt (group_keys data).
Proof.
  unfold group_keys. induction (map _ data) as [ | d l IH]; simpl.
  - constructor.
  - apply insert_date_sorted, IH.
Qed.

Lemma group_keys_In data d :
  In d (group_keys data) <-> exists r, In r data /\ date_of (time r) = d.
Proof.
  unfold group_keys. induction data as [ | x data IH]; simpl.
  - split; [tauto | intros (r & [] & _)].
  - rewrite insert_date_In, IH. split.
    + intros [-> | (r & Hr & E)]; [exists x; auto | exists r; auto].
    + intros (r & [<- | Hr] & E); [left; auto | right; exists r; auto].
Qed.

(** The records come out in the order of the keys, one for each. *)
Lemma for_each_day_dates f keys results :
  (forall d r, f d = Some r -> date r = d) ->
  for_each_day f keys = Some results -> map date results = keys.
Proof.
  intros Hf. revert results. induction keys as [ | d keys IH]; simpl; intros results Hrun.
  - injection Hrun as <-. reflexivity.
  - destruct (f d) as [r | ] eqn:Hd; [ | discriminate].
    destruct (for_each_day f keys) as [rs | ]; [ | discriminate].
    injection Hrun as <-. simpl. rewrite (Hf d r Hd), (IH rs eq_refl). reflexivity.
Qed.


Lemma days_dates positive_threshold max_vibration consecutive_off_count window_size
  data results :
  days positive_threshold max_vibration consecutive_off_count window_size data
    = Some results ->
  map date results = group_keys data.
Proof.
  unfold days. apply for_each_day_dates.
  intros d r Hd. destruct (process_day_inv _ _ _ _ _ _ _ Hd) as (_ & _ & _ & _ & E & _).
  exact E.
Qed.

(** The rows the loops read carry the times of the rows of the frame, in
    the same order, in both files. *)
Lemma classified_rows_main sensor_column positive_threshold negative_threshold :
  exists g, (forall x, time (g x) = row_time x) /\
    forall data,
      classify sensor_column positive_threshold negative_threshold
        (clean_vibration (integrated_main.fill_columns data)) = map g data.
Proof.
  eexists. split; [ | intros data; rewrite clean_vibration_rows;
                     unfold classify, integrated_main.fill_columns;
                     rewrite !map_map; reflexivity].
  intros x. reflexivity.
Qed.

Lemma classified_rows_runonce positive_threshold negative_threshold :
  exists g, (forall x, time (g x) = row_time x) /\
    forall data,
      classify SZ positive_threshold negative_threshold (clean_vibration data)
      = map g data.
Proof.
  eexists. split; [ | intros data; rewrite clean_vibration_rows;
                     unfold classify; rewrite !map_map; reflexivity].
  intros x. reflexivity.
Qed.

(** Every reading of the batch has the record of its day in the results. *)
Lemma engine_results_dates data sensor_column positive_threshold negative_threshold
  window_size max_vibration consecutive_off_count results :
  engine_results data sensor_column positive_threshold negative_threshold window_size
    max_vibration consecutive_off_count results ->
  forall x, In x data -> exists r, In r results /\ date r = date_of (row_time x).
Proof.
  intros Hres x Hx.
  assert (H : exists g, (forall x, time (g x) = row_time x) /\
                        map date results = group_keys (map g data)).
  { destruct Hres as [Hrun | [_ Hrun]].
    - destruct (classified_rows_main sensor_column positive_threshold negative_threshold)
        as (g & Hg & Hmap).
      exists g. split; [exact Hg | ].
      unfold integrated_main.process_frame in Hrun. cbv zeta in Hrun.
      rewrite Hmap in Hrun. exact (days_dates _ _ _ _ _ _ Hrun).
    - destruct (classified_rows_runonce positive_threshold negative_threshold)
        as (g & Hg & Hmap).
      exists g. split; [exact Hg | ].
      unfold integrated_runonce.process_frame in Hrun. cbv zeta in Hrun.
      rewrite Hmap in Hrun. exact (days_dates _ _ _ _ _ _ Hrun). }
  destruct H as (g & Hg & Hdates).
  assert (Hin : In (date_of (row_time x)) (map date results)).
  { rewrite Hdates. apply group_keys_In. exists (g x).
    split; [apply in_map, Hx | rewrite Hg; reflexivity]. }
  apply in_map_iff in Hin. destruct Hin as (r & E & Hr). exists r. auto.
Qed.

(** A window that fits is a positive number of minutes. *)
Lemma window_fits_positive window_size times :
  window_fits (Timedelta_minutes window_size) times -> 0 < window_size.
Proof.
  intros [[H _] _]. unfold Timedelta_minutes, ns_per_second in H. lia.
Qed.

(** With a positive window both call sites return. *)
Lemma process_frame_returns data sensor_column positive_threshold negative_threshold
  window_size max_vibration consecutive_off_count :
  0 < window_size ->
  (exists results,
     integrated_main.process_frame data sensor_column positive_threshold
       negative_threshold window_size max_vibration consecutive_off_count = Some results) /\
  (exists results,
     integrated_runonce.process_frame data positive_threshold
       negative_threshold window_size max_vibration consecutive_off_count = Some results).
Proof.
  intros Hw. split; apply days_returns; exact Hw.
Qed.

(** What [process_vibration_data] returns, it returns from the frame of
    the extracted columns. *)
Lemma process_vibration_data_frame json_loads float_of_str data sensor_column
  positive_threshold negative_threshold window_size max_vibration consecutive_off_count
  results :
  integrated_main.process_vibration_data json_loads float_of_str data sensor_column
    positive_threshold negative_threshold window_size max_vibration consecutive_off_count
    = Ok (Some results) \/
  (sensor_column = SZ /\
   integrated_runonce.process_vibration_data json_loads float_of_str data
     positive_threshold negative_threshold window_size max_vibration consecutive_off_count
     = Ok (Some results)) ->
  exists frame,
    extract_channels json_loads float_of_str data = Ok frame /\
    engine_results frame sensor_column positive_threshold negative_threshold window_size
      max_vibration consecutive_off_count results.
Proof.
  unfold integrated_main.process_vibration_data, integrated_runonce.process_vibration_data,
    engine_results.
  destruct (extract_channels json_loads float_of_str data) as [frame | e]; simpl.
  - intros [H | [Hc H]]; exists frame; (split; [reflexivity | ]).
    + left. congruence.
    + right. split; [exact Hc | ].
      destruct (object_column json_loads float_of_str data SZ); congruence.
  - intros [H | [_ H]]; discriminate H.
Qed.

(* ===================================================================== *)
(** ** The properties of the specification *)
(* ===================================================================== *)

(** *** The scenario *)

(** C1, as stated, fails: on the three readings 0.1 at 0 min, 0.5 at 5 min
    and 0.6 at 8 min, with threshold 0.41 and a 15 minute window, the
    engine does not produce 480 ON seconds, one cycle and 85920 OFF
    seconds. *)
Lemma scenario_is_not_480_seconds :
  ~ exists r,
      integrated_main.process_frame scenario SZ 0.41%float (-0.41)%float 15 3%float 100
        = Some [r] /\
      (total_on_seconds r == 480)%Q /\ cycle_count r = 1 /\
      (total_off_seconds (total_on_seconds r) == 85920)%Q.
Proof.
  intros (r & Hrun & Hon & _). vm_compute in Hrun. injection Hrun as <-.
  vm_compute in Hon. discriminate Hon.
Qed.

(** C1, amended: on that input the window opens at the first ON reading
    (5 min), so the engine produces 180 ON seconds (the span from 5 min to
    8 min), one cycle, and 86220 OFF seconds; both call sites do. *)
Theorem scenario_metrics :
  integrated_main.process_frame scenario SZ 0.41%float (-0.41)%float 15 3%float 100
    = Some [scenario_day] /\
  integrated_runonce.process_frame scenario 0.41%float (-0.41)%float 15 3%float 100
    = Some [scenario_day] /\
  (total_on_seconds scenario_day == 180)%Q /\
  cycle_count scenario_day = 1 /\
  (total_off_seconds (total_on_seconds scenario_day) == 86220)%Q.
Proof.
  repeat split; vm_compute; reflexivity.
Qed.

(** *** Conservation *)



(** *** The persisted hours *)

Lemma whole_minutes_bounds (x : Q) :
  (60 * inject_Z (whole_minutes x) <= x)%Q /\ (x < 60 * inject_Z (whole_minutes x) + 60)%Q.
Proof.
  unfold whole_minutes.
  pose proof (Qfloor_le (x / 60)) as Hlo. pose proof (Qlt_floor (x / 60)) as Hhi.
  rewrite inject_Z_plus in Hhi.
  assert (E : (x == 60 * (x / 60))%Q) by (field).
  set (m := inject_Z (Qfloor (x / 60))) in *.
  set (y := (x / 60)%Q) in *.
  change (inject_Z 1) with 1%Q in Hhi.
  split; rewrite E; lra.
Qed.

Lemma divmod60_decimal (m h mi : Z) :
  (h, mi) = divmod60 m -> (inject_Z h + inject_Z mi / 60 == inject_Z m / 60)%Q.
Proof.
  unfold divmod60. intros E. injection E as -> ->.
  pose proof (Z.div_mod m 60 ltac:(lia)) as Hm.
  rewrite Hm at 3. rewrite inject_Z_plus, inject_Z_mult.
  change (inject_Z 60) with 60%Q. field.
Qed.

(** C9: with a window that fits, both call sites return their results,
    with a record for the day of every reading of the batch; and for
    every record the value persisted as [op_hours] is the day's ON seconds
    truncated to whole minutes, as hours plus minutes over 60: it is
    [floor(on_seconds / 60) / 60], and what it leaves out of the computed
    ON time is at least 0 and less than one minute (at most 59 whole
    seconds). *)
Theorem op_hours_drops_the_seconds data sensor_column positive_threshold negative_threshold
  window_size max_vibration consecutive_off_count :
  window_fits (Timedelta_minutes window_size) (map row_time data) ->
  (exists results,
     integrated_main.process_frame data sensor_column positive_threshold
       negative_threshold window_size max_vibration consecutive_off_count = Some results) /\
  (exists results,
     integrated_runonce.process_frame data positive_threshold
       negative_threshold window_size max_vibration consecutive_off_count = Some results) /\
  forall results,
    engine_results data sensor_column positive_threshold negative_threshold window_size
      max_vibration consecutive_off_count results ->
    (forall x, In x data -> exists r, In r results /\ date r = date_of (row_time x)) /\
    Forall (fun r =>
              let on_seconds := total_on_seconds r in
              let discarded := (on_seconds - 3600 * on_hours_decimal r)%Q in
              (on_hours r, on_minutes r) = divmod60 (whole_minutes on_seconds) /\
              (on_hours_decimal r == inject_Z (whole_minutes on_seconds) / 60)%Q /\
              (0 <= discarded)%Q /\ (discarded < 60)%Q /\ Qfloor discarded <= 59 /\
              forall device_id,
                In (device_id, "op_hours"%string, date r, OpHours (on_hours_decimal r))
                   (insert_metrics_to_db results device_id)) results.
Proof.
  intros Hfits. pose proof (window_fits_positive _ _ Hfits) as Hw.
  destruct (process_frame_returns data sensor_column positive_threshold negative_threshold
              window_size max_vibration consecutive_off_count Hw) as [Hmain Hrunonce].
  split; [exact Hmain | ]. split; [exact Hrunonce | ].
  intros results Hres. split; [exact (engine_results_dates _ _ _ _ _ _ _ _ Hres) | ].
  apply Forall_forall. intros r Hr.
  assert (Hday : (on_hours r, on_minutes r) = divmod60 (whole_minutes (total_on_seconds r))).
  { revert r Hr. apply Forall_forall. revert Hres. apply engine_results_Forall.
    intros pos mx N w group d r _ _ Hday.
    destruct (process_day_inv _ _ _ _ _ _ _ Hday)
      as (total & n & _ & _ & _ & -> & _ & Hon & _). exact Hon. }
  cbv zeta. pose proof (divmod60_decimal _ _ _ Hday) as Hdec.
  fold (on_hours_decimal r) in Hdec.
  destruct (whole_minutes_bounds (total_on_seconds r)) as [Hlo Hhi].
  set (on_seconds := total_on_seconds r) in *.
  set (m := inject_Z (whole_minutes on_seconds)) in *.
  assert (Hkept : (3600 * on_hours_decimal r == 60 * m)%Q) by (rewrite Hdec; field).
  assert (H0 : (0 <= on_seconds - 3600 * on_hours_decimal r)%Q) by (rewrite Hkept; lra).
  assert (H60 : (on_seconds - 3600 * on_hours_decimal r < 60)%Q) by (rewrite Hkept; lra).
  repeat split; try assumption.
  - assert (Hf : Qfloor (on_seconds - 3600 * on_hours_decimal r) < 60); [ | lia].
    apply Qlt_le_trans with (z := inject_Z 60) in H60; [ | apply Qle_refl].
    pose proof (Qfloor_le (on_seconds - 3600 * on_hours_decimal r)) as Hfl.
    assert (Hz : (inject_Z (Qfloor (on_seconds - 3600 * on_hours_decimal r)) < inject_Z 60)%Q)
      by (eapply Qle_lt_trans; eassumption).
    rewrite <- Zlt_Qlt in Hz. exact Hz.
  - intros device_id. unfold insert_metrics_to_db. apply in_flat_map.
    exists r. split; [exact Hr | left; reflexivity].
Qed.

(** On the scenario: one record, 180 ON seconds, persisted as 3/60 hour. *)
Lemma op_hours_drops_the_seconds_witness :
  window_fits (Timedelta_minutes 15) (map row_time scenario) /\
  engine_results scenario SZ 0.41%float (-0.41)%float 15 3%float 100 [scenario_day] /\
  (exists r, In r [scenario_day] /\ date r = 0) /\
  In ("HFLT001"%string, "op_hours"%string, 0, OpHours (on_hours_decimal scenario_day))
     (insert_metrics_to_db [scenario_day] "HFLT001") /\
  (on_hours_decimal scenario_day == 3 / 60)%Q.
Proof.
  assert (Hfits : window_fits (Timedelta_minutes 15) (map row_time scenario)).
  { split; [vm_compute; split; [reflexivity | discriminate] | ].
    repeat constructor; vm_compute; discriminate. }
  assert (H : engine_results scenario SZ 0.41%float (-0.41)%float 15 3%float 100
                [scenario_day]) by (left; vm_compute; reflexivity).
  split; [exact Hfits | ]. split; [exact H | ].
  destruct (op_hours_drops_the_seconds scenario SZ 0.41%float (-0.41)%float 15 3%float 100
              Hfits) as (_ & _ & Hall).
  destruct (Hall [scenario_day] H) as [Hdates Hrec].
  split; [exact (Hdates (sZ_row 0 (Some 0.1%float)) (or_introl eq_refl)) | ].
  split; [ | reflexivity].
  exact (proj2 (proj2 (proj2 (proj2 (proj2 (Forall_inv Hrec))))) "HFLT001"%string).
Defined.

(** The 59 seconds are reached: two ON readings 59 seconds apart make 59
    ON seconds, persisted as 0 hours. *)
Lemma op_hours_can_drop_59_seconds :
  option_map (map (fun r => (total_on_seconds r, on_hours_decimal r)))
    (integrated_main.process_frame short_run SZ 0.41%float (-0.41)%float 15 3%float 100)
  = Some [(59000000000 # 1000000000, 0 # 60)].
Proof. vm_compute. reflexivity. Qed.

(** *** The bounds of a day *)

(** C10: the readings of a day record all lie in that calendar day, and
    its ON seconds are at least 0 and at most 86400 (indeed less: they are
    covered by the span of the day's readings), so the OFF seconds are
    never negative. *)
Theorem on_seconds_fit_in_the_day data sensor_column positive_threshold negative_threshold
  window_size max_vibration consecutive_off_count results :
  engine_results data sensor_column positive_threshold negative_threshold window_size
    max_vibration consecutive_off_count results ->
  Forall (fun r =>
            (0 <= total_on_seconds r)%Q /\ (total_on_seconds r <= 86400)%Q /\
            (0 <= total_off_seconds (total_on_seconds r))%Q) results.
Proof.
  apply engine_results_Forall.
  intros pos mx N w group d r Hsorted Hsameday Hday.
  destruct (process_day_inv _ _ _ _ _ _ _ Hday)
    as (total & n & Hsum & _ & _ & -> & _ & _ & _).
  destruct (sum_on_seconds_bounds w group d total Hsorted Hsameday Hsum) as [H0 Hlt].
  unfold total_off_seconds, total_seconds_in_day.
  repeat split; [exact H0 | apply Qlt_le_weak; exact Hlt | ].
  change (24 * 3600)%Q with 86400%Q. lra.
Qed.

Lemma on_seconds_fit_in_the_day_witness :
  engine_results scenario SZ 0.41%float (-0.41)%float 15 3%float 100 [scenario_day] /\
  Forall (fun r =>
            (0 <= total_on_seconds r)%Q /\ (total_on_seconds r <= 86400)%Q /\
            (0 <= total_off_seconds (total_on_seconds r))%Q) [scenario_day].
Proof.
  assert (H : engine_results scenario SZ 0.41%float (-0.41)%float 15 3%float 100
                [scenario_day]) by (left; vm_compute; reflexivity).
  split; [exact H | ].
  exact (on_seconds_fit_in_the_day scenario SZ 0.41%float (-0.41)%float 15 3%float 100
           [scenario_day] H).
Defined.

(** *** The coalescing window *)

(** What the loop returns is what its turns make of the first state: the
    body is applied as long as the pointer is inside the day, and no
    longer. *)
Lemma on_time_loop_iter window_delta group fuel st st' :
  on_time_loop window_delta group fuel st = Some st' ->
  exists k,
    Nat.iter k (on_time_body window_delta group) st = st' /\
    (List.length group <= fst st')%nat /\
    forall k', (k' < k)%nat ->
               (fst (Nat.iter k' (on_time_body window_delta group) st)
                < List.length group)%nat.
Proof.
  unfold on_time_loop. revert st.
  induction fuel as [ | fuel IH]; intros st Hrun; [discriminate | ].
  simpl in Hrun. destruct (fst st <? len_group group)%nat eqn:Hc.
  - destruct (IH _ Hrun) as (k & Hk & Hend & Htrace).
    exists (S k). rewrite Nat.iter_succ_r. split; [exact Hk | ]. split; [exact Hend | ].
    intros [ | k'] Hlt.
    + simpl. apply Nat.ltb_lt in Hc. exact Hc.
    + rewrite Nat.iter_succ_r. apply Htrace. lia.
  - injection Hrun as <-. exists 0%nat. simpl.
    apply Nat.ltb_ge in Hc. split; [reflexivity | ]. split; [exact Hc | ].
    intros k' Hlt. lia.
Qed.

(** C5: the ON-time scan of a time-sorted day. One turn, at row [i] read
    at time [t]: an OFF row moves the pointer by one and credits nothing;
    an ON row opens the window of the rows read in
    [[t, t + window_minutes)]; the pointer moves by their number [n],
    which takes it past every row of the window; with more than one row
    in the window, min(window length, latest time - earliest time in the
    window) seconds are credited; with exactly one, nothing is credited
    and the pointer moves by one. The loop of the day takes this turn at
    every row the pointer reaches inside the day, and the ON seconds of
    the day's record are what these turns add up from the first row
    until the pointer leaves the day. *)
Theorem window_step window_size group i total :
  time_sorted group -> (i < List.length group)%nat ->
  let window_delta := Timedelta_minutes window_size in
  let t := time (iloc group i) in
  let window := window_at window_delta group i in
  let n := List.length window in
  let st' := on_time_body window_delta group (i, total) in
  (forall x, In x window <-> In x group /\ in_window t window_delta (time x)) /\
  (ON (iloc group i) = false -> st' = ((i + 1)%nat, total)) /\
  (ON (iloc group i) = true ->
     fst st' = (i + n)%nat /\
     (forall k, (k < List.length group)%nat ->
                in_window t window_delta (time (iloc group k)) -> (k < fst st')%nat) /\
     ((1 < n)%nat ->
        exists tmax tmin,
          is_max_time window tmax /\ is_min_time window tmin /\
          (snd st' == total + Qmin (total_seconds window_delta)
                                   (total_seconds (tmax - tmin)))%Q) /\
     (n = 1%nat -> st' = ((i + 1)%nat, total))) /\
  (forall fuel,
     on_time_loop window_delta group (S fuel) (i, total)
     = on_time_loop window_delta group fuel st') /\
  (window_fits window_delta (map time group) ->
   exists turns,
     let final := Nat.iter turns (on_time_body window_delta group) (0%nat, 0%Q) in
     sum_on_seconds window_delta group = Some (snd final) /\
     (List.length group <= fst final)%nat /\
     (forall k, (k < turns)%nat ->
                (fst (Nat.iter k (on_time_body window_delta group) (0%nat, 0%Q))
                 < List.length group)%nat) /\
     forall positive_threshold max_vibration consecutive_off_count d r,
       process_day positive_threshold max_vibration consecutive_off_count
         window_delta group d = Some r ->
       total_on_seconds r = snd final).
Proof.
  intros Hsorted Hi window_delta t window n st'.
  split; [intros x; apply window_at_In | ].
  assert (Hloop : forall fuel,
             on_time_loop window_delta group (S fuel) (i, total)
             = on_time_loop window_delta group fuel st').
  { intros fuel. unfold on_time_loop. cbn [while_loop fst].
    apply Nat.ltb_lt in Hi. unfold len_group. rewrite Hi. reflexivity. }
  assert (Hday : window_fits window_delta (map time group) ->
     exists turns,
       let final := Nat.iter turns (on_time_body window_delta group) (0%nat, 0%Q) in
       sum_on_seconds window_delta group = Some (snd final) /\
       (List.length group <= fst final)%nat /\
       (forall k, (k < turns)%nat ->
                  (fst (Nat.iter k (on_time_body window_delta group) (0%nat, 0%Q))
                   < List.length group)%nat) /\
       forall positive_threshold max_vibration consecutive_off_count d r,
         process_day positive_threshold max_vibration consecutive_off_count
           window_delta group d = Some r ->
         total_on_seconds r = snd final).
  { intros [[Hw _] _].
    destruct (sum_on_seconds_returns window_delta group Hw) as (tot & Hsum).
    pose proof Hsum as Hrun. unfold sum_on_seconds in Hrun.
    destruct (on_time_loop window_delta group (S (len_group group)) (0%nat, 0%Q))
      as [final | ] eqn:Hfinal; [ | discriminate].
    destruct (on_time_loop_iter _ _ _ _ _ Hfinal) as (turns & Hturns & Hend & Htrace).
    exists turns. cbv zeta. rewrite Hturns.
    split; [unfold sum_on_seconds; rewrite Hfinal; reflexivity | ].
    split; [exact Hend | ]. split; [exact Htrace | ].
    intros pos mx N d r Hr.
    destruct (process_day_inv _ _ _ _ _ _ _ Hr) as (tot' & _ & Hsum' & _ & _ & -> & _).
    unfold sum_on_seconds in Hsum'. rewrite Hfinal in Hsum'. simpl in Hsum'.
    congruence. }
  split; [ | split; [ | split; [exact Hloop | exact Hday]]].
  { unfold st'. rewrite on_time_body_eq. intros ->. reflexivity. }
  unfold st'. rewrite on_time_body_eq. cbv zeta. fold window. fold n.
  intros ->. simpl fst. simpl snd.
  split; [reflexivity | ].
  split; [intros k Hk Hwin; apply window_at_covers; assumption | ].
  split.
  - intros Hn. assert (Hne : window <> []).
    { intros E. unfold n in Hn. rewrite E in Hn. simpl in Hn. lia. }
    exists (time_max window), (time_min window).
    split; [apply time_max_spec, Hne | ]. split; [apply time_min_spec, Hne | ].
    apply Nat.ltb_lt in Hn. rewrite Hn. rewrite Q.min_comm. reflexivity.
  - intros Hn. rewrite Hn. reflexivity.
Qed.

(** On the scenario the turn at the first ON row (5 min) credits the
    180 seconds to the reading at 8 min and takes the pointer to the end
    of the day; they are the ON seconds of the day. *)
Lemma window_step_witness :
  time_sorted scenario_group /\ (1 < List.length scenario_group)%nat /\
  ON (iloc scenario_group 1) = true /\
  window_fits (Timedelta_minutes 15) (map time scenario_group) /\
  on_time_body (Timedelta_minutes 15) scenario_group (1%nat, 0%Q)
    = (3%nat, 180000000000 # 1000000000) /\
  on_time_loop (Timedelta_minutes 15) scenario_group 3 (1%nat, 0%Q)
    = on_time_loop (Timedelta_minutes 15) scenario_group 2
        (on_time_body (Timedelta_minutes 15) scenario_group (1%nat, 0%Q)) /\
  (exists turns,
     sum_on_seconds (Timedelta_minutes 15) scenario_group
     = Some (snd (Nat.iter turns (on_time_body (Timedelta_minutes 15) scenario_group)
                    (0%nat, 0%Q)))) /\
  (option_map Qred (sum_on_seconds (Timedelta_minutes 15) scenario_group) = Some 180%Q).
Proof.
  assert (Hs : time_sorted scenario_group) by apply sort_values_time_sorted.
  assert (Hi : (1 < List.length scenario_group)%nat) by (vm_compute; repeat constructor).
  assert (Hon : ON (iloc scenario_group 1) = true) by (vm_compute; reflexivity).
  assert (Hfits : window_fits (Timedelta_minutes 15) (map time scenario_group)).
  { split; [vm_compute; split; [reflexivity | discriminate] | ].
    repeat constructor; vm_compute; discriminate. }
  split; [exact Hs | ]. split; [exact Hi | ]. split; [exact Hon | ].
  split; [exact Hfits | ].
  destruct (window_step 15 scenario_group 1 0%Q Hs Hi) as (_ & _ & _ & Hloop & Hday).
  split; [vm_compute; reflexivity | ].
  split; [exact (Hloop 2%nat) | ].
  split; [ | vm_compute; reflexivity].
  destruct (Hday Hfits) as (turns & Hsum & _). exists turns. exact Hsum.
Defined.

(** *** The anomaly ceiling *)

Section Runs.

Variables positive_threshold max_vibration : float.
Variable consecutive_off_count : Z.
Variable group : list classified.

(** The slide passes the rows that pass its test and stops at the first
    that does not. *)
Lemma slide_run j fuel j0 :
  (j0 <= j)%nat -> (j < List.length group)%nat -> (j - j0 < fuel)%nat ->
  (forall k, (j0 <= k < j)%nat ->
             valid_on positive_threshold max_vibration (loc group k) = true) ->
  valid_on positive_threshold max_vibration (loc group j) = false ->
  while_loop fuel
    (fun j => (j <? len_group group)%nat &&
              valid_on positive_threshold max_vibration (loc group j))
    (fun j => Some (slide_body group j)) j0 = Some j.
Proof.
  intros Hle Hj Hfuel Hvalid Hstop. revert j0 Hle Hfuel Hvalid.
  induction fuel as [ | fuel IH]; intros j0 Hle Hfuel Hvalid; [lia | ].
  cbn [while_loop].
  destruct (Nat.eq_dec j0 j) as [-> | Hne].
  - rewrite Hstop, andb_false_r. reflexivity.
  - rewrite (Hvalid j0) by lia.
    replace (j0 <? len_group group)%nat with true
      by (symmetry; apply Nat.ltb_lt; unfold len_group; lia).
    cbn [andb]. unfold slide_body.
    replace (len_group group <=? j0 + 1)%nat with false
      by (symmetry; apply Nat.leb_gt; unfold len_group; lia).
    apply IH; [lia | lia | ]. intros k Hk. apply Hvalid. lia.
Qed.

Lemma confirm_body_off j c :
  off_reading positive_threshold max_vibration (loc group j) = true ->
  confirm_body positive_threshold max_vibration consecutive_off_count group (j, c)
  = if consecutive_off_count <=? c + 1 then Break (j, c + 1)
    else if (len_group group <=? j + 1)%nat then Break ((j + 1)%nat, c + 1)
         else Continue ((j + 1)%nat, c + 1).
Proof. intros H. unfold confirm_body. rewrite H. reflexivity. Qed.

(** A run of rows that the confirmation loop counts takes the counter to
    [consecutive_off_count] and ends the loop at its last row. *)
Lemma confirm_run m :
  forall fuel j c,
    (1 <= m)%nat -> (m <= fuel)%nat -> (j + m <= List.length group)%nat ->
    c + Z.of_nat m = consecutive_off_count ->
    (forall k, (j <= k < j + m)%nat ->
               off_reading positive_threshold max_vibration (loc group k) = true) ->
    while_loop fuel (fun st : nat * Z => (fst st <? len_group group)%nat)
      (fun st => Some (confirm_body positive_threshold max_vibration
                         consecutive_off_count group st)) (j, c)
    = Some ((j + m - 1)%nat, consecutive_off_count).
Proof.
  induction m as [ | m IH]; intros fuel j c Hm Hfuel Hlen Hc Hoff; [lia | ].
  destruct fuel as [ | fuel]; [lia | ].
  cbn [while_loop fst].
  replace (j <? len_group group)%nat with true
    by (symmetry; apply Nat.ltb_lt; unfold len_group; lia).
  rewrite confirm_body_off by (apply Hoff; lia).
  destruct m as [ | m'].
  - replace (consecutive_off_count <=? c + 1) with true
      by (symmetry; apply Z.leb_le; lia).
    replace (j + 1 - 1)%nat with j by lia. f_equal. f_equal. lia.
  - replace (consecutive_off_count <=? c + 1) with false
      by (symmetry; apply Z.leb_gt; lia).
    replace (len_group group <=? j + 1)%nat with false
      by (symmetry; apply Nat.leb_gt; unfold len_group; lia).
    rewrite (IH fuel (j + 1)%nat (c + 1)); try lia.
    + f_equal. f_equal. lia.
    + intros k Hk. apply Hoff. lia.
Qed.

End Runs.

(** C6: a reading above [max_valid_magnitude] fails the test that starts
    a cycle, so the search passes over it without counting a cycle; a
    day has no more cycles than readings that pass the start test
    [positive_threshold < value <= max_valid_magnitude]. When a cycle is
    open, the slide over the readings that pass the test stops at it, the
    confirmation loop starts at it, and every turn of that loop at it
    adds one to the OFF counter: a run of [consecutive_off_count]
    readings that holds it, the others at or below the threshold or
    above the ceiling as well, confirms OFF at its last reading. *)
Theorem anomaly_counts_as_off positive_threshold max_vibration consecutive_off_count
  group j :
  (max_vibration <? loc group j)%float = true ->
  valid_on positive_threshold max_vibration (loc group j) = false /\
  (forall count,
     search_body positive_threshold max_vibration consecutive_off_count group (j, count)
       = Some (Continue ((j + 1)%nat, count))) /\
  slide positive_threshold max_vibration group j = Some j /\
  (forall off_counter,
     snd (ctl_state (confirm_body positive_threshold max_vibration
                       consecutive_off_count group (j, off_counter)))
       = off_counter + 1) /\
  (forall n,
     count_cycles positive_threshold max_vibration consecutive_off_count group = Some n ->
     0 <= n <= Z.of_nat (List.length
                           (filter (fun r => valid_on positive_threshold max_vibration
                                               (value r)) group))) /\
  (forall j0 count,
     (j0 < j)%nat -> (j < List.length group)%nat ->
     (forall k, (j0 <= k < j)%nat ->
                valid_on positive_threshold max_vibration (loc group k) = true) ->
     slide positive_threshold max_vibration group j0 = Some j /\
     search_body positive_threshold max_vibration consecutive_off_count group (j0, count)
     = option_map (fun st => Continue (fst st, count + 1))
         (confirm_off positive_threshold max_vibration consecutive_off_count group j)) /\
  (forall j1 m,
     (j1 <= j < j1 + m)%nat -> (j1 + m <= List.length group)%nat ->
     Z.of_nat m = consecutive_off_count ->
     (forall k, (j1 <= k < j1 + m)%nat -> k <> j ->
                off_reading positive_threshold max_vibration (loc group k) = true) ->
     confirm_off positive_threshold max_vibration consecutive_off_count group j1
     = Some ((j1 + m - 1)%nat, consecutive_off_count)).
Proof.
  intros Habove.
  assert (Hv : valid_on positive_threshold max_vibration (loc group j) = false).
  { unfold valid_on. rewrite (float_ltb_not_leb _ _ Habove). apply andb_false_r. }
  assert (Hoff : off_reading positive_threshold max_vibration (loc group j) = true).
  { unfold off_reading. rewrite Habove. apply orb_true_r. }
  split; [exact Hv | ]. split; [ | split; [ | split; [ | split; [ | split]]]].
  - intros count. unfold search_body. rewrite Hv. reflexivity.
  - unfold slide. simpl. rewrite Hv, andb_false_r. reflexivity.
  - intros c. unfold confirm_body. rewrite Hoff.
    destruct (consecutive_off_count <=? c + 1); [reflexivity | ].
    destruct (len_group group <=? j + 1)%nat; reflexivity.
  - apply count_cycles_bound.
  - intros j0 count Hlt Hj Hvalid.
    assert (Hslide : slide positive_threshold max_vibration group j0 = Some j).
    { unfold slide. apply slide_run; try assumption; unfold len_group; lia. }
    split; [exact Hslide | ].
    unfold search_body. rewrite (Hvalid j0) by lia. rewrite Hslide.
    destruct (confirm_off _ _ _ _ j) as [[j2 c2] | ]; reflexivity.
  - intros j1 m Hin Hlen Hm Hrun. unfold confirm_off.
    apply confirm_run; try lia; [unfold len_group; lia | ].
    intros k Hk. destruct (Nat.eq_dec k j) as [-> | Hne]; [exact Hoff | ].
    apply Hrun; assumption.
Qed.

(** A day of two rows, an ON reading and a spike above the ceiling, with
    one reading enough to confirm OFF: the slide from the first row stops
    at the spike and the confirmation counts it. *)
Lemma anomaly_counts_as_off_witness :
  (3 <? loc spike_group 1)%float = true /\
  valid_on 0.41%float 3%float (loc spike_group 1) = false /\
  slide 0.41%float 3%float spike_group 0 = Some 1%nat /\
  confirm_off 0.41%float 3%float 1 spike_group 1 = Some (1%nat, 1).
Proof.
  assert (H : (3 <? loc spike_group 1)%float = true) by (vm_compute; reflexivity).
  split; [exact H | ].
  destruct (anomaly_counts_as_off 0.41%float 3%float 1 spike_group 1 H)
    as (Hv & _ & _ & _ & _ & Hslide & Hconfirm).
  split; [exact Hv | ]. split.
  - apply (Hslide 0%nat 0); [lia | vm_compute; lia | ].
    intros k Hk. replace k with 0%nat by lia. vm_compute. reflexivity.
  - apply (Hconfirm 1%nat 1%nat); [lia | vm_compute; lia | reflexivity | ].
    intros k Hk Hne. lia.
Defined.

(** *** The thresholds *)

(** C7: every reading of the frame gets one row for the day loops, with
    its time and its value in the designated column, and it is ON exactly
    when that value is above the positive threshold or below the negative
    one, both strictly ([integrated_main] and [integrated_runonce] compare
    the value after the filling and the cleaning of the column); with
    thresholds in their order (the negative one not above the positive
    one), a reading whose value equals either threshold is OFF. *)
Theorem thresholds_are_strict positive_threshold negative_threshold :
  (positive_threshold <? negative_threshold)%float = false ->
  (forall sensor_column data,
     Forall2 (fun x r =>
                time r = row_time x /\ value r = col x sensor_column /\
                ON r = (positive_threshold <? col x sensor_column)%float
                       || (col x sensor_column <? negative_threshold)%float /\
                (col x sensor_column = positive_threshold \/
                 col x sensor_column = negative_threshold -> ON r = false))
             data (classify sensor_column positive_threshold negative_threshold data)) /\
  is_on positive_threshold negative_threshold positive_threshold = false /\
  is_on positive_threshold negative_threshold negative_threshold = false /\
  (forall data sensor_column window_size max_vibration consecutive_off_count,
     integrated_main.process_frame data sensor_column positive_threshold
       negative_threshold window_size max_vibration consecutive_off_count
     = days positive_threshold max_vibration consecutive_off_count window_size
         (map (fun x => loop_row positive_threshold negative_threshold (row_time x)
                          (loop_value_main sensor_column (col x sensor_column))) data) /\
     integrated_runonce.process_frame data positive_threshold
       negative_threshold window_size max_vibration consecutive_off_count
     = days positive_threshold max_vibration consecutive_off_count window_size
         (map (fun x => loop_row positive_threshold negative_threshold (row_time x)
                          (clean (col x SZ))) data)) /\
  (forall t v,
     ON (loop_row positive_threshold negative_threshold t v)
     = (positive_threshold <? v)%float || (v <? negative_threshold)%float /\
     (v = positive_threshold \/ v = negative_threshold ->
      ON (loop_row positive_threshold negative_threshold t v) = false)).
Proof.
  intros Horder.
  assert (Hpos : is_on positive_threshold negative_threshold positive_threshold = false)
    by (unfold is_on; rewrite float_ltb_irrefl, Horder; reflexivity).
  assert (Hneg : is_on positive_threshold negative_threshold negative_threshold = false)
    by (unfold is_on; rewrite float_ltb_irrefl, Horder; reflexivity).
  split; [ | split; [exact Hpos | split; [exact Hneg | split]]].
  - intros c data. unfold classify.
    induction data as [ | x data IH]; simpl; constructor; [ | exact IH].
    simpl. repeat split. intros [E | E]; rewrite E; assumption.
  - intros data c w mx N. split.
    + unfold integrated_main.process_frame. cbv zeta.
      rewrite classify_main_rows. reflexivity.
    + unfold integrated_runonce.process_frame. cbv zeta.
      rewrite classify_runonce_rows. reflexivity.
  - intros t v. split; [reflexivity | ].
    intros [-> | ->]; assumption.
Qed.

(** The thresholds of a Threshold Config, one positive and one negative,
    are in the order the property asks for. *)
Lemma threshold_config_boundaries positive_threshold negative_threshold :
  (0 <? positive_threshold)%float = true ->
  (negative_threshold <? 0)%float = true ->
  is_on positive_threshold negative_threshold positive_threshold = false /\
  is_on positive_threshold negative_threshold negative_threshold = false.
Proof.
  intros Hpos Hneg. unfold is_on.
  rewrite !float_ltb_irrefl, (float_signs_ordered _ _ Hpos Hneg). split; reflexivity.
Qed.

(** Readings at 0.41, at -0.41 and at 0.5 under the thresholds 0.41 and
    -0.41: the first two are OFF, the third is ON. *)
Lemma thresholds_are_strict_witness :
  (0.41 <? -0.41)%float = false /\
  map ON (classify SZ 0.41%float (-0.41)%float boundary_batch) = [false; false; true] /\
  Forall2 (fun x r => col x SZ = 0.41%float \/ col x SZ = (-0.41)%float -> ON r = false)
          boundary_batch (classify SZ 0.41%float (-0.41)%float boundary_batch).
Proof.
  assert (H : (0.41 <? -0.41)%float = false) by (vm_compute; reflexivity).
  split; [exact H | ]. split; [vm_compute; reflexivity | ].
  eapply Forall2_impl;
    [ | exact (proj1 (thresholds_are_strict 0.41%float (-0.41)%float H) SZ boundary_batch)].
  intros x r (_ & _ & _ & Hoff). exact Hoff.
Defined.

(* ===================================================================== *)
(** ** The value extractor *)
(* ===================================================================== *)

Section ExtractorFacts.

Variable json_loads : string -> result pyval.
Variable float_of_str : string -> option float.

Let extract := extract_sensor_value json_loads float_of_str.

(** A text that does not parse is an absent value. *)
Lemma extract_unparsable s sensor_type :
  json_loads s = Raise JSONDecodeError -> extract (PyStr s) sensor_type = Ok None.
Proof. intros H. unfold extract, extract_sensor_value. rewrite H. reflexivity. Qed.

(** Entries of other channels are passed over; no matching entry is an
    absent value. *)
Lemma scan_readings_skip sensor_type other v rest :
  String.eqb other sensor_type = false ->
  scan_readings float_of_str (entry other v :: rest) sensor_type
    = scan_readings float_of_str rest sensor_type.
Proof. intros H. simpl. rewrite H. reflexivity. Qed.

Lemma extract_no_match sensor_type entries :
  Forall (fun e => exists other v,
            e = entry other v /\ String.eqb other sensor_type = false) entries ->
  extract (PyList entries) sensor_type = Ok None.
Proof.
  intros H. unfold extract, extract_sensor_value. simpl.
  induction H as [ | e entries (other & v & -> & Hne) _ IH]; [reflexivity | ].
  rewrite (scan_readings_skip _ _ _ _ Hne). exact IH.
Qed.

(** The first matching entry wins, whatever follows it. *)
Lemma extract_first_match sensor_type before x rest :
  Forall (fun e => exists other v,
            e = entry other v /\ String.eqb other sensor_type = false) before ->
  extract (PyList (before ++ entry sensor_type (PyFloat x) :: rest)) sensor_type
    = Ok (Some x).
Proof.
  intros H. unfold extract, extract_sensor_value. simpl.
  induction H as [ | e entries (other & v & -> & Hne) _ IH].
  - simpl. rewrite String.eqb_refl. reflexivity.
  - rewrite <- app_comm_cons, (scan_readings_skip _ _ _ _ Hne). exact IH.
Qed.

(** A matched value that [float] refuses is an absent value. *)
Lemma extract_not_a_number sensor_type v rest :
  py_float float_of_str v = Raise ValueError \/ py_float float_of_str v = Raise TypeError ->
  extract (PyList (entry sensor_type v :: rest)) sensor_type = Ok None.
Proof.
  intros H. unfold extract, extract_sensor_value. simpl. rewrite String.eqb_refl.
  destruct H as [-> | ->]; reflexivity.
Qed.

End ExtractorFacts.

(** C3 fails on the code: [extract_sensor_value] catches [JSONDecodeError],
    [AttributeError] and [KeyError] around the scan, and [ValueError] and
    [TypeError] around [float] only. A payload that is one entry not
    wrapped in a list, a null payload, a list holding something else than
    entries: each raises [TypeError]; an integer value too large for a
    float raises [OverflowError]; and the exception ends
    [process_vibration_data] for the whole batch. *)
Theorem extract_sensor_value_raises json_loads float_of_str :
  extract_sensor_value json_loads float_of_str bare_entry "sZ" = Raise TypeError /\
  extract_sensor_value json_loads float_of_str PyNone "sZ" = Raise TypeError /\
  extract_sensor_value json_loads float_of_str (PyList [PyInt 1]) "sZ" = Raise TypeError /\
  extract_sensor_value json_loads float_of_str
    (PyList [entry "sZ" (PyInt (2 ^ 1024))]) "sZ" = Raise OverflowError /\
  integrated_main.process_vibration_data json_loads float_of_str
    [ {| sensor_readings := bare_entry; raw_time := 0 |} ]
    SZ 0.41%float (-0.41)%float 15 3%float 100 = Raise TypeError /\
  integrated_runonce.process_vibration_data json_loads float_of_str
    [ {| sensor_readings := bare_entry; raw_time := 0 |} ]
    0.41%float (-0.41)%float 15 3%float 100 = Raise TypeError.
Proof.
  repeat split; vm_compute; reflexivity.
Qed.

(* ===================================================================== *)
(** ** Absent values *)
(* ===================================================================== *)

(** In [integrated_main] an absent value reaches the loops as 0. *)
Lemma absent_is_zero_in_main : clean (fillna0 (to_cell None)) = 0%float.
Proof. vm_compute. reflexivity. Qed.

(** In [integrated_runonce] it reaches them as NaN. *)
Lemma absent_is_nan_in_runonce : PyFloat.isnan (clean (to_cell None)) = true.
Proof. vm_compute. reflexivity. Qed.

(** The cleaning leaves NaN as it is. *)
Lemma clean_nan v : PyFloat.isnan v = true -> clean v = v.
Proof.
  intros H. unfold clean.
  rewrite (float_nan_ltb_r _ _ H), (float_nan_ltb_l _ _ H). reflexivity.
Qed.

(** The rows the loops of [integrated_main] read: an absent value of the
    designated channel has become 0. *)
Lemma main_rows_of_absent data sensor_column positive_threshold negative_threshold :
  map value (classify sensor_column positive_threshold negative_threshold
               (clean_vibration (integrated_main.fill_columns data)))
  = map (fun r => if PyFloat.isnan (col r sensor_column) then 0%float
                  else match sensor_column with
                       | SX | SY | SZ => clean (col r sensor_column)
                       | _ => col r sensor_column
                       end) data.
Proof.
  rewrite clean_vibration_rows. unfold classify, integrated_main.fill_columns.
  rewrite !map_map. apply map_ext. intros r.
  unfold fillna0. destruct sensor_column; simpl;
    destruct (PyFloat.isnan (col r _)); reflexivity.
Qed.

(** The rows the loops of [integrated_runonce] read: an absent ['sZ']
    value is still NaN. *)
Lemma runonce_rows_of_absent data positive_threshold negative_threshold :
  Forall2 (fun r v => PyFloat.isnan (col r SZ) = true -> v = col r SZ) data
    (map value (classify SZ positive_threshold negative_threshold (clean_vibration data))).
Proof.
  rewrite clean_vibration_rows. unfold classify. rewrite !map_map.
  induction data as [ | r data IH]; simpl; constructor; [ | exact IH].
  intros H. apply clean_nan, H.
Qed.

(** With a non-negative positive threshold and a non-positive negative
    one, a value 0 is OFF, starts no cycle and adds one to the OFF
    counter: this is what an absent value does in [integrated_main]. *)
Lemma zero_counts_as_off positive_threshold negative_threshold max_vibration
  consecutive_off_count group j :
  loc group j = 0%float ->
  (0 <=? positive_threshold)%float = true ->
  (negative_threshold <=? 0)%float = true ->
  is_on positive_threshold negative_threshold (loc group j) = false /\
  valid_on positive_threshold max_vibration (loc group j) = false /\
  (forall count,
     search_body positive_threshold max_vibration consecutive_off_count group (j, count)
       = Some (Continue ((j + 1)%nat, count))) /\
  (forall off_counter,
     snd (ctl_state (confirm_body positive_threshold max_vibration
                       consecutive_off_count group (j, off_counter)))
       = off_counter + 1).
Proof.
  intros E Hpos Hneg.
  assert (Hv : valid_on positive_threshold max_vibration (loc group j) = false).
  { unfold valid_on. rewrite E, (float_leb_not_ltb _ _ Hpos). reflexivity. }
  repeat split.
  - unfold is_on. rewrite E, (float_leb_not_ltb _ _ Hpos), (float_leb_not_ltb _ _ Hneg).
    reflexivity.
  - exact Hv.
  - intros count. unfold search_body. rewrite Hv. reflexivity.
  - intros c. unfold confirm_body, off_reading. rewrite E, Hpos. simpl.
    destruct (consecutive_off_count <=? c + 1); [reflexivity | ].
    destruct (len_group group <=? j + 1)%nat; reflexivity.
Qed.

(** A NaN is OFF and starts no cycle, but in the confirmation loop it
    fails the OFF test too: the counter goes back to 0. *)
Lemma nan_resets_the_off_counter positive_threshold negative_threshold max_vibration
  consecutive_off_count group j :
  PyFloat.isnan (loc group j) = true ->
  is_on positive_threshold negative_threshold (loc group j) = false /\
  valid_on positive_threshold max_vibration (loc group j) = false /\
  off_reading positive_threshold max_vibration (loc group j) = false /\
  (forall off_counter,
     snd (ctl_state (confirm_body positive_threshold max_vibration
                       consecutive_off_count group (j, off_counter))) = 0).
Proof.
  intros Hnan.
  assert (Hoff : off_reading positive_threshold max_vibration (loc group j) = false).
  { unfold off_reading.
    rewrite (float_nan_leb_l _ _ Hnan), (float_nan_ltb_r _ _ Hnan). reflexivity. }
  repeat split.
  - unfold is_on. rewrite (float_nan_ltb_l _ _ Hnan), (float_nan_ltb_r _ _ Hnan).
    reflexivity.
  - unfold valid_on. rewrite (float_nan_ltb_r _ _ Hnan). reflexivity.
  - exact Hoff.
  - intros c. unfold confirm_body. rewrite Hoff.
    destruct (consecutive_off_count <=? 0); [reflexivity | ].
    destruct (len_group group <=? j + 1)%nat; reflexivity.
Qed.

(** C4 fails on [integrated_runonce]: in the batch [dropout_batch] the
    reading without a value is row 51 of its day; it reaches the
    confirmation loop as NaN and sets the OFF counter back to 0 whatever
    it was, so the hundred readings that are not ON do not confirm the
    end of the cycle and the day has one cycle. [integrated_main], where
    the value is filled with 0, counts the hundred and finds two. *)
Theorem dropout_resets_off_counter_in_runonce :
  PyFloat.isnan (loc dropout_group 51) = true /\
  (forall off_counter,
     snd (ctl_state (confirm_body 0.41%float 3%float 100 dropout_group (51%nat, off_counter)))
       = 0) /\
  option_map (map cycle_count)
    (integrated_runonce.process_frame dropout_batch 0.41%float (-0.41)%float 15 3%float 100)
    = Some [1] /\
  option_map (map cycle_count)
    (integrated_main.process_frame dropout_batch SZ 0.41%float (-0.41)%float 15 3%float 100)
    = Some [2].
Proof.
  assert (Hnan : PyFloat.isnan (loc dropout_group 51) = true) by (vm_compute; reflexivity).
  split; [exact Hnan | ]. split; [ | split; vm_compute; reflexivity].
  apply (nan_resets_the_off_counter 0.41%float (-0.41)%float 3%float 100 dropout_group 51 Hnan).
Qed.

(* ===================================================================== *)
(** ** The two call sites *)
(* ===================================================================== *)

(** On a batch whose every reading has an ['sZ'] value that is a number,
    the two call sites return the same results. *)
Lemma call_sites_agree_without_dropout data positive_threshold negative_threshold
  window_size max_vibration consecutive_off_count :
  Forall (fun r => PyFloat.isnan (col r SZ) = false) data ->
  integrated_main.process_frame data SZ positive_threshold negative_threshold
    window_size max_vibration consecutive_off_count
  = integrated_runonce.process_frame data positive_threshold negative_threshold
      window_size max_vibration consecutive_off_count.
Proof.
  intros Hnum. unfold integrated_main.process_frame, integrated_runonce.process_frame.
  cbv zeta. f_equal.
  rewrite !clean_vibration_rows. unfold classify, integrated_main.fill_columns.
  rewrite !map_map. apply map_ext_in. intros r Hr.
  rewrite Forall_forall in Hnum. specialize (Hnum r Hr).
  simpl. unfold fillna0. rewrite Hnum. reflexivity.
Qed.

(** The whole of [process_vibration_data] on the scenario as fetched. *)
Lemma scenario_from_payloads json_loads float_of_str :
  integrated_main.process_vibration_data json_loads float_of_str scenario_raw
    SZ 0.41%float (-0.41)%float 15 3%float 100 = Ok (Some [scenario_day]) /\
  integrated_runonce.process_vibration_data json_loads float_of_str scenario_raw
    0.41%float (-0.41)%float 15 3%float 100 = Ok (Some [scenario_day]).
Proof. split; vm_compute; reflexivity. Qed.

(** C8 fails on the code: on [dropout_batch], with the designated channel
    ['sZ'] and the configuration both files use, [integrated_main] reports
    two cycles for the day and [integrated_runonce] one; the ON seconds
    are the same. *)
Theorem call_sites_disagree_on_dropout :
  integrated_main.process_frame dropout_batch SZ 0.41%float (-0.41)%float 15 3%float 100
  <> integrated_runonce.process_frame dropout_batch 0.41%float (-0.41)%float 15 3%float 100
  /\
  option_map (map (fun r => (date r, total_on_seconds r, cycle_count r)))
    (integrated_main.process_frame dropout_batch SZ 0.41%float (-0.41)%float 15 3%float 100)
    = Some [(0, 101000000000 # 1000000000, 2)] /\
  option_map (map (fun r => (date r, total_on_seconds r, cycle_count r)))
    (integrated_runonce.process_frame dropout_batch 0.41%float (-0.41)%float 15 3%float 100)
    = Some [(0, 101000000000 # 1000000000, 1)].
Proof.
  split; [ | split; vm_compute; reflexivity].
  intros E.
  assert (H : option_map (map cycle_count)
                (integrated_main.process_frame dropout_batch SZ 0.41%float (-0.41)%float
                   15 3%float 100)
              = option_map (map cycle_count)
                  (integrated_runonce.process_frame dropout_batch 0.41%float (-0.41)%float
                     15 3%float 100)) by (rewrite E; reflexivity).
  vm_compute in H. discriminate H.
Qed.

(* ===================================================================== *)
(** ** More on the value extractor *)
(* ===================================================================== *)

Section ScanFacts.

Variable json_loads : string -> result pyval.
Variable float_of_str : string -> option float.

Lemma scan_readings_passes_over sensor_type before rest :
  Forall (passes_over sensor_type) before ->
  scan_readings float_of_str (before ++ rest) sensor_type
    = scan_readings float_of_str rest sensor_type.
Proof.
  induction 1 as [ | e before (ty & Hty & Hne) _ IH]; [reflexivity | ].
  simpl. rewrite Hty. simpl. rewrite Hne. exact IH.
Qed.

(** The scan raises nothing but [KeyError], [TypeError] and [OverflowError]. *)
Lemma scan_readings_raises readings sensor_type e :
  scan_readings float_of_str readings sensor_type = Raise e ->
  e = KeyError \/ e = TypeError \/ e = OverflowError.
Proof.
  induction readings as [ | r readings IH]; simpl; [discriminate | ].
  destruct r as [ | b | n | x | s | l | items]; simpl;
    try (intros H; injection H as <-; auto).
  destruct (find _ items) as [kv | ]; simpl; [ | intros H; injection H as <-; auto].
  destruct (py_eq_str (snd kv) sensor_type); [ | exact IH].
  destruct (find _ items) as [kv' | ]; simpl; [ | intros H; injection H as <-; auto].
  destruct (snd kv') as [ | b | n | x | s | l | its]; simpl; try discriminate.
  - destruct (PyFloat.of_int n); simpl; [discriminate | ].
    intros H; injection H as <-; auto.
  - destruct (float_of_str s); simpl; discriminate.
Qed.

End ScanFacts.

(** X1: the first entry of the channel decides: with only entries of other
    channels before it, its value is returned, whatever follows it (read
    from a list or from a text that decodes to the list). *)
Theorem first_match_wins json_loads float_of_str sensor_type before e v x rest :
  Forall (passes_over sensor_type) before ->
  getitem e "sensor_type" = Ok (PyStr sensor_type) ->
  getitem e "value" = Ok v ->
  py_float float_of_str v = Ok x ->
  extract_sensor_value json_loads float_of_str (PyList (before ++ e :: rest)) sensor_type
    = Ok (Some x) /\
  forall text, json_loads text = Ok (PyList (before ++ e :: rest)) ->
    extract_sensor_value json_loads float_of_str (PyStr text) sensor_type = Ok (Some x).
Proof.
  intros Hbefore Hty Hv Hx.
  assert (Hscan : scan_readings float_of_str (before ++ e :: rest) sensor_type
                  = Ok (Some x)).
  { rewrite (scan_readings_passes_over _ _ _ _ Hbefore). simpl.
    rewrite Hty. simpl. rewrite String.eqb_refl, Hv. simpl. rewrite Hx. reflexivity. }
  split.
  - unfold extract_sensor_value. simpl. rewrite Hscan. reflexivity.
  - intros text Htext. unfold extract_sensor_value. rewrite Htext. simpl.
    rewrite Hscan. reflexivity.
Qed.

Lemma first_match_wins_witness :
  extract_sensor_value no_json no_float mixed_payload "sZ" = Ok (Some 0.5%float).
Proof.
  refine (proj1 (first_match_wins no_json no_float "sZ"
                   [entry "t1" (PyFloat 21.5%float)] (entry "sZ" (PyFloat 0.5%float))
                   (PyFloat 0.5%float) 0.5%float
                   [entry "sZ" (PyFloat 0.25%float); PyInt 7] _ _ _ _)).
  - constructor; [ | constructor]. exists (PyStr "t1"). split; reflexivity.
  - reflexivity.
  - reflexivity.
  - reflexivity.
Defined.

(** X2: an entry without ['sensor_type'], or an entry of the channel without
    ['value'] or with a value that is not a number, ends the scan with an
    absent value: the entries after it are not looked at, not even one
    that has the channel's value. *)
Theorem scan_stops_at_broken_entry json_loads float_of_str sensor_type before e rest :
  Forall (passes_over sensor_type) before ->
  stops_absent float_of_str sensor_type e ->
  extract_sensor_value json_loads float_of_str (PyList (before ++ e :: rest)) sensor_type
    = Ok None.
Proof.
  intros Hbefore Hstop. unfold extract_sensor_value. simpl.
  rewrite (scan_readings_passes_over _ _ _ _ Hbefore). simpl.
  destruct Hstop as [Hk | (Hty & [Hk | (v & Hv & [Hf | Hf])])].
  - rewrite Hk. reflexivity.
  - rewrite Hty. simpl. rewrite String.eqb_refl, Hk. reflexivity.
  - rewrite Hty. simpl. rewrite String.eqb_refl, Hv. simpl. rewrite Hf. reflexivity.
  - rewrite Hty. simpl. rewrite String.eqb_refl, Hv. simpl. rewrite Hf. reflexivity.
Qed.

Lemma scan_stops_at_broken_entry_witness :
  extract_sensor_value no_json no_float broken_payload "sZ" = Ok None.
Proof.
  refine (scan_stops_at_broken_entry no_json no_float "sZ"
            [entry "t1" (PyFloat 21.5%float)] (PyDict [("value"%string, PyFloat 1%float)])
            [entry "sZ" (PyFloat 0.5%float)] _ _).
  - constructor; [ | constructor]. exists (PyStr "t1"). split; reflexivity.
  - left. reflexivity.
Defined.

(** X3: what leaves the extraction is never one of the exceptions its
    [except] clauses name. It is a [TypeError] or an [OverflowError] of
    the scan, or what [json.loads] itself raised on a text payload (a
    plain [ValueError] for an integer literal of too many digits, a
    [RecursionError]); a [ValueError] of [float] never leaves it. *)
Theorem extract_raises_only_uncaught json_loads float_of_str payload sensor_type e :
  extract_sensor_value json_loads float_of_str payload sensor_type = Raise e ->
  (e <> JSONDecodeError /\ e <> AttributeError /\ e <> KeyError) /\
  (e = TypeError \/ e = OverflowError \/
   exists text, payload = PyStr text /\ json_loads text = Raise e).
Proof.
  unfold extract_sensor_value.
  set (decoded := match payload with
                  | PyStr s => json_loads s
                  | _ => Ok payload
                  end).
  assert (Hdec : forall e', decoded = Raise e' ->
                            exists text, payload = PyStr text /\ json_loads text = Raise e').
  { intros e'. unfold decoded. destruct payload; try discriminate. eauto. }
  intros Hrun.
  assert (Hnot : e <> JSONDecodeError /\ e <> AttributeError /\ e <> KeyError).
  { unfold try_except in Hrun.
    destruct (bind decoded _) as [r | e']; [discriminate | ].
    destruct e'; simpl in Hrun; try discriminate; injection Hrun as <-;
      repeat split; discriminate. }
  split; [exact Hnot | ].
  destruct decoded as [readings | e'] eqn:Hd; simpl in Hrun.
  - destruct (py_iter readings) as [items | e'] eqn:Hit; simpl in Hrun.
    + destruct (scan_readings float_of_str items sensor_type) as [r | e'] eqn:Hscan;
        simpl in Hrun; [discriminate | ].
      destruct (scan_readings_raises _ _ _ _ Hscan) as [-> | [-> | ->]]; simpl in Hrun;
        [discriminate | | ]; injection Hrun as <-; auto.
    + assert (e' = TypeError) as ->.
      { destruct readings; simpl in Hit; try discriminate; injection Hit as <-;
          reflexivity. }
      simpl in Hrun. injection Hrun as <-; auto.
  - destruct (Hdec e' eq_refl) as (text & Hp & Hj).
    destruct e'; simpl in Hrun; try discriminate; injection Hrun as <-; eauto.
Qed.

Lemma extract_raises_only_uncaught_witness :
  extract_sensor_value long_int_json no_float (PyStr "[1]") "sZ" = Raise ValueError /\
  (ValueError = TypeError \/ ValueError = OverflowError \/
   exists text, PyStr "[1]" = PyStr text /\ long_int_json text = Raise ValueError).
Proof.
  assert (H : extract_sensor_value long_int_json no_float (PyStr "[1]") "sZ"
              = Raise ValueError) by reflexivity.
  split; [exact H | ].
  exact (proj2 (extract_raises_only_uncaught long_int_json no_float (PyStr "[1]") "sZ"
                  ValueError H)).
Defined.

(** X4: a payload that is a list of dicts, none with an integer value too
    large for a float, never makes the extraction raise. *)
Theorem extract_returns_on_entries json_loads float_of_str entries sensor_type :
  Forall harmless entries ->
  exists r,
    extract_sensor_value json_loads float_of_str (PyList entries) sensor_type = Ok r.
Proof.
  intros Hsafe. unfold extract_sensor_value. simpl.
  assert (Hscan : (exists r, scan_readings float_of_str entries sensor_type = Ok r) \/
                  scan_readings float_of_str entries sensor_type = Raise KeyError).
  { induction Hsafe as [ | e entries ((items & ->) & Hint) _ IH]; simpl; [eauto | ].
    destruct (find _ items) as [kv | ] eqn:Hty; simpl; [ | auto].
    destruct (py_eq_str (snd kv) sensor_type); [ | exact IH].
    simpl in Hint.
    destruct (find _ items) as [kv' | ]; simpl; [ | auto].
    destruct (snd kv') as [ | b | n | x | s | l | its]; simpl; eauto.
    - specialize (Hint n eq_refl). destruct (PyFloat.of_int n); [simpl; eauto | congruence].
    - destruct (float_of_str s); simpl; eauto. }
  destruct Hscan as [(r & ->) | ->]; simpl; eauto.
Qed.

Lemma extract_returns_on_entries_witness :
  exists r,
    extract_sensor_value no_json no_float
      (PyList [entry "t1" (PyFloat 21.5%float); entry "sZ" (PyInt 3)]) "sZ" = Ok r.
Proof.
  apply (extract_returns_on_entries no_json no_float
           [entry "t1" (PyFloat 21.5%float); entry "sZ" (PyInt 3)] "sZ").
  repeat constructor; try (eexists; reflexivity).
  - intros n H. discriminate H.
  - intros n H. injection H as <-. vm_compute. discriminate.
Defined.

(* ===================================================================== *)
(** ** The days of a batch *)
(* ===================================================================== *)

(** X5: the results hold one record for each calendar day on which the batch
    has a reading, none for any other day, in ascending order of date; an
    empty batch gives an empty list. *)
Theorem one_record_per_day data sensor_column positive_threshold negative_threshold
  window_size max_vibration consecutive_off_count results :
  engine_results data sensor_column positive_threshold negative_threshold window_size
    max_vibration consecutive_off_count results ->
  StronglySorted Z.lt (map date results) /\
  (forall d, In d (map date results) <->
             exists r, In r data /\ date_of (row_time r) = d) /\
  (data = [] -> results = []).
Proof.
  intros Hres.
  assert (H : exists g, (forall x, time (g x) = row_time x) /\
                        map date results = group_keys (map g data)).
  { destruct Hres as [Hrun | [_ Hrun]].
    - destruct (classified_rows_main sensor_column positive_threshold negative_threshold)
        as (g & Hg & Hmap).
      exists g. split; [exact Hg | ].
      unfold integrated_main.process_frame in Hrun. cbv zeta in Hrun.
      rewrite Hmap in Hrun. exact (days_dates _ _ _ _ _ _ Hrun).
    - destruct (classified_rows_runonce positive_threshold negative_threshold)
        as (g & Hg & Hmap).
      exists g. split; [exact Hg | ].
      unfold integrated_runonce.process_frame in Hrun. cbv zeta in Hrun.
      rewrite Hmap in Hrun. exact (days_dates _ _ _ _ _ _ Hrun). }
  destruct H as (g & Hg & Hdates). rewrite Hdates.
  split; [apply group_keys_sorted | ]. split.
  - intros d. rewrite group_keys_In. split.
    + intros (c & Hc & E). apply in_map_iff in Hc. destruct Hc as (x & <- & Hx).
      exists x. rewrite <- Hg. auto.
    + intros (x & Hx & E). exists (g x). rewrite Hg. split; [apply in_map, Hx | exact E].
  - intros ->. simpl in Hdates. destruct results; [reflexivity | discriminate].
Qed.

Lemma one_record_per_day_witness :
  engine_results scenario SZ 0.41%float (-0.41)%float 15 3%float 100 [scenario_day] /\
  StronglySorted Z.lt (map date [scenario_day]).
Proof.
  assert (H : engine_results scenario SZ 0.41%float (-0.41)%float 15 3%float 100
                [scenario_day]) by (left; vm_compute; reflexivity).
  split; [exact H | ].
  exact (proj1 (one_record_per_day scenario SZ 0.41%float (-0.41)%float 15 3%float 100
                  [scenario_day] H)).
Defined.





(** *** From the fetched rows to the rows the loops read *)



Section RawRows.

Variable json_loads : string -> result pyval.
Variable float_of_str : string -> option float.

Let extract := extract_sensor_value json_loads float_of_str.








End RawRows.




(** A day without an ['sZ'] value: in [integrated_runonce] it has its
    record when it comes in a batch with a day that has values, and the
    call on its rows alone raises. [integrated_main] fills the column and
    returns the record in both cases. *)
Lemma day_without_sZ_alone_raises :
  integrated_runonce.process_vibration_data no_json no_float silent_day_raw
    0.41%float (-0.41)%float 15 3%float 100 = Ok (Some [scenario_day; silent_day]) /\
  integrated_runonce.process_vibration_data no_json no_float
    (raw_rows_of_day 1 silent_day_raw) 0.41%float (-0.41)%float 15 3%float 100
    = Raise TypeError /\
  integrated_main.process_vibration_data no_json no_float
    (raw_rows_of_day 1 silent_day_raw) SZ 0.41%float (-0.41)%float 15 3%float 100
    = Ok (Some [silent_day]).
Proof. repeat split; vm_compute; reflexivity. Qed.

(* ===================================================================== *)
(** ** More on the ON-time scan *)
(* ===================================================================== *)

(** A loop whose body never breaks ends where its condition fails. *)
Lemma while_loop_exit {St : Type} (cond : St -> bool) (body : St -> option (ctl St)) :
  (forall s c, body s = Some c -> exists s1, c = Continue s1) ->
  forall fuel s s', while_loop fuel cond body s = Some s' -> cond s' = false.
Proof.
  intros Hbody fuel. induction fuel as [ | fuel IH]; intros s s' Hrun; [discriminate | ].
  simpl in Hrun. destruct (cond s) eqn:Hc.
  - destruct (body s) as [c | ] eqn:Hb; [ | discriminate].
    destruct (Hbody s c Hb) as (s1 & ->). exact (IH s1 s' Hrun).
  - injection Hrun as <-. exact Hc.
Qed.

(** A window of no length holds no row. *)
Lemma window_rows_empty window_delta group t :
  window_delta <= 0 -> window_rows group t (t + window_delta) = [].
Proof.
  intros Hw. unfold window_rows. induction group as [ | x group IH]; [reflexivity | ].
  simpl. rewrite IH.
  destruct (t <=? time x) eqn:Hlo; [ | reflexivity].
  apply Z.leb_le in Hlo. assert (Hhi : (time x <? t + window_delta) = false)
    by (apply Z.ltb_ge; lia).
  rewrite Hhi. reflexivity.
Qed.

(** With a window of no length the scan never gets past an ON row. *)
Lemma on_time_loop_stuck window_delta group :
  window_delta <= 0 ->
  forall fuel i total,
    (exists k, (i <= k < List.length group)%nat /\ ON (iloc group k) = true) ->
    on_time_loop window_delta group fuel (i, total) = None.
Proof.
  intros Hw fuel. induction fuel as [ | fuel IH]; intros i total (k & Hk & Hon);
    [reflexivity | ].
  unfold on_time_loop in *. simpl.
  assert (Hc : (i <? len_group group)%nat = true) by (apply Nat.ltb_lt; unfold len_group; lia).
  rewrite Hc. destruct (ON (iloc group i)) eqn:Hi.
  - rewrite (window_rows_empty _ _ _ Hw). simpl.
    apply IH. exists i. split; [lia | exact Hi].
  - apply IH. exists k. split; [ | exact Hon].
    assert (i <> k) by (intros ->; congruence). lia.
Qed.

(** Without an ON row the scan walks through the day. *)
Lemma on_time_loop_all_off window_delta group :
  (forall r, In r group -> ON r = false) ->
  sum_on_seconds window_delta group = Some 0%Q.
Proof.
  intros Hoff. unfold sum_on_seconds, on_time_loop.
  assert (Hrun : forall fuel i total,
             (List.length group - i < fuel)%nat ->
             exists j, while_loop fuel (fun st : nat * Q => (fst st <? len_group group)%nat)
                         (fun st => Some (Continue (on_time_body window_delta group st)))
                         (i, total) = Some (j, total)).
  { intros fuel. induction fuel as [ | fuel IH]; intros i total Hf; [lia | ].
    simpl. destruct (i <? len_group group)%nat eqn:Hc; [ | eauto].
    apply Nat.ltb_lt in Hc. unfold len_group in Hc.
    rewrite (Hoff (iloc group i)) by (apply nth_In; exact Hc).
    apply IH. lia. }
  destruct (Hrun (S (len_group group)) 0%nat 0%Q) as (j & ->); [unfold len_group; lia | ].
  reflexivity.
Qed.

(** X8: the ON-time loop fails to end exactly when the window has no length
    (zero or negative minutes) and the day has an ON row: then it never
    ends, whatever the number of turns allowed. *)
Theorem on_time_loop_hangs_iff window_delta group :
  (sum_on_seconds window_delta group = None <->
   window_delta <= 0 /\ exists r, In r group /\ ON r = true) /\
  (window_delta <= 0 -> (exists r, In r group /\ ON r = true) ->
   forall fuel, on_time_loop window_delta group fuel (0%nat, 0%Q) = None).
Proof.
  assert (Hstuck : window_delta <= 0 -> (exists r, In r group /\ ON r = true) ->
                   forall fuel, on_time_loop window_delta group fuel (0%nat, 0%Q) = None).
  { intros Hw (r & Hr & Hon) fuel. apply on_time_loop_stuck; [exact Hw | ].
    destruct (In_nth _ _ {| time := 0; value := nan; ON := false |} Hr) as (k & Hk & Ek).
    exists k. split; [lia | ]. unfold iloc. rewrite Ek. exact Hon. }
  split; [ | exact Hstuck]. split.
  - intros Hnone. destruct (Z_lt_le_dec 0 window_delta) as [Hpos | Hw].
    + destruct (sum_on_seconds_returns window_delta group Hpos) as (total & E). congruence.
    + split; [exact Hw | ].
      destruct (existsb ON group) eqn:Hex.
      * apply existsb_exists in Hex. exact Hex.
      * rewrite on_time_loop_all_off in Hnone; [discriminate | ].
        intros r Hr. destruct (ON r) eqn:Hon; [ | reflexivity].
        assert (existsb ON group = true) by (apply existsb_exists; eauto). congruence.
  - intros [Hw Hex]. unfold sum_on_seconds. rewrite (Hstuck Hw Hex). reflexivity.
Qed.

(** X9: the ON seconds of a time-sorted day do not exceed the time between
    its first and its last reading. *)
Theorem on_seconds_within_span window_delta group total :
  time_sorted group ->
  sum_on_seconds window_delta group = Some total ->
  (0 <= total)%Q /\ (total <= total_seconds (time_max group - time_min group))%Q.
Proof.
  intros Hs. unfold sum_on_seconds, on_time_loop.
  destruct (while_loop _ _ _ _) as [[i tot] | ] eqn:Hrun; [ | discriminate].
  simpl. intros E. injection E as ->.
  assert (Hinv : on_time_inv group (i, total)).
  { apply (while_loop_invariant _ _ (on_time_inv group)) in Hrun; [exact Hrun | | ].
    - intros s c Hi Hc Hb. injection Hb as <-. simpl.
      apply on_time_body_inv; [exact Hs | exact Hi | ].
      apply Nat.ltb_lt in Hc. exact Hc.
    - unfold on_time_inv. simpl. split; [apply Qle_refl | ].
      apply total_seconds_nonneg. lia. }
  destruct Hinv as [H0 Hle]. simpl in H0, Hle. split; [exact H0 | ].
  eapply Qle_trans; [exact Hle | ]. apply total_seconds_le.
  destruct group as [ | x g] eqn:Eg.
  - unfold iloc. destruct (Nat.min _ _); simpl; lia.
  - rewrite <- Eg in *.
    assert (Hne : group <> []) by (rewrite Eg; discriminate).
    assert (Hlen : (0 < List.length group)%nat) by (rewrite Eg; simpl; lia).
    set (k := Nat.min i (List.length group - 1)) in *.
    assert (H1 : In (iloc group k) group) by (apply nth_In; lia).
    assert (H2 : In (iloc group 0) group) by (apply nth_In; lia).
    destruct (time_max_spec group Hne) as [_ Hmax].
    destruct (time_min_spec group Hne) as [_ Hmin].
    specialize (Hmax _ H1). specialize (Hmin _ H2). lia.
Qed.

Lemma on_seconds_within_span_witness :
  time_sorted scenario_group /\
  sum_on_seconds (Timedelta_minutes 15) scenario_group
    = Some (180000000000 # 1000000000) /\
  (180000000000 # 1000000000
   <= total_seconds (time_max scenario_group - time_min scenario_group))%Q.
Proof.
  assert (Hs : time_sorted scenario_group) by apply sort_values_time_sorted.
  assert (Hrun : sum_on_seconds (Timedelta_minutes 15) scenario_group
                 = Some (180000000000 # 1000000000)) by (vm_compute; reflexivity).
  split; [exact Hs | ]. split; [exact Hrun | ].
  exact (proj2 (on_seconds_within_span (Timedelta_minutes 15) scenario_group
                  (180000000000 # 1000000000) Hs Hrun)).
Defined.

(** Among readings at least a window apart, a window holds at most one. *)
Lemma spaced_window_small w group t :
  0 < w -> spaced w group -> (List.length (window_rows group t (t + w)) <= 1)%nat.
Proof.
  intros Hw Hsp. unfold window_rows.
  induction Hsp as [ | x group Hsp IH Hall]; simpl; [lia | ].
  destruct ((t <=? time x) && (time x <? t + w)) eqn:Hx; [ | exact IH].
  apply andb_true_iff in Hx. destruct Hx as [Hlo Hhi].
  apply Z.leb_le in Hlo. apply Z.ltb_lt in Hhi.
  assert (Hnone : filter (fun r => (t <=? time r) && (time r <? t + w)) group = []).
  { clear IH Hsp. induction group as [ | y group IHg]; [reflexivity | ].
    inversion Hall as [ | ? ? Hy Hall']; subst. simpl.
    assert (Hyhi : (time y <? t + w) = false) by (apply Z.ltb_ge; lia).
    rewrite Hyhi, andb_false_r. apply IHg, Hall'. }
  rewrite Hnone. simpl. lia.
Qed.

(** X10: sampling no faster than the window credits nothing: when the
    readings of a day are at least [window_minutes] apart from one
    another, its ON seconds are 0, however many of them are ON. *)
Theorem sparse_readings_credit_nothing window_delta group :
  0 < window_delta -> spaced window_delta group ->
  sum_on_seconds window_delta group = Some 0%Q.
Proof.
  intros Hw Hsp.
  destruct (sum_on_seconds_returns window_delta group Hw) as (total & Hrun).
  rewrite Hrun. f_equal.
  unfold sum_on_seconds, on_time_loop in Hrun.
  destruct (while_loop _ _ _ _) as [[i tot] | ] eqn:Hloop; [ | discriminate].
  simpl in Hrun. injection Hrun as ->.
  apply (while_loop_invariant _ _ (fun st : nat * Q => snd st = 0%Q)) in Hloop;
    [exact Hloop | | reflexivity].
  intros [j t0] c Ht0 _ Hb.
  assert (Hc : c = Continue (on_time_body window_delta group (j, t0))) by congruence.
  subst c. simpl in Ht0. subst t0. cbn [ctl_state].
  rewrite on_time_body_eq. destruct (ON (iloc group j)); [ | reflexivity].
  cbv zeta. simpl snd.
  pose proof (spaced_window_small window_delta group (time (iloc group j)) Hw Hsp) as Hn.
  fold (window_at window_delta group j) in Hn.
  assert (E : (1 <? List.length (window_at window_delta group j))%nat = false)
    by (apply Nat.ltb_ge; exact Hn).
  rewrite E. reflexivity.
Qed.

Lemma sparse_readings_credit_nothing_witness :
  0 < Timedelta_minutes 15 /\ spaced (Timedelta_minutes 15) sparse_group /\
  sum_on_seconds (Timedelta_minutes 15) sparse_group = Some 0%Q.
Proof.
  assert (Hw : 0 < Timedelta_minutes 15) by reflexivity.
  assert (Hsp : spaced (Timedelta_minutes 15) sparse_group).
  { unfold spaced, sparse_group. repeat constructor; vm_compute; discriminate. }
  split; [exact Hw | ]. split; [exact Hsp | ].
  exact (sparse_readings_credit_nothing (Timedelta_minutes 15) sparse_group Hw Hsp).
Defined.

(* ===================================================================== *)
(** ** More on the cycle counter *)
(* ===================================================================== *)

(** What is below a negative number is below every positive one. *)
Lemma float_below_negative pos neg v :
  (0 <? pos)%float = true -> (neg <? 0)%float = true -> (v <? neg)%float = true ->
  (pos <? v)%float = false /\ (v <=? pos)%float = true.
Proof.
  rewrite !ltb_spec, leb_spec. change (Prim2SF 0) with (S754_zero false).
  unfold SFltb, SFleb.
  destruct (Prim2SF pos) as [bp | bp | | bp mp ep], (Prim2SF neg) as [bn | bn | | bn mn en],
    (Prim2SF v) as [bv | bv | | bv mv ev];
    simpl; try discriminate;
    repeat match goal with b : bool |- _ => destruct b end;
    simpl; try discriminate; intros _ _ _; split; reflexivity.
Qed.

(** A reading that counts as OFF in the confirmation loop does not pass
    the start test. *)
Lemma off_reading_not_valid positive_threshold max_vibration v :
  off_reading positive_threshold max_vibration v = true ->
  valid_on positive_threshold max_vibration v = false.
Proof.
  unfold off_reading, valid_on. intros H. apply orb_true_iff in H.
  destruct H as [H | H].
  - rewrite (float_leb_not_ltb _ _ H). reflexivity.
  - rewrite (float_ltb_not_leb _ _ H). apply andb_false_r.
Qed.

(** X11: a reading below the negative threshold is ON for the ON-time scan,
    yet for the cycle counter it is an OFF reading: it starts no cycle
    and, in the confirmation loop, adds one to the OFF counter. *)
Theorem negative_excursion_is_on_but_off_for_cycles positive_threshold negative_threshold
  max_vibration consecutive_off_count group j :
  (0 <? positive_threshold)%float = true ->
  (negative_threshold <? 0)%float = true ->
  (loc group j <? negative_threshold)%float = true ->
  is_on positive_threshold negative_threshold (loc group j) = true /\
  valid_on positive_threshold max_vibration (loc group j) = false /\
  (forall count,
     search_body positive_threshold max_vibration consecutive_off_count group (j, count)
       = Some (Continue ((j + 1)%nat, count))) /\
  (forall off_counter,
     snd (ctl_state (confirm_body positive_threshold max_vibration
                       consecutive_off_count group (j, off_counter)))
       = off_counter + 1).
Proof.
  intros Hpos Hneg Hv.
  destruct (float_below_negative _ _ _ Hpos Hneg Hv) as [Hlt Hle].
  assert (Hvalid : valid_on positive_threshold max_vibration (loc group j) = false)
    by (unfold valid_on; rewrite Hlt; reflexivity).
  repeat split.
  - unfold is_on. rewrite Hv. apply orb_true_r.
  - exact Hvalid.
  - intros count. unfold search_body. rewrite Hvalid. reflexivity.
  - intros c. unfold confirm_body, off_reading. rewrite Hle. simpl.
    destruct (consecutive_off_count <=? c + 1); [reflexivity | ].
    destruct (len_group group <=? j + 1)%nat; reflexivity.
Qed.

Lemma negative_excursion_is_on_but_off_for_cycles_witness :
  (0 <? 0.41)%float = true /\ (-0.41 <? 0)%float = true /\
  (loc dip_group 1 <? -0.41)%float = true /\
  is_on 0.41%float (-0.41)%float (loc dip_group 1) = true /\
  valid_on 0.41%float 3%float (loc dip_group 1) = false.
Proof.
  assert (H1 : (0 <? 0.41)%float = true) by (vm_compute; reflexivity).
  assert (H2 : (-0.41 <? 0)%float = true) by (vm_compute; reflexivity).
  assert (H3 : (loc dip_group 1 <? -0.41)%float = true) by (vm_compute; reflexivity).
  split; [exact H1 | ]. split; [exact H2 | ]. split; [exact H3 | ].
  pose proof (negative_excursion_is_on_but_off_for_cycles 0.41%float (-0.41)%float 3%float
                100 dip_group 1 H1 H2 H3) as (Hon & Hvalid & _).
  split; [exact Hon | exact Hvalid].
Defined.

Section MoreCycles.

Variables positive_threshold max_vibration : float.
Variable consecutive_off_count : Z.
Variable group : list classified.

Let len : nat := List.length group.
Let valid (j : nat) : bool := valid_on positive_threshold max_vibration (loc group j).
Let N : Z := consecutive_off_count.

(** The slide ends within the day. *)
Lemma slide_loop_within fuel j :
  (j <= len)%nat -> (len - j < fuel)%nat ->
  exists j',
    while_loop fuel
      (fun j => (j <? len_group group)%nat &&
                valid_on positive_threshold max_vibration (loc group j))
      (fun j => Some (slide_body group j)) j = Some j' /\
    (j <= j' <= len)%nat.
Proof.
  revert j. induction fuel as [ | fuel IH]; intros j Hj Hf; [lia | ].
  simpl. destruct ((j <? len_group group)%nat && _) eqn:Hc.
  - apply andb_true_iff in Hc. destruct Hc as [Hlt _]. apply Nat.ltb_lt in Hlt.
    unfold slide_body, len_group in *. fold len in Hlt |- *.
    destruct (len <=? j + 1)%nat eqn:Hend.
    + apply Nat.leb_le in Hend. exists (j + 1)%nat. split; [reflexivity | lia].
    + apply Nat.leb_gt in Hend.
      destruct (IH (j + 1)%nat ltac:(lia) ltac:(lia)) as (j' & Hrun & Hle).
      exists j'. split; [exact Hrun | lia].
  - exists j. split; [reflexivity | lia].
Qed.

(** The confirmation loop ends within the day; where it stops before the
    end, it stops on an OFF reading, the last of [consecutive_off_count]
    counted ones. *)
Lemma confirm_loop_stops fuel j c :
  1 <= N -> 0 <= c -> (j <= len)%nat -> (len - j < fuel)%nat ->
  exists j' c',
    while_loop fuel (fun st : nat * Z => (fst st <? len_group group)%nat)
      (fun st => Some (confirm_body positive_threshold max_vibration
                         consecutive_off_count group st)) (j, c) = Some (j', c') /\
    (j <= j' <= len)%nat /\
    ((j' < len)%nat ->
     off_reading positive_threshold max_vibration (loc group j') = true /\
     Z.of_nat j + N <= Z.of_nat j' + c + 1).
Proof.
  intros HN. revert j c. induction fuel as [ | fuel IH]; intros j c Hc0 Hj Hf; [lia | ].
  simpl. destruct (j <? len_group group)%nat eqn:Hc.
  - apply Nat.ltb_lt in Hc. unfold len_group in Hc |- *. fold len in Hc |- *.
    destruct (off_reading positive_threshold max_vibration (loc group j)) eqn:Hoff.
    + fold N. destruct (N <=? c + 1) eqn:Hbreak.
      * apply Z.leb_le in Hbreak. exists j, (c + 1). split; [reflexivity | ].
        split; [lia | ]. intros _. split; [exact Hoff | lia].
      * destruct (len <=? j + 1)%nat eqn:Hend.
        -- apply Nat.leb_le in Hend. exists (j + 1)%nat, (c + 1).
           split; [reflexivity | ]. split; lia.
        -- apply Nat.leb_gt in Hend.
           destruct (IH (j + 1)%nat (c + 1) ltac:(lia) ltac:(lia) ltac:(lia))
             as (j' & c' & Hrun & Hle & Hstop).
           unfold len_group in Hrun. fold len in Hrun.
           exists j', c'. split; [exact Hrun | ]. split; [lia | ].
           intros Hlt. destruct (Hstop Hlt) as [Ho Hn]. split; [exact Ho | lia].
    + fold N. destruct (N <=? 0) eqn:Hbreak; [apply Z.leb_le in Hbreak; lia | ].
      destruct (len <=? j + 1)%nat eqn:Hend.
      * apply Nat.leb_le in Hend. exists (j + 1)%nat, 0.
        split; [reflexivity | ]. split; lia.
      * apply Nat.leb_gt in Hend.
        destruct (IH (j + 1)%nat 0 ltac:(lia) ltac:(lia) ltac:(lia))
          as (j' & c' & Hrun & Hle & Hstop).
        unfold len_group in Hrun. fold len in Hrun.
        exists j', c'. split; [exact Hrun | ]. split; [lia | ].
        intros Hlt. destruct (Hstop Hlt) as [Ho Hn]. split; [exact Ho | lia].
  - apply Nat.ltb_ge in Hc. unfold len_group in Hc. fold len in Hc.
    exists j, c. split; [reflexivity | ]. split; lia.
Qed.

(** One turn of the search: over a row that fails the start test it moves
    by one; at a row that passes it counts a cycle and moves either to the
    end of the day or onto the OFF reading that confirmed the end of the
    cycle, at least [consecutive_off_count] rows further. *)
Lemma search_body_moves j count :
  1 <= N -> (j < len)%nat ->
  exists j' count',
    search_body positive_threshold max_vibration consecutive_off_count group (j, count)
      = Some (Continue (j', count')) /\
    (j < j' <= len)%nat /\
    ((valid j = false /\ count' = count /\ j' = (j + 1)%nat) \/
     (valid j = true /\ count' = count + 1 /\
      ((j' < len)%nat -> valid j' = false /\ Z.of_nat j + N <= Z.of_nat j'))).
Proof.
  intros HN Hj. unfold search_body.
  destruct (valid_on positive_threshold max_vibration (loc group j)) eqn:Hv.
  - destruct (slide_returns positive_threshold max_vibration group j)
      as (j1 & Hslide & _ & Hlt).
    specialize (Hlt Hj Hv).
    destruct (slide_loop_within (S (len_group group)) j ltac:(lia)
                ltac:(unfold len_group; fold len; lia)) as (j1' & Hslide' & Hle1).
    unfold slide in Hslide. rewrite Hslide in Hslide'. injection Hslide' as <-.
    fold (slide positive_threshold max_vibration group j) in Hslide. rewrite Hslide.
    destruct (confirm_loop_stops (S (len_group group)) j1 0 HN ltac:(lia) ltac:(lia)
                ltac:(unfold len_group; fold len; lia))
      as (j2 & c2 & Hconf & Hle2 & Hstop).
    unfold confirm_off. rewrite Hconf.
    exists j2, (count + 1). split; [reflexivity | ]. split; [lia | ].
    right. split; [exact Hv | ]. split; [reflexivity | ].
    intros Hlt2. destruct (Hstop Hlt2) as [Hoff Hn].
    split; [apply off_reading_not_valid, Hoff | lia].
  - exists (j + 1)%nat, count. split; [reflexivity | ]. split; [lia | ].
    left. auto.
Qed.

(** The starts of two cycles are more than [consecutive_off_count] rows
    apart: a day of [len] rows has at most [1 + (len - 1) / (N + 1)]
    cycles; in particular at most one when it has no more rows than
    [consecutive_off_count]. *)
Lemma count_cycles_spacing n :
  1 <= N ->
  count_cycles positive_threshold max_vibration consecutive_off_count group = Some n ->
  0 <= n /\ (n = 0 \/ (n - 1) * (N + 1) + 1 <= Z.of_nat len).
Proof.
  intros HN. unfold count_cycles.
  destruct (while_loop _ _ _ _) as [[j n'] | ] eqn:Hrun; [ | discriminate].
  simpl. intros E. injection E as ->.
  set (f := fun j : nat => (Z.of_nat j + if (j <? len)%nat && negb (valid j) then 1 else 0)).
  set (Inv := fun st : nat * Z =>
                (fst st <= len)%nat /\ 0 <= snd st /\
                (snd st * (N + 1) <= f (fst st) \/
                 ((len <= fst st)%nat /\ 1 <= snd st /\
                  (snd st - 1) * (N + 1) + 1 <= Z.of_nat len))).
  assert (Hinv : Inv (j, n)).
  { apply (while_loop_invariant _ _ Inv) in Hrun; [exact Hrun | | ].
    - intros [j0 c0] c (Hle & Hc0 & Hpot) Hc Hb. simpl in Hle, Hc0, Hpot, Hc.
      apply Nat.ltb_lt in Hc. unfold len_group in Hc. fold len in Hc.
      destruct (search_body_moves j0 c0 HN Hc) as (j' & c' & Hb' & Hmove & Hcase).
      rewrite Hb' in Hb. injection Hb as <-. unfold Inv. simpl.
      destruct Hpot as [Hpot | (Hend & _)]; [ | lia].
      unfold f in Hpot.
      assert (Hlt0 : (j0 <? len)%nat = true) by (apply Nat.ltb_lt; exact Hc).
      rewrite Hlt0 in Hpot. simpl in Hpot.
      destruct Hcase as [(Hv & -> & ->) | (Hv & -> & Hstop)].
      + rewrite Hv in Hpot. simpl in Hpot. split; [lia | ]. split; [lia | ].
        left. unfold f. destruct ((j0 + 1 <? len)%nat && negb (valid (j0 + 1))); lia.
      + rewrite Hv in Hpot. simpl in Hpot. split; [lia | ]. split; [lia | ].
        destruct (Nat.lt_ge_cases j' len) as [Hlt' | Hge'].
        * destruct (Hstop Hlt') as [Hv' Hfar]. left. unfold f.
          assert (Hlt1 : (j' <? len)%nat = true) by (apply Nat.ltb_lt; exact Hlt').
          rewrite Hlt1, Hv'. simpl. nia.
        * right. split; [exact Hge' | ]. split; [lia | ].
          replace (c0 + 1 - 1) with c0 by lia. lia.
    - unfold Inv, f. simpl. split; [lia | ]. split; [lia | ]. left.
      destruct ((0 <? len)%nat && negb (valid 0)); lia. }
  destruct Hinv as (Hle & Hn0 & Hpot). simpl in Hle, Hn0, Hpot.
  split; [exact Hn0 | ].
  destruct Hpot as [Hpot | (_ & _ & Hpot)]; [ | right; exact Hpot].
  destruct (Z.eq_dec n 0) as [-> | Hne]; [left; reflexivity | right].
  unfold f in Hpot.
  destruct ((j <? len)%nat && negb (valid j)) eqn:Hb.
  - apply andb_true_iff in Hb. destruct Hb as [Hlt _]. apply Nat.ltb_lt in Hlt. nia.
  - nia.
Qed.

End MoreCycles.

(** X12: two cycles need more than [consecutive_off_count] rows between their
    starts: a day of [len] rows has at most [1 + (len - 1) / (N + 1)]
    cycles, and at most one when it has no more rows than
    [consecutive_off_count] (100 in both files). *)
Theorem cycles_are_spaced positive_threshold max_vibration consecutive_off_count group n :
  1 <= consecutive_off_count ->
  count_cycles positive_threshold max_vibration consecutive_off_count group = Some n ->
  0 <= n /\
  (n = 0 \/ (n - 1) * (consecutive_off_count + 1) + 1 <= Z.of_nat (List.length group)) /\
  (Z.of_nat (List.length group) <= consecutive_off_count -> n <= 1).
Proof.
  intros HN Hrun.
  destruct (count_cycles_spacing _ _ _ _ n HN Hrun) as [H0 Hsp].
  split; [exact H0 | ]. split; [exact Hsp | ].
  intros Hshort. destruct Hsp as [-> | Hsp]; [lia | nia].
Qed.

Lemma cycles_are_spaced_witness :
  1 <= 100 /\
  count_cycles 0.41%float 3%float 100 dropout_group = Some 1 /\
  (1 = 0 \/ (1 - 1) * (100 + 1) + 1 <= Z.of_nat (List.length dropout_group)).
Proof.
  assert (HN : 1 <= 100) by lia.
  assert (Hrun : count_cycles 0.41%float 3%float 100 dropout_group = Some 1)
    by (vm_compute; reflexivity).
  split; [exact HN | ]. split; [exact Hrun | ].
  exact (proj1 (proj2 (cycles_are_spaced 0.41%float 3%float 100 dropout_group 1 HN Hrun))).
Defined.

Lemma search_body_continues positive_threshold max_vibration consecutive_off_count group
  s c :
  search_body positive_threshold max_vibration consecutive_off_count group s = Some c ->
  exists s1, c = Continue s1.
Proof.
  destruct s as [j count]. unfold search_body.
  destruct (valid_on _ _ _).
  - destruct (slide _ _ _ _) as [j1 | ]; [ | discriminate].
    destruct (confirm_off _ _ _ _ _) as [[j2 c2] | ]; [ | discriminate].
    intros H. injection H as <-. eauto.
  - intros H. injection H as <-. eauto.
Qed.

(** X13: a day has no cycle exactly when none of its readings passes the start
    test [positive_threshold < value <= max_vibration]: one such reading,
    wherever it is, makes at least one cycle. *)
Theorem no_cycle_iff_no_start positive_threshold max_vibration consecutive_off_count
  group :
  count_cycles positive_threshold max_vibration consecutive_off_count group = Some 0 <->
  forall r, In r group -> valid_on positive_threshold max_vibration (value r) = false.
Proof.
  split.
  - unfold count_cycles.
    destruct (while_loop _ _ _ _) as [[j n] | ] eqn:Hrun; [ | discriminate].
    simpl. intros E. injection E as ->.
    pose proof (while_loop_exit _ _
                  (search_body_continues positive_threshold max_vibration
                     consecutive_off_count group) _ _ _ Hrun) as Hexit.
    simpl in Hexit. apply Nat.ltb_ge in Hexit. unfold len_group in Hexit.
    apply (while_loop_invariant _ _
             (fun st : nat * Z =>
                0 <= snd st /\
                (snd st = 0 ->
                 forall k, (k < fst st)%nat -> (k < List.length group)%nat ->
                           valid_on positive_threshold max_vibration (loc group k) = false)))
      in Hrun.
    + destruct Hrun as [_ Hall]. simpl in Hall. intros r Hr.
      destruct (In_nth _ _ {| time := 0; value := nan; ON := false |} Hr) as (k & Hk & Ek).
      specialize (Hall eq_refl k ltac:(lia) Hk). unfold loc, iloc in Hall.
      rewrite Ek in Hall. exact Hall.
    + intros [j0 c0] c [Hc0 Hall] Hcond Hb. simpl in Hc0, Hall, Hcond.
      unfold search_body in Hb.
      destruct (valid_on positive_threshold max_vibration (loc group j0)) eqn:Hv.
      * destruct (slide _ _ _ _) as [j1 | ]; [ | discriminate].
        destruct (confirm_off _ _ _ _ _) as [[j2 c2] | ]; [ | discriminate].
        injection Hb as <-. simpl. split; [lia | intros; lia].
      * injection Hb as <-. simpl. split; [exact Hc0 | ].
        intros E k Hk Hlen. destruct (Nat.eq_dec k j0) as [-> | Hne]; [exact Hv | ].
        apply Hall; [exact E | lia | exact Hlen].
    + simpl. split; [lia | intros _ k Hk; lia].
  - intros Hnone.
    destruct (count_cycles_returns positive_threshold max_vibration
                consecutive_off_count group) as (n & Hrun).
    pose proof (count_cycles_bound _ _ _ _ _ Hrun) as Hbound.
    assert (E : filter (fun r => valid_on positive_threshold max_vibration (value r)) group
                = []).
    { clear Hrun Hbound. induction group as [ | x g IH]; [reflexivity | ].
      simpl. rewrite (Hnone x (or_introl eq_refl)). apply IH.
      intros r Hr. apply Hnone. right. exact Hr. }
    rewrite E in Hbound. simpl in Hbound. rewrite Hrun. f_equal. lia.
Qed.

(* ===================================================================== *)
(** ** The hours and minutes of a record *)
(* ===================================================================== *)

Lemma divmod60_parts m h mi :
  (h, mi) = divmod60 m -> 0 <= mi < 60 /\ h * 60 + mi = m.
Proof.
  unfold divmod60. intros E. injection E as -> ->.
  pose proof (Z.mod_pos_bound m 60 ltac:(lia)).
  pose proof (Z.div_mod m 60 ltac:(lia)). lia.
Qed.

Lemma minutes_of_a_day_arith (on qa qb : Q) :
  (0 <= on)%Q -> (on < 86400)%Q ->
  (60 * qa <= on)%Q -> (on < 60 * qa + 60)%Q ->
  (60 * qb <= 86400 - on)%Q -> (86400 - on < 60 * qb + 60)%Q ->
  (-1 < qa)%Q /\ (qa < 1440)%Q /\ (-1 < qb)%Q /\ (qb <= 1440)%Q /\
  (1438 < qa + qb)%Q /\ (qa + qb <= 1440)%Q /\ (qb == 1440 -> on == 0)%Q.
Proof.
  intros. repeat match goal with |- _ /\ _ => split end; lra.
Qed.

(** The whole minutes of the ON and of the OFF seconds of a day add up to
    1440 or, when the ON seconds are not whole minutes, to 1439. *)
Lemma whole_minutes_of_a_day (on : Q) :
  (0 <= on)%Q -> (on < 86400)%Q ->
  0 <= whole_minutes on <= 1439 /\
  0 <= whole_minutes (total_off_seconds on) <= 1440 /\
  1439 <= whole_minutes on + whole_minutes (total_off_seconds on) <= 1440 /\
  (whole_minutes (total_off_seconds on) = 1440 -> (on == 0)%Q).
Proof.
  intros H0 Hlt.
  destruct (whole_minutes_bounds on) as [Hlo Hhi].
  destruct (whole_minutes_bounds (total_off_seconds on)) as [Hlo' Hhi'].
  unfold total_off_seconds, total_seconds_in_day in *.
  change (24 * 3600)%Q with 86400%Q in *.
  destruct (minutes_of_a_day_arith on _ _ H0 Hlt Hlo Hhi Hlo' Hhi')
    as (Q1 & Q2 & Q3 & Q4 & Q5 & Q6 & Q7).
  set (a := whole_minutes on) in *.
  set (b := whole_minutes (86400 - on)) in *.
  change (-1)%Q with (inject_Z (-1)) in Q1. rewrite <- Zlt_Qlt in Q1.
  change 1440%Q with (inject_Z 1440) in Q2, Q4, Q6.
  rewrite <- Zlt_Qlt in Q2. rewrite <- Zle_Qle in Q4.
  change (-1)%Q with (inject_Z (-1)) in Q3. rewrite <- Zlt_Qlt in Q3.
  rewrite <- inject_Z_plus in Q5, Q6.
  change 1438%Q with (inject_Z 1438) in Q5. rewrite <- Zlt_Qlt in Q5.
  rewrite <- Zle_Qle in Q6.
  repeat split; try lia.
  intros E. apply Q7. rewrite E. reflexivity.
Qed.

(** X14: in every record the minutes are in 0..59, the ON hours in 0..23 and
    the OFF hours in 0..24; the ON and OFF times shown add up to 24:00,
    or to 23:59 when the ON seconds are not whole minutes; and OFF is
    24:00 only for a day without ON time. *)
Theorem shown_times_add_up data sensor_column positive_threshold negative_threshold
  window_size max_vibration consecutive_off_count results :
  engine_results data sensor_column positive_threshold negative_threshold window_size
    max_vibration consecutive_off_count results ->
  Forall (fun r =>
            0 <= on_minutes r < 60 /\ 0 <= off_minutes r < 60 /\
            0 <= on_hours r <= 23 /\ 0 <= off_hours r <= 24 /\
            1439 <= (on_hours r * 60 + on_minutes r) + (off_hours r * 60 + off_minutes r)
                 <= 1440 /\
            (off_hours r = 24 -> off_minutes r = 0 /\ (total_on_seconds r == 0)%Q))
         results.
Proof.
  apply engine_results_Forall.
  intros pos mx N w group d r Hsorted Hsameday Hday.
  destruct (process_day_inv _ _ _ _ _ _ _ Hday)
    as (total & n & Hsum & _ & _ & Etot & _ & Hon & Hoff).
  destruct (sum_on_seconds_bounds w group d total Hsorted Hsameday Hsum) as [H0 Hlt].
  destruct (whole_minutes_of_a_day total H0 Hlt) as (Ha & Hb & Hab & Hfull).
  destruct (divmod60_parts _ _ _ Hon) as [Hmi Hm].
  destruct (divmod60_parts _ _ _ Hoff) as [Hmi' Hm'].
  rewrite Etot.
  repeat split; try lia.
  apply Hfull. lia.
Qed.

Lemma shown_times_add_up_witness :
  engine_results scenario SZ 0.41%float (-0.41)%float 15 3%float 100 [scenario_day] /\
  1439 <= (on_hours scenario_day * 60 + on_minutes scenario_day)
          + (off_hours scenario_day * 60 + off_minutes scenario_day) <= 1440.
Proof.
  assert (H : engine_results scenario SZ 0.41%float (-0.41)%float 15 3%float 100
                [scenario_day]) by (left; vm_compute; reflexivity).
  split; [exact H | ].
  pose proof (shown_times_add_up scenario SZ 0.41%float (-0.41)%float 15 3%float 100
                [scenario_day] H) as Hall.
  exact (proj1 (proj2 (proj2 (proj2 (proj2 (Forall_inv Hall)))))).
Defined.

(* ===================================================================== *)
(** ** Writing the metrics *)
(* ===================================================================== *)

Lemma key_eqb_eq a b : key_eqb a b = true <-> a = b.
Proof.
  destruct a as [[a1 a2] a3], b as [[b1 b2] b3]. unfold key_eqb. simpl.
  rewrite !andb_true_iff, !String.eqb_eq, Z.eqb_eq. split.
  - intros [[-> ->] ->]. reflexivity.
  - intros E. injection E as -> -> ->. auto.
Qed.

Lemma upsert_In_new table x : In x (upsert table x).
Proof.
  induction table as [ | y table IH]; simpl; [auto | ].
  destruct (key_eqb (metric_key y) (metric_key x)); simpl; auto.
Qed.

Lemma upsert_In_other table x y :
  In y table -> metric_key y <> metric_key x -> In y (upsert table x).
Proof.
  intros Hy Hne. induction table as [ | z table IH]; simpl in *; [contradiction | ].
  destruct (key_eqb (metric_key z) (metric_key x)) eqn:E.
  - destruct Hy as [-> | Hy]; [ | right; exact Hy].
    apply key_eqb_eq in E. contradiction.
  - destruct Hy as [-> | Hy]; [left; reflexivity | right; auto].
Qed.

(** The keys after a statement: the same when the key was there, one more
    otherwise. *)
Lemma upsert_keys table x :
  map metric_key (upsert table x)
  = if existsb (fun y => key_eqb (metric_key y) (metric_key x)) table
    then map metric_key table
    else map metric_key table ++ [metric_key x].
Proof.
  induction table as [ | y table IH]; simpl; [reflexivity | ].
  destruct (key_eqb (metric_key y) (metric_key x)) eqn:E; simpl.
  - apply key_eqb_eq in E. rewrite E. reflexivity.
  - rewrite IH. destruct (existsb _ table); reflexivity.
Qed.

Lemma upsert_NoDup table x :
  NoDup (map metric_key table) -> NoDup (map metric_key (upsert table x)).
Proof.
  intros Hnd. rewrite upsert_keys.
  destruct (existsb _ table) eqn:E; [exact Hnd | ].
  apply NoDup_app; [exact Hnd | repeat constructor; simpl; tauto | ].
  intros k Hk [<- | []].
  apply in_map_iff in Hk. destruct Hk as (y & Ey & Hy).
  assert (existsb (fun y => key_eqb (metric_key y) (metric_key x)) table = true).
  { apply existsb_exists. exists y. split; [exact Hy | ]. apply key_eqb_eq. exact Ey. }
  congruence.
Qed.

(** A statement that repeats a row of the table changes nothing. *)
Lemma upsert_same table x :
  NoDup (map metric_key table) -> In x table -> upsert table x = table.
Proof.
  induction table as [ | y table IH]; simpl; intros Hnd Hx; [contradiction | ].
  inversion Hnd as [ | ? ? Hnotin Hnd']; subst.
  destruct (key_eqb (metric_key y) (metric_key x)) eqn:E.
  - apply key_eqb_eq in E. destruct Hx as [-> | Hx]; [reflexivity | ].
    exfalso. apply Hnotin. rewrite E. apply in_map, Hx.
  - destruct Hx as [-> | Hx].
    + assert (key_eqb (metric_key x) (metric_key x) = true) by (apply key_eqb_eq; reflexivity).
      congruence.
    + rewrite (IH Hnd' Hx). reflexivity.
Qed.

Lemma execute_NoDup statements table :
  NoDup (map metric_key table) -> NoDup (map metric_key (execute table statements)).
Proof.
  unfold execute. revert table.
  induction statements as [ | s statements IH]; simpl; intros table Hnd; [exact Hnd | ].
  apply IH, upsert_NoDup, Hnd.
Qed.

Lemma execute_In_other statements table y :
  In y table -> ~ In (metric_key y) (map metric_key statements) ->
  In y (execute table statements).
Proof.
  unfold execute. revert table.
  induction statements as [ | s statements IH]; simpl; intros table Hy Hnot; [exact Hy | ].
  apply IH; [ | tauto]. apply upsert_In_other; [exact Hy | ]. intros E. apply Hnot. auto.
Qed.

(** Statements of distinct keys all end up in the table as written. *)
Lemma execute_In_new statements table x :
  NoDup (map metric_key statements) -> In x statements ->
  In x (execute table statements).
Proof.
  unfold execute. revert table.
  induction statements as [ | s statements IH]; simpl; intros table Hnd Hx; [contradiction | ].
  inversion Hnd as [ | ? ? Hnotin Hnd']; subst.
  destruct Hx as [-> | Hx].
  - apply (execute_In_other statements); [apply upsert_In_new | exact Hnotin].
  - apply IH; assumption.
Qed.

Lemma execute_fixed statements table :
  NoDup (map metric_key table) ->
  (forall x, In x statements -> In x table) ->
  execute table statements = table.
Proof.
  unfold execute. induction statements as [ | s statements IH]; simpl; intros Hnd Hall;
    [reflexivity | ].
  rewrite (upsert_same table s Hnd) by (apply Hall; auto).
  apply IH; [exact Hnd | ]. intros x Hx. apply Hall. auto.
Qed.

(** Statements whose keys are all in the table add no row. *)
Lemma execute_keys_present statements table :
  (forall s, In s statements -> In (metric_key s) (map metric_key table)) ->
  map metric_key (execute table statements) = map metric_key table.
Proof.
  unfold execute. revert table.
  induction statements as [ | s statements IH]; simpl; intros table Hall; [reflexivity | ].
  assert (Hs : map metric_key (upsert table s) = map metric_key table).
  { rewrite upsert_keys.
    assert (E : existsb (fun y => key_eqb (metric_key y) (metric_key s)) table = true).
    { specialize (Hall s (or_introl eq_refl)). apply in_map_iff in Hall.
      destruct Hall as (y & Ey & Hy). apply existsb_exists. exists y.
      split; [exact Hy | apply key_eqb_eq; exact Ey]. }
    rewrite E. reflexivity. }
  rewrite IH; [exact Hs | ].
  intros x Hx. rewrite Hs. apply Hall. auto.
Qed.

(** The keys of the statements of a call: two for each date. *)
Lemma insert_metrics_keys results device_id :
  map metric_key (insert_metrics_to_db results device_id)
  = flat_map (fun d => [ (device_id, "op_hours"%string, d);
                         (device_id, "op_cycles"%string, d) ]) (map date results).
Proof.
  unfold insert_metrics_to_db. induction results as [ | r results IH]; simpl;
    [reflexivity | ].
  rewrite IH. reflexivity.
Qed.

Lemma insert_metrics_keys_NoDup results device_id :
  NoDup (map date results) ->
  NoDup (map metric_key (insert_metrics_to_db results device_id)).
Proof.
  rewrite insert_metrics_keys. induction (map date results) as [ | d ds IH]; simpl;
    intros Hnd; [constructor | ].
  inversion Hnd as [ | ? ? Hnotin Hnd']; subst.
  assert (Hfresh : forall ty, ~ In (device_id, ty, d)
                                (flat_map (fun d => [ (device_id, "op_hours"%string, d);
                                                      (device_id, "op_cycles"%string, d) ]) ds)).
  { intros ty Hin. apply in_flat_map in Hin. destruct Hin as (d' & Hd' & Hin).
    simpl in Hin. destruct Hin as [E | [E | []]]; injection E as _ ->; contradiction. }
  constructor; [ | constructor; [apply Hfresh | apply IH, Hnd']].
  simpl. intros [E | Hin]; [discriminate E | exact (Hfresh _ Hin)].
Qed.

(** X15: writing the results of a call into a table with one row per key:
    the table still has one row per key; it holds, for every date of the
    results, the hours and the cycles of that date; the rows of the other
    devices are as they were; running the same call again changes
    nothing; and a call with other results for the same dates replaces
    the data without adding a row. *)
Theorem rerun_overwrites results device_id table :
  NoDup (map metric_key table) ->
  NoDup (map date results) ->
  let table' := execute table (insert_metrics_to_db results device_id) in
  NoDup (map metric_key table') /\
  (forall r, In r results ->
     In (device_id, "op_hours"%string, date r, OpHours (on_hours_decimal r)) table' /\
     In (device_id, "op_cycles"%string, date r, OpCycles (cycle_count r)) table') /\
  (forall x, In x table -> fst (fst (fst x)) <> device_id -> In x table') /\
  execute table' (insert_metrics_to_db results device_id) = table' /\
  (forall results',
     map date results' = map date results ->
     List.length (execute table' (insert_metrics_to_db results' device_id))
       = List.length table').
Proof.
  intros Htable Hdates table'.
  pose proof (insert_metrics_keys_NoDup results device_id Hdates) as Hkeys.
  assert (Hnd' : NoDup (map metric_key table')) by (apply execute_NoDup, Htable).
  assert (Hin : forall x, In x (insert_metrics_to_db results device_id) -> In x table')
    by (intros x Hx; apply execute_In_new; assumption).
  split; [exact Hnd' | ]. split; [ | split; [ | split]].
  - intros r Hr. split; apply Hin; unfold insert_metrics_to_db; apply in_flat_map;
      exists r; simpl; auto.
  - intros x Hx Hdev. apply execute_In_other; [exact Hx | ].
    rewrite insert_metrics_keys. intros Hk. apply in_flat_map in Hk.
    destruct Hk as (d & _ & Hk). unfold metric_key in Hk. simpl in Hk.
    destruct Hk as [E | [E | []]]; rewrite <- E in Hdev; simpl in Hdev; congruence.
  - apply execute_fixed; assumption.
  - intros results' Hsame.
    rewrite <- (length_map metric_key), execute_keys_present, length_map; [reflexivity | ].
    intros s Hs. apply (in_map metric_key) in Hs.
    rewrite insert_metrics_keys, Hsame, <- insert_metrics_keys in Hs.
    apply in_map_iff in Hs. destruct Hs as (x & <- & Hx).
    apply in_map, Hin, Hx.
Qed.

Lemma rerun_overwrites_witness :
  NoDup (map metric_key old_table) /\ NoDup (map date [scenario_day]) /\
  execute (execute old_table (insert_metrics_to_db [scenario_day] "HFLT001"))
    (insert_metrics_to_db [scenario_day] "HFLT001")
  = execute old_table (insert_metrics_to_db [scenario_day] "HFLT001").
Proof.
  assert (H1 : NoDup (map metric_key old_table)).
  { repeat constructor; simpl; intros H; repeat destruct H as [H | H]; try discriminate H;
      exact H. }
  assert (H2 : NoDup (map date [scenario_day])) by (repeat constructor; simpl; tauto).
  split; [exact H1 | ]. split; [exact H2 | ].
  exact (proj1 (proj2 (proj2 (proj2 (rerun_overwrites [scenario_day] "HFLT001" old_table
                                       H1 H2))))).
Defined.

(* ===================================================================== *)
(** ** A batch with a bad payload, a device *)
(* ===================================================================== *)

Section BatchFacts.

Variable json_loads : string -> result pyval.
Variable float_of_str : string -> option float.

Lemma apply_extract_raises payloads sensor x e :
  In x payloads ->
  extract_sensor_value json_loads float_of_str x sensor = Raise e ->
  exists e', apply_extract json_loads float_of_str payloads sensor = Raise e'.
Proof.
  induction payloads as [ | y payloads IH]; simpl; intros Hx Hraise; [contradiction | ].
  destruct (extract_sensor_value json_loads float_of_str y sensor) as [v | e1] eqn:Hy;
    simpl; [ | eauto].
  destruct Hx as [-> | Hx]; [congruence | ].
  destruct (IH Hx Hraise) as (e' & ->). simpl. eauto.
Qed.

Lemma extract_channels_raises data row c e :
  In row data ->
  extract_sensor_value json_loads float_of_str (sensor_readings row) (channel_name c)
    = Raise e ->
  exists e', extract_channels json_loads float_of_str data = Raise e'.
Proof.
  intros Hrow Hraise.
  destruct (apply_extract_raises (map sensor_readings data) (channel_name c)
              (sensor_readings row) e (in_map _ _ _ Hrow) Hraise) as (e0 & Hcol).
  unfold extract_channels. cbv zeta.
  destruct c; simpl in Hcol |- *;
    repeat match goal with
           | |- exists e', bind (apply_extract ?j ?f ?p ?n) _ = Raise e' =>
               destruct (apply_extract j f p n) eqn:?; simpl; [ | eauto]
           end;
    congruence.
Qed.

End BatchFacts.

(** The names [SENSOR_MAP] gives are names of extracted columns. *)
Lemma sensor_map_get_column sensor_num name :
  sensor_map_get sensor_num = Ok name ->
  exists c, column_of_name name = Some c /\
            (c = SX \/ c = SY \/ c = SZ \/ c = T1 \/ c = T2).
Proof.
  unfold sensor_map_get.
  assert (H : forall v : pyval,
             exists c,
               column_of_name
                 match find (fun kv => py_eq_int v (fst kv)) SENSOR_MAP with
                 | Some kv => snd kv
                 | None => "sZ"%string
                 end = Some c /\
               (c = SX \/ c = SY \/ c = SZ \/ c = T1 \/ c = T2)).
  { intros v. unfold SENSOR_MAP. simpl.
    repeat match goal with
           | |- context [if py_eq_int v ?k then _ else _] => destruct (py_eq_int v k)
           end; simpl; eexists; (split; [reflexivity | ]); tauto. }
  intros E. specialize (H sensor_num).
  destruct sensor_num; simpl in E; try discriminate E; injection E as <-; exact H.
Qed.

(** X16: one payload on which the extraction raises, for any of the seven
    channels, ends [process_vibration_data] with an exception in both
    files: no day of the batch gets a record, not even the days whose
    payloads are well formed. [process_device] swallows the exception and
    stores nothing for the device. *)
Theorem bad_payload_stores_nothing json_loads float_of_str data row c e :
  In row data ->
  extract_sensor_value json_loads float_of_str (sensor_readings row) (channel_name c)
    = Raise e ->
  (forall sensor_column positive_threshold negative_threshold window_size max_vibration
          consecutive_off_count,
     exists e',
       integrated_main.process_vibration_data json_loads float_of_str data sensor_column
         positive_threshold negative_threshold window_size max_vibration
         consecutive_off_count = Raise e') /\
  (forall positive_threshold negative_threshold window_size max_vibration
          consecutive_off_count,
     exists e',
       integrated_runonce.process_vibration_data json_loads float_of_str data
         positive_threshold negative_threshold window_size max_vibration
         consecutive_off_count = Raise e') /\
  (forall device_id device_config outcome,
     process_device json_loads float_of_str (Some data) device_id device_config
       = Ok outcome ->
     outcome = Offline \/ outcome = InvalidThreshold \/ outcome = Failed).
Proof.
  intros Hrow Hraise.
  destruct (extract_channels_raises json_loads float_of_str data row c e Hrow Hraise)
    as (e' & Hx).
  assert (Hmain : forall sc pos neg ws mx N,
             integrated_main.process_vibration_data json_loads float_of_str data sc
               pos neg ws mx N = Raise e').
  { intros. unfold integrated_main.process_vibration_data. rewrite Hx. reflexivity. }
  split; [intros; exists e'; apply Hmain | ].
  split.
  - intros. exists e'. unfold integrated_runonce.process_vibration_data.
    rewrite Hx. reflexivity.
  - intros device_id device_config outcome. unfold process_device.
    destruct (match dict_get device_config "threshold" with
              | Some v => py_eq_str v "OFFLINE"
              | None => false
              end); [intros E; injection E as <-; auto | ].
    destruct (py_float float_of_str _) as [threshold | [ | | | | | | ]];
      try discriminate; try (intros E; injection E as <-; auto).
    destruct (sensor_map_get _) as [name | e1]; simpl; [ | discriminate].
    destruct data as [ | r0 data0]; [contradiction | ].
    destruct (column_of_name name); [ | intros E; injection E as <-; auto].
    rewrite Hmain. intros E; injection E as <-; auto.
Qed.

Lemma bad_payload_stores_nothing_witness :
  In {| sensor_readings := bare_entry; raw_time := 600 * ns_per_second |} spoiled_batch /\
  process_device no_json no_float (Some spoiled_batch) "HFLT001" HFLT001_config = Ok Failed.
Proof.
  assert (Hrow : In {| sensor_readings := bare_entry; raw_time := 600 * ns_per_second |}
                    spoiled_batch) by (unfold spoiled_batch; apply in_or_app; right; left;
                                       reflexivity).
  assert (Hraise : extract_sensor_value no_json no_float bare_entry (channel_name SZ)
                   = Raise TypeError) by reflexivity.
  split; [exact Hrow | ].
  destruct (proj2 (proj2 (bad_payload_stores_nothing no_json no_float spoiled_batch _ SZ
                            TypeError Hrow Hraise))
              "HFLT001"%string HFLT001_config Failed) as [H | [H | H]];
    vm_compute; reflexivity.
Defined.

(** X17: whatever the configured sensor number (hashable) and threshold (not
    an integer too large for a float), [process_device] returns without
    an exception: the column it selects is one of the extracted columns
    sX, sY, sZ, t1, t2, and, the window being 15 minutes, the loops end. *)
Theorem process_device_returns json_loads float_of_str fetched device_id device_config :
  py_float float_of_str
    (or_default (PyFloat 0.41%float) (dict_get device_config "threshold"))
    <> Raise OverflowError ->
  (exists name,
     sensor_map_get (or_default (PyInt 6) (dict_get device_config "sensor")) = Ok name) ->
  exists outcome,
    process_device json_loads float_of_str fetched device_id device_config = Ok outcome /\
    outcome <> Hangs /\
    (forall name,
       sensor_map_get (or_default (PyInt 6) (dict_get device_config "sensor")) = Ok name ->
       exists c, column_of_name name = Some c /\
                 (c = SX \/ c = SY \/ c = SZ \/ c = T1 \/ c = T2)).
Proof.
  intros Hfloat (name & Hname).
  enough (exists outcome,
            process_device json_loads float_of_str fetched device_id device_config
            = Ok outcome /\ outcome <> Hangs) as (outcome & Hrun & Hnot)
    by (exists outcome; split;
        [exact Hrun | split; [exact Hnot | intros name'; apply sensor_map_get_column]]).
  unfold process_device.
  destruct (match dict_get device_config "threshold" with
            | Some v => py_eq_str v "OFFLINE"
            | None => false
            end); [exists Offline; split; [reflexivity | discriminate] | ].
  destruct (py_float float_of_str _) as [threshold | [ | | | | | | ]] eqn:Hf;
    try (exfalso; apply Hfloat; reflexivity);
    try (exists InvalidThreshold; split; [reflexivity | discriminate]);
    try (destruct (or_default (PyFloat 0.41%float) (dict_get device_config "threshold"));
         simpl in Hf;
         repeat match type of Hf with
                | match ?x with _ => _ end = _ => destruct x
                end; discriminate Hf).
  destruct (sensor_map_get_column _ _ Hname) as (c & Hc & _).
  rewrite Hname. cbn [bind].
  destruct fetched as [[ | r0 data0] | ];
    try (eexists; split; [reflexivity | discriminate]).
  rewrite Hc.
  unfold integrated_main.process_vibration_data.
  destruct (extract_channels json_loads float_of_str (r0 :: data0)) as [frame | e1]; simpl;
    [ | exists Failed; split; [reflexivity | discriminate]].
  destruct (proj1 (process_frame_returns frame c threshold (- threshold)%float 15 3%float
                     100 ltac:(lia))) as (results & ->).
  destruct results; eexists; (split; [reflexivity | discriminate]).
Qed.

Lemma process_device_returns_witness :
  exists outcome,
    process_device no_json no_float (Some scenario_raw) "HFLT001" HFLT001_config
      = Ok outcome /\ outcome <> Hangs.
Proof.
  destruct (process_device_returns no_json no_float (Some scenario_raw) "HFLT001"%string
              HFLT001_config) as (outcome & Hrun & Hnot & _).
  - vm_compute. discriminate.
  - eexists. vm_compute. reflexivity.
  - exists outcome. split; assumption.
Defined.

(* ===================================================================== *)
(** ** The order in which the readings arrive *)
(* ===================================================================== *)

Lemma insert_by_time_perm r l : Permutation (r :: l) (insert_by_time r l).
Proof.
  induction l as [ | x l IH]; simpl; [reflexivity | ].
  destruct (time r <=? time x); [reflexivity | ].
  rewrite perm_swap. apply perm_skip, IH.
Qed.

Lemma sort_values_time_perm l : Permutation l (sort_values_time l).
Proof.
  unfold sort_values_time. induction l as [ | r l IH]; simpl; [reflexivity | ].
  rewrite <- insert_by_time_perm. apply perm_skip, IH.
Qed.

Lemma time_unique l a b :
  NoDup (map time l) -> In a l -> In b l -> time a = time b -> a = b.
Proof.
  induction l as [ | x l IH]; simpl; intros Hnd Ha Hb E; [contradiction | ].
  inversion Hnd as [ | ? ? Hx Hnd']; subst.
  destruct Ha as [-> | Ha], Hb as [-> | Hb]; auto.
  - exfalso. apply Hx. rewrite E. apply in_map, Hb.
  - exfalso. apply Hx. rewrite <- E. apply in_map, Ha.
Qed.

(** A frame with distinct times has one sorted arrangement. *)
Lemma time_sorted_unique l1 :
  forall l2, time_sorted l1 -> time_sorted l2 -> Permutation l1 l2 ->
             NoDup (map time l1) -> l1 = l2.
Proof.
  induction l1 as [ | a l1 IH]; intros l2 H1 H2 Hp Hnd.
  - apply Permutation_nil in Hp. auto.
  - destruct l2 as [ | b l2]; [apply Permutation_sym, Permutation_nil in Hp; discriminate | ].
    assert (E : a = b).
    { apply (time_unique (a :: l1)); auto.
      - left; reflexivity.
      - apply (Permutation_in b (Permutation_sym Hp)). left; reflexivity.
      - apply StronglySorted_inv in H1 as [_ H1], H2 as [_ H2].
        rewrite Forall_forall in H1, H2.
        assert (Hab : time a <= time b).
        { destruct (Permutation_in b (Permutation_sym Hp) (or_introl eq_refl)) as [<- | Hb];
            [lia | apply H1, Hb]. }
        assert (Hba : time b <= time a).
        { destruct (Permutation_in a Hp (or_introl eq_refl)) as [<- | Ha];
            [lia | apply H2, Ha]. }
        lia. }
    subst b. f_equal.
    apply IH.
    + apply StronglySorted_inv in H1. tauto.
    + apply StronglySorted_inv in H2. tauto.
    + apply Permutation_cons_inv in Hp. exact Hp.
    + inversion Hnd; assumption.
Qed.

Lemma strictly_sorted_unique (l1 : list Z) :
  forall l2, StronglySorted Z.lt l1 -> StronglySorted Z.lt l2 ->
             (forall x, In x l1 <-> In x l2) -> l1 = l2.
Proof.
  induction l1 as [ | a l1 IH]; intros l2 H1 H2 Hin.
  - destruct l2 as [ | b l2]; [reflexivity | ].
    exfalso. apply (proj2 (Hin b)). left; reflexivity.
  - destruct l2 as [ | b l2]; [exfalso; apply (proj1 (Hin a)); left; reflexivity | ].
    apply StronglySorted_inv in H1 as [H1 Ha], H2 as [H2 Hb].
    rewrite Forall_forall in Ha, Hb.
    assert (E : a = b).
    { destruct (proj1 (Hin a) (or_introl eq_refl)) as [E | Hl]; [auto | ].
      destruct (proj2 (Hin b) (or_introl eq_refl)) as [E | Hr]; [auto | ].
      specialize (Ha _ Hr). specialize (Hb _ Hl). lia. }
    subst b. f_equal. apply IH; auto.
    intros x. split; intros Hx.
    + destruct (proj1 (Hin x) (or_intror Hx)) as [<- | ]; [ | assumption].
      specialize (Ha _ Hx). lia.
    + destruct (proj2 (Hin x) (or_intror Hx)) as [<- | ]; [ | assumption].
      specialize (Hb _ Hx). lia.
Qed.

Lemma group_keys_perm data data' :
  Permutation data data' -> group_keys data = group_keys data'.
Proof.
  intros Hp. apply strictly_sorted_unique; try apply group_keys_sorted.
  intros d. rewrite !group_keys_In.
  split; intros (r & Hr & E); exists r; split; auto.
  - apply (Permutation_in r Hp Hr).
  - apply (Permutation_in r (Permutation_sym Hp) Hr).
Qed.

Lemma get_group_perm data data' d :
  Permutation data data' -> Permutation (get_group data d) (get_group data' d).
Proof.
  unfold get_group. induction 1; simpl.
  - reflexivity.
  - destruct (_ =? d); [apply perm_skip | ]; assumption.
  - destruct (date_of (time x) =? d), (date_of (time y) =? d);
      try reflexivity. apply perm_swap.
  - etransitivity; eassumption.
Qed.

Lemma get_group_NoDup data d :
  NoDup (map time data) -> NoDup (map time (get_group data d)).
Proof.
  unfold get_group. induction data as [ | x data IH]; simpl; intros Hnd; [constructor | ].
  inversion Hnd as [ | ? ? Hx Hnd']; subst.
  destruct (_ =? d); simpl; [ | auto].
  constructor; [ | auto].
  rewrite in_map_iff in *. intros (y & E & Hy). apply Hx. exists y. split; [exact E | ].
  apply filter_In in Hy. tauto.
Qed.

Lemma for_each_day_ext f g keys :
  (forall d, In d keys -> f d = g d) -> for_each_day f keys = for_each_day g keys.
Proof.
  induction keys as [ | d keys IH]; simpl; intros H; [reflexivity | ].
  rewrite (H d (or_introl eq_refl)), IH; [reflexivity | ].
  intros d' Hd'. apply H. right; exact Hd'.
Qed.

Lemma days_perm positive_threshold max_vibration consecutive_off_count window_size
  data data' :
  Permutation data data' -> NoDup (map time data) ->
  days positive_threshold max_vibration consecutive_off_count window_size data
  = days positive_threshold max_vibration consecutive_off_count window_size data'.
Proof.
  intros Hp Hnd. unfold days. cbv zeta.
  rewrite <- (group_keys_perm data data' Hp).
  apply for_each_day_ext. intros d _.
  replace (sort_values_time (get_group data' d)) with (sort_values_time (get_group data d));
    [reflexivity | ].
  apply time_sorted_unique; try apply sort_values_time_sorted.
  - rewrite <- !sort_values_time_perm. apply get_group_perm, Hp.
  - apply (Permutation_NoDup (l := map time (get_group data d))).
    + apply Permutation_map, sort_values_time_perm.
    + apply get_group_NoDup, Hnd.
Qed.

(** X7: the records do not depend on the order in which the readings of the
    batch arrive, as long as no two readings carry the same time: the keys
    of the grouping are sorted and every group is sorted by time before
    the loops read it. In both files. *)
Theorem arrival_order_is_irrelevant data data' sensor_column positive_threshold
  negative_threshold window_size max_vibration consecutive_off_count :
  Permutation data data' ->
  NoDup (map row_time data) ->
  integrated_main.process_frame data sensor_column positive_threshold negative_threshold
    window_size max_vibration consecutive_off_count
  = integrated_main.process_frame data' sensor_column positive_threshold negative_threshold
      window_size max_vibration consecutive_off_count /\
  integrated_runonce.process_frame data positive_threshold negative_threshold
    window_size max_vibration consecutive_off_count
  = integrated_runonce.process_frame data' positive_threshold negative_threshold
      window_size max_vibration consecutive_off_count.
Proof.
  intros Hp Hnd.
  destruct (classified_rows_main sensor_column positive_threshold negative_threshold)
    as (g & Hg & Hmain).
  destruct (classified_rows_runonce positive_threshold negative_threshold)
    as (g' & Hg' & Hrunonce).
  unfold integrated_main.process_frame, integrated_runonce.process_frame. cbv zeta.
  rewrite !Hmain, !Hrunonce.
  split; apply days_perm; try (apply Permutation_map, Hp);
    rewrite map_map; [rewrite (map_ext _ row_time Hg) | rewrite (map_ext _ row_time Hg')];
    exact Hnd.
Qed.

Lemma arrival_order_is_irrelevant_witness :
  integrated_main.process_frame scenario SZ 0.41%float (-0.41)%float 15 3%float 100
  = integrated_main.process_frame (rev scenario) SZ 0.41%float (-0.41)%float 15 3%float 100.
Proof.
  assert (Hp : Permutation scenario (rev scenario)) by apply Permutation_rev.
  assert (Hnd : NoDup (map row_time scenario)).
  { vm_compute.
    repeat (constructor;
            [simpl; intros H; repeat destruct H as [H | H]; try discriminate H; contradiction
            | ]).
    constructor. }
  exact (proj1 (arrival_order_is_irrelevant scenario (rev scenario) SZ 0.41%float
                  (-0.41)%float 15 3%float 100 Hp Hnd)).
Defined.
